(** * PDF to image-based PDF converter: a shallow embedding

    The development follows [utils.py], [pdf_to_image_converter.py] and
    the views of [app.py].
    Python strings are modelled as Rocq strings (sequences of 8-bit
    characters), Python [int] as [Z] or [nat], page dimensions (Python
    floats that the code only copies, never computes with) as rationals,
    the file system as a finite map from paths to nodes, and exceptions as
    an explicit result type threaded through a small state monad. *)

From Stdlib Require Import ZArith QArith Qabs Qround Ascii String List Lia Bool.
From stdpp Require Import base option list strings gmap pretty.


(** ** Python string primitives used by the sources *)

Module Py.

(** [c in chars] for a one-character string [c]. *)
Fixpoint mem (c : ascii) (chars : string) : bool :=
  match chars with
  | EmptyString => false
  | String d rest => if Ascii.eqb c d then true else mem c rest
  end.

(** [s.replace(old, new)] for a single character [old] and a single
    character [new]. *)
Fixpoint replace (old new : ascii) (s : string) : string :=
  match s with
  | EmptyString => EmptyString
  | String c rest =>
      String (if Ascii.eqb c old then new else c) (replace old new rest)
  end.

(** [s.lstrip(chars)] *)
Fixpoint lstrip (chars : string) (s : string) : string :=
  match s with
  | EmptyString => EmptyString
  | String c rest => if mem c chars then lstrip chars rest else s
  end.

(** [s.rstrip(chars)] *)
Fixpoint rstrip (chars : string) (s : string) : string :=
  match s with
  | EmptyString => EmptyString
  | String c rest =>
      match rstrip chars rest with
      | EmptyString => if mem c chars then EmptyString else String c EmptyString
      | r => String c r
      end
  end.

(** [s.strip(chars)] *)
Definition strip (chars : string) (s : string) : string :=
  rstrip chars (lstrip chars s).

(** [s[:n]] *)
Fixpoint take (n : nat) (s : string) : string :=
  match n, s with
  | O, _ => EmptyString
  | S _, EmptyString => EmptyString
  | S n', String c rest => String c (take n' rest)
  end.

(** [s[n:]] *)
Fixpoint drop (n : nat) (s : string) : string :=
  match n, s with
  | O, _ => s
  | S _, EmptyString => EmptyString
  | S n', String _ rest => drop n' rest
  end.

(** [s.startswith(p)] *)
Fixpoint startswith (s p : string) : bool :=
  match p, s with
  | EmptyString, _ => true
  | String _ _, EmptyString => false
  | String a p', String b s' => if Ascii.eqb a b then startswith s' p' else false
  end.

(** [s.endswith(p)] *)
Definition endswith (s p : string) : bool :=
  (String.length p <=? String.length s)%nat
  && String.eqb (drop (String.length s - String.length p) s) p.

Definition upper_ascii (c : ascii) : ascii :=
  let n := nat_of_ascii c in
  if ((97 <=? n) && (n <=? 122))%nat then ascii_of_nat (n - 32) else c.

Definition lower_ascii (c : ascii) : ascii :=
  let n := nat_of_ascii c in
  if ((65 <=? n) && (n <=? 90))%nat then ascii_of_nat (n + 32) else c.

Fixpoint map (f : ascii -> ascii) (s : string) : string :=
  match s with
  | EmptyString => EmptyString
  | String c rest => String (f c) (map f rest)
  end.

(** [s.upper()] and [s.lower()].  Characters outside the ASCII letters
    are left alone; no such character upper-cases to a letter of
    [JPEG]/[PNG] or lower-cases to a letter of [.pdf]. *)
Definition upper : string -> string := map upper_ascii.
Definition lower : string -> string := map lower_ascii.

(** [s * n] *)
Fixpoint repeat (s : string) (n : nat) : string :=
  match n with
  | O => EmptyString
  | S n' => s +:+ repeat s n'
  end.

(** Last and first character, when there is one. *)
Fixpoint last (s : string) : option ascii :=
  match s with
  | EmptyString => None
  | String c EmptyString => Some c
  | String _ rest => last rest
  end.

Definition first (s : string) : option ascii :=
  match s with
  | EmptyString => None
  | String c _ => Some c
  end.

(** [str(n)] / [f"{n}"] for an integer. *)
Definition str_int (n : Z) : string := pretty n.
Definition str_nat (n : nat) : string := pretty n.

(** [f"{n:04d}"] for a non-negative integer. *)
Definition str_04d (n : nat) : string :=
  let s := str_nat n in
  repeat "0" (4 - String.length s) +:+ s.

End Py.

(** ** Exceptions and results *)

Inductive exn : Type :=
| ValueError (msg : string)
| RuntimeError (msg : string)
| OSError (msg : string)
| IndexError (msg : string)
| LibraryError (msg : string).

(** [str(e)] / [f"{e}"] *)
Definition exn_str (e : exn) : string :=
  match e with
  | ValueError m | RuntimeError m | OSError m | IndexError m
  | LibraryError m => m
  end.

Inductive result (A : Type) : Type :=
| Ok (a : A)
| Raise (e : exn).
Arguments Ok {A} a.
Arguments Raise {A} e.

(** ** utils.py: sanitize_filename *)

(** The nine characters of [invalid_chars] in the source: less-than,
    greater-than, colon, double quote (character 34), slash, backslash,
    vertical bar, question mark and star. *)
Definition invalid_chars : string :=
  "<>:" +:+ String (ascii_of_nat 34) "/\|?*".

Definition sanitize_filename (filename : string) : string :=
  let sanitized :=
    fold_left (fun acc char => Py.replace char "_"%char acc)
              (list_ascii_of_string invalid_chars) filename in
  let sanitized := Py.strip " ." sanitized in
  let sanitized :=
    if String.eqb sanitized "" then "converted_pdf" else sanitized in
  let sanitized :=
    if (200 <? String.length sanitized)%nat then Py.take 200 sanitized
    else sanitized in
  sanitized.

(** ** pdf_to_image_converter.py: converter settings *)

Record PDFToImageConverter : Type := {
  dpi : Z;
  image_format : string;
  jpeg_quality : Z;
  verbose : bool
}.

Definition dpi_error : exn := ValueError "DPI must be 72, 150, or 300".
Definition format_error : exn := ValueError "Image format must be JPEG or PNG".
Definition quality_error : exn :=
  ValueError "JPEG quality must be between 1 and 100".

Definition Z_in (x : Z) (l : list Z) : bool := existsb (Z.eqb x) l.
Definition str_in (x : string) (l : list string) : bool :=
  existsb (String.eqb x) l.

Definition __init__ (dpi0 : Z) (image_format0 : string) (jpeg_quality0 : Z)
    (verbose0 : bool) : result PDFToImageConverter :=
  let self := {| dpi := dpi0;
                 image_format := Py.upper image_format0;
                 jpeg_quality := jpeg_quality0;
                 verbose := verbose0 |} in
  if negb (Z_in (dpi self) [72; 150; 300]%Z) then Raise dpi_error
  else if negb (str_in (image_format self) ["JPEG"; "PNG"]) then
    Raise format_error
  else if negb ((1 <=? jpeg_quality self)%Z && (jpeg_quality self <=? 100)%Z) then
    Raise quality_error
  else Ok self.

(** ** The file system and the libraries outside the repository *)

(** A path names a regular file with its bytes, or a directory. *)
Inductive node : Type :=
| File (data : string)
| Dir.

(** What PyMuPDF hands back for one page: its rectangle in points and the
    outcome of [get_pixmap] at a given scale (an error text, or a pixmap
    with its pixel size). *)
Record Pixmap : Type := { pm_width : Z; pm_height : Z }.

Record Page : Type := {
  rect_width : Q;
  rect_height : Q;
  get_pixmap : Q -> string + Pixmap
}.

(** An opened document: the encryption method the file declares
    ([metadata['encryption']], [None] for a file that is not encrypted),
    the [is_encrypted] flag as the library reports it once the file is
    open, and the pages.  The library tries the empty password on its own
    when it opens a file, so a file encrypted with an empty user password
    opens with the flag off. *)
Record Document : Type := {
  encryption : option string;
  is_encrypted : bool;
  doc_pages : list Page
}.

(** A file of the temporary directory: the pixmap dumped as PPM, what a
    failed dump left behind, or an encoded page image with its format. *)
Inductive image_file : Type :=
| Ppm (pixmap : Pixmap)
| Truncated
| Encoded (format : string) (data : string).

(** A finished page of the reportlab canvas: the page size set by
    [setPageSize] and the image drawn by [drawImage] with its box. *)
Record OutPage : Type := {
  page_width : Q;
  page_height : Q;
  image_data : image_file;
  image_x : Q;
  image_y : Q;
  image_w : Q;
  image_h : Q
}.

(** The behaviour of the libraries and of the platform that the converter
    calls but does not define. *)
Class Environment : Type := {
  (** [mimetypes.guess_type(path)[0]] *)
  guess_type : string -> option string;
  (** whether [open(path, 'rb')] is permitted on an existing file *)
  readable : string -> bool;
  (** whether the platform lets the process create or replace the entry
      at [path] (permissions, quota, free space) *)
  writable : string -> bool;
  (** [fitz.open(path)], given what is on disk at [path]: the text of the
      exception raised, or the document *)
  fitz_open : string -> option node -> string + Document;
  (** [pixmap.save(path)]: when it raises, the text of the exception and
      whether a partial file is left at [path] *)
  pixmap_save_error : Pixmap -> option (string * bool);
  (** [Image.open(path)] on the dump of a pixmap: the text of the
      exception raised, if any *)
  image_open_error : Pixmap -> option string;
  (** [os.remove(path)] on a file that PIL still holds open: the text of
      the exception raised, if any (none on POSIX, where the entry is
      unlinked and the open handle stays readable) *)
  remove_open_error : option string;
  (** PIL's [save(path, format, quality=...)] of a rendered page ([None]
      when no quality is passed): the text of the exception raised, or the
      encoded bytes *)
  pil_save : Pixmap -> string -> option Z -> string + string;
  (** the bytes reportlab's [Canvas.save] writes for the finished pages *)
  canvas_bytes : list OutPage -> string;
  (** the directory created by [tempfile.TemporaryDirectory()] *)
  mkdtemp : string
}.

Module os.

Definition path_exists (fs : gmap string node) (p : string) : bool :=
  match fs !! p with
  | Some _ => true
  | None => false
  end.

Definition path_isfile (fs : gmap string node) (p : string) : bool :=
  match fs !! p with
  | Some (File _) => true
  | _ => false
  end.

(** Size reported for a directory entry (platform dependent; never
    consulted for a path that passed [path_isfile]). *)
Definition dir_size : nat := 4096.

Definition path_getsize (fs : gmap string node) (p : string) : result nat :=
  match fs !! p with
  | Some (File data) => Ok (String.length data)
  | Some Dir => Ok dir_size
  | None => Raise (OSError ("No such file or directory: " +:+ p))
  end.

(** [os.remove(p)]: the new file system, or the error raised. *)
Definition remove (fs : gmap string node) (p : string)
    : result (gmap string node) :=
  match fs !! p with
  | Some (File _) => Ok (delete p fs)
  | Some Dir => Raise (OSError ("Is a directory: " +:+ p))
  | None => Raise (OSError ("No such file or directory: " +:+ p))
  end.

(** [open(p, 'rb').read()] *)
Definition read_bytes {env : Environment} (fs : gmap string node) (p : string)
    : result string :=
  match fs !! p with
  | Some (File data) =>
      if readable p then Ok data
      else Raise (OSError ("Permission denied: " +:+ p))
  | Some Dir => Raise (OSError ("Is a directory: " +:+ p))
  | None => Raise (OSError ("No such file or directory: " +:+ p))
  end.

(** Index of the last occurrence of [c] in [s] ([s.rfind(c)]). *)
Fixpoint rfind (c : ascii) (s : string) : option nat :=
  match s with
  | EmptyString => None
  | String d rest =>
      match rfind c rest with
      | Some i => Some (S i)
      | None => if Ascii.eqb c d then Some O else None
      end
  end.

(** [os.path.basename(p)]: what follows the last slash. *)
Definition path_basename (p : string) : string :=
  match rfind "/"%char p with
  | Some i => Py.drop (S i) p
  | None => p
  end.

(** [os.path.splitext(name)[0]] for a name without a slash: cut at the
    last dot, unless only dots precede it. *)
Definition path_splitext_root (name : string) : string :=
  match rfind "."%char name with
  | Some i =>
      if String.eqb (Py.lstrip "." (Py.take i name)) "" then name
      else Py.take i name
  | None => name
  end.

(** [os.path.join(a, b)] for a relative [b]. *)
Definition path_join (a b : string) : string :=
  if String.eqb a "" then b
  else if Py.endswith a "/" then a +:+ b
  else a +:+ "/" +:+ b.

Definition path_isdir (fs : gmap string node) (p : string) : bool :=
  match fs !! p with
  | Some Dir => true
  | _ => false
  end.

(** [os.path.dirname(p)]: what precedes the last slash, without the
    slashes that end it unless it consists of slashes only. *)
Definition path_dirname (p : string) : string :=
  match rfind "/"%char p with
  | Some i =>
      let head := Py.take (S i) p in
      if String.eqb (Py.rstrip "/" head) "" then head
      else Py.rstrip "/" head
  | None => ""
  end.

(** Whether the directory that is to hold [p] is there.  The map names
    directories as the code names them; the working directory (an empty
    [dirname]) and the root are always there. *)
Definition parent_isdir (fs : gmap string node) (p : string) : bool :=
  let d := path_dirname p in
  String.eqb (Py.rstrip "/" d) "" || path_isdir fs d.

(** Why an entry cannot be created at the free path [p], if it cannot:
    the directory that is to hold it is missing or is a regular file, or
    the platform refuses. *)
Definition create_error {env : Environment} (fs : gmap string node)
    (p : string) : option exn :=
  if negb (parent_isdir fs p) then
    if path_exists fs (path_dirname p) then
      Some (OSError ("Not a directory: " +:+ p))
    else Some (OSError ("No such file or directory: " +:+ p))
  else if negb (writable p) then Some (OSError ("Permission denied: " +:+ p))
  else None.

(** [open(p, 'wb')], the whole content written, and the file closed: the
    new file system, or the error raised.  An existing regular file is
    replaced, a directory is refused, a new file needs its directory. *)
Definition write_bytes {env : Environment} (fs : gmap string node)
    (p : string) (data : string) : result (gmap string node) :=
  match fs !! p with
  | Some Dir => Raise (OSError ("Is a directory: " +:+ p))
  | Some (File _) =>
      if writable p then Ok (<[p := File data]> fs)
      else Raise (OSError ("Permission denied: " +:+ p))
  | None =>
      match create_error fs p with
      | Some e => Raise e
      | None => Ok (<[p := File data]> fs)
      end
  end.

(** Whether [write_bytes] at [p] goes through. *)
Definition can_write {env : Environment} (fs : gmap string node) (p : string)
    : bool :=
  match fs !! p with
  | Some Dir => false
  | Some (File _) => writable p
  | None =>
      match create_error fs p with
      | None => true
      | Some _ => false
      end
  end.

(** [os.mkdir(p)] *)
Definition mkdir {env : Environment} (fs : gmap string node) (p : string)
    : result (gmap string node) :=
  match fs !! p with
  | Some _ => Raise (OSError ("File exists: " +:+ p))
  | None =>
      match create_error fs p with
      | Some e => Raise e
      | None => Ok (<[p := Dir]> fs)
      end
  end.

(** The directories above [p], outermost first: the prefixes of [p] that
    end before a slash, the empty one and those that end in a slash
    themselves left out.  [acc] is the part of the path already read. *)
Fixpoint ancestors_from (acc : string) (s : string) : list string :=
  match s with
  | EmptyString => []
  | String c rest =>
      (if Ascii.eqb c "/"%char && negb (String.eqb acc "")
          && negb (Py.endswith acc "/")
       then [acc] else [])
      ++ ancestors_from (acc +:+ String c EmptyString) rest
  end.

Definition ancestors (p : string) : list string := ancestors_from "" p.

(** The recursion of [os.makedirs] over the directories above the
    target: one that exists is left alone, a missing one is made. *)
Fixpoint mkdir_missing {env : Environment} (dirs : list string)
    (fs : gmap string node) : result (gmap string node) :=
  match dirs with
  | [] => Ok fs
  | d :: rest =>
      if path_exists fs d then mkdir_missing rest fs
      else
        match mkdir fs d with
        | Ok fs' => mkdir_missing rest fs'
        | Raise e => Raise e
        end
  end.

(** [os.makedirs(p)]: the missing directories above [p] are made, then
    [p] itself; it raises when [p] exists, when one of the directories
    above it is a regular file, or when the platform refuses. *)
Definition makedirs {env : Environment} (fs : gmap string node) (p : string)
    : result (gmap string node) :=
  match mkdir_missing (ancestors p) fs with
  | Ok fs' => mkdir fs' p
  | Raise e => Raise e
  end.

End os.

(** ** pathlib, POSIX flavour *)

Module pathlib.

Record Path : Type := { anchor : string; parts : list string }.

(** Components of [s] between slashes. *)
Fixpoint split_slash (s : string) (cur : string) : list string :=
  match s with
  | EmptyString => [String.rev cur]
  | String c rest =>
      if Ascii.eqb c "/"%char then String.rev cur :: split_slash rest ""
      else split_slash rest (String c cur)
  end.

Definition keep_part (p : string) : bool :=
  negb (String.eqb p "") && negb (String.eqb p ".").

(** [Path(s)]: exactly two leading slashes are kept as the anchor, any
    other number of leading slashes is one; empty and [.] components are
    dropped. *)
Definition parse (s : string) : Path :=
  let root :=
    if Py.startswith s "//" && negb (Py.startswith s "///") then "//"
    else if Py.startswith s "/" then "/"
    else "" in
  {| anchor := root; parts := filter (fun p => Is_true (keep_part p)) (split_slash s "") |}.

Fixpoint join_slash (l : list string) : string :=
  match l with
  | [] => ""
  | [p] => p
  | p :: rest => p +:+ "/" +:+ join_slash rest
  end.

(** [str(path)] *)
Definition str (p : Path) : string :=
  match parts p with
  | [] => if String.eqb (anchor p) "" then "." else anchor p
  | _ => anchor p +:+ join_slash (parts p)
  end.

(** [path.name] *)
Definition name (p : Path) : string := List.last (parts p) "".

(** [path.stem]: the name up to its last dot, when that dot is neither
    the first nor the last character of the name (the rule of Python up
    to 3.13). *)
Definition stem (p : Path) : string :=
  let n := name p in
  match os.rfind "."%char n with
  | Some i =>
      if ((0 <? i) && (i <? String.length n - 1))%nat then Py.take i n else n
  | None => n
  end.

(** [path.parent] *)
Definition parent (p : Path) : Path :=
  {| anchor := anchor p; parts := removelast (parts p) |}.

(** [path / s] *)
Definition truediv (p : Path) (s : string) : Path :=
  let q := parse s in
  if String.eqb (anchor q) "" then
    {| anchor := anchor p; parts := parts p ++ parts q |}
  else q.

(** [path.exists()] *)
Definition exists_ (fs : gmap string node) (p : Path) : bool :=
  os.path_exists fs (str p).

End pathlib.

(** ** utils.py: validate_pdf *)

Definition validate_pdf {env : Environment} (fs : gmap string node)
    (file_path : string) : bool :=
  if negb (os.path_exists fs file_path) then false
  else if negb (os.path_isfile fs file_path) then false
  else if negb (Py.endswith (Py.lower file_path) ".pdf") then false
  else
    let size_check :=
      match os.path_getsize fs file_path with
      | Ok size => if (size <? 100)%nat then false else true
      | Raise _ => false
      end in
    let mime_type := guess_type file_path in
    if negb (bool_decide (mime_type = Some "application/pdf")) then
      match os.read_bytes fs file_path with
      | Ok f =>
          let header := Py.take 5 f in
          if negb (Py.startswith header "%PDF-") then false else size_check
      | Raise _ => false
      end
    else size_check.

(** ** utils.py: get_output_filename *)

(** The [while output_path.exists()] loop.  [fuel] bounds the number of
    iterations; the loop leaves through [break] once [counter] exceeds
    1000, so 1000 iterations are enough when [counter] starts at 1. *)
Fixpoint conflict_loop (fs : gmap string node) (parent : pathlib.Path)
    (base_name suffix : string) (fuel : nat) (counter : nat)
    (output_path : pathlib.Path) : pathlib.Path :=
  if pathlib.exists_ fs output_path then
    match fuel with
    | O => output_path
    | S fuel' =>
        let name_with_counter :=
          base_name +:+ suffix +:+ "_" +:+ Py.str_nat counter +:+ ".pdf" in
        let output_path := pathlib.truediv parent name_with_counter in
        let counter := (counter + 1)%nat in
        if (1000 <? counter)%nat then output_path
        else conflict_loop fs parent base_name suffix fuel' counter output_path
    end
  else output_path.

Definition get_output_filename (fs : gmap string node)
    (input_path image_format : string) (dpi : Z) : string :=
  let input_path_obj := pathlib.parse input_path in
  let base_name := pathlib.stem input_path_obj in
  let suffix := "_image_" +:+ Py.str_int dpi +:+ "dpi" in
  let output_name := base_name +:+ suffix +:+ ".pdf" in
  let output_path := pathlib.truediv (pathlib.parent input_path_obj) output_name in
  let counter := 1%nat in
  pathlib.str
    (conflict_loop fs (pathlib.parent input_path_obj) base_name suffix
       1000 counter output_path).

(** ** The state threaded through a conversion *)

(** Calls made on the PyMuPDF document, in order. *)
Inductive event : Type :=
| EvOpen (path : string)
| EvGetPixmap (page_num : nat) (scale : Q)
| EvClose.

(** [fs] is the user-visible file system; [scratch] is the content of the
    temporary directory of the conversion in flight (its paths are never
    user paths); [trace] records the document calls made so far. *)
Record World : Type := {
  fs : gmap string node;
  scratch : gmap string image_file;
  trace : list event
}.

Definition M (A : Type) : Type := World -> result A * World.

Definition ret {A} (a : A) : M A := fun w => (Ok a, w).

Definition bind {A B} (m : M A) (k : A -> M B) : M B :=
  fun w =>
    match m w with
    | (Ok a, w') => k a w'
    | (Raise e, w') => (Raise e, w')
    end.

Definition raise {A} (e : exn) : M A := fun w => (Raise e, w).

(** [try: body except Exception as e: handler(e)] *)
Definition try_except {A} (body : M A) (handler : exn -> M A) : M A :=
  fun w =>
    match body w with
    | (Ok a, w') => (Ok a, w')
    | (Raise e, w') => handler e w'
    end.

Notation "x <- m ;; k" := (bind m (fun x => k))
  (at level 100, m at next level, right associativity).
Notation "m ;;; k" := (bind m (fun _ => k))
  (at level 100, right associativity).

Definition log (ev : event) : M unit :=
  fun w => (Ok tt, {| fs := fs w; scratch := scratch w; trace := trace w ++ [ev] |}).

Definition set_fs (fs' : gmap string node) : M unit :=
  fun w => (Ok tt, {| fs := fs'; scratch := scratch w; trace := trace w |}).

Definition set_scratch (s' : gmap string image_file) : M unit :=
  fun w => (Ok tt, {| fs := fs w; scratch := s'; trace := trace w |}).

(** Lifting of a result computed from the file system. *)
Definition lift {A} (r : result A) : M A := fun w => (r, w).

(** ** pdf_to_image_converter.py: convert_pdf_to_images *)

Section Converter.

Context {env : Environment}.

(** [self.dpi / 72], the factor of [fitz.Matrix]. *)
Definition dpi_scale (self : PDFToImageConverter) : Q :=
  (inject_Z (dpi self) / inject_Z 72)%Q.

(** [pdf_document[page_num]] *)
Definition load_page (pdf_document : Document) (page_num : nat) : M Page :=
  match doc_pages pdf_document !! page_num with
  | Some page => ret page
  | None => raise (IndexError "page not in document")
  end.

(** [page.get_pixmap(matrix=mat, alpha=False)] *)
Definition call_get_pixmap (page : Page) (page_num : nat) (mat : Q)
    : M Pixmap :=
  log (EvGetPixmap page_num mat) ;;;
  match get_pixmap page mat with
  | inl e => raise (LibraryError e)
  | inr pixmap => ret pixmap
  end.

(** [pixmap.save(path)] into the temporary directory. *)
Definition pixmap_save (pixmap : Pixmap) (path : string) : M unit :=
  fun w =>
    match pixmap_save_error pixmap with
    | None => set_scratch (<[path := Ppm pixmap]> (scratch w)) w
    | Some (e, partial) =>
        ((if partial then set_scratch (<[path := Truncated]> (scratch w))
          else ret tt) ;;;
         raise (LibraryError e)) w
    end.

(** [Image.open(path)] on the dumped pixmap.  The image is read lazily:
    the file stays open until [pil_image.save] has loaded it. *)
Definition Image_open (path : string) : M Pixmap :=
  fun w =>
    match scratch w !! path with
    | Some (Ppm pixmap) =>
        match image_open_error pixmap with
        | None => ret pixmap w
        | Some e => raise (LibraryError e) w
        end
    | _ => raise (LibraryError ("cannot identify image file " +:+ path)) w
    end.

(** [os.remove(path)] on the dump, which [pil_image] still holds open. *)
Definition scratch_remove (path : string) : M unit :=
  fun w =>
    match scratch w !! path with
    | Some _ =>
        match remove_open_error with
        | None => set_scratch (delete path (scratch w)) w
        | Some e => raise (OSError e) w
        end
    | None => raise (OSError ("No such file or directory: " +:+ path)) w
    end.

(** [pil_image.save(image_path, format, ...)].  For JPEG the source first
    pastes an image with alpha or a palette onto white; that conversion is
    part of what [pil_save] stands for. *)
Definition Image_save (pil_image : Pixmap) (image_path format : string)
    (quality : option Z) : M unit :=
  fun w =>
    match pil_save pil_image format quality with
    | inl e => raise (LibraryError e) w
    | inr data => set_scratch (<[image_path := Encoded format data]> (scratch w)) w
    end.

(** The body of the [try] inside the page loop. *)
Definition process_page (self : PDFToImageConverter) (pdf_document : Document)
    (temp_dir : string) (page_num : nat) : M (string * (Q * Q)) :=
  page <- load_page pdf_document page_num ;;
  let mat := dpi_scale self in
  pixmap <- call_get_pixmap page page_num mat ;;
  let temp_pixmap_path :=
    os.path_join temp_dir ("temp_page_" +:+ Py.str_nat page_num +:+ ".ppm") in
  pixmap_save pixmap temp_pixmap_path ;;;
  pil_image <- Image_open temp_pixmap_path ;;
  scratch_remove temp_pixmap_path ;;;
  let original_width := rect_width page in
  let original_height := rect_height page in
  let image_filename :=
    "page_" +:+ Py.str_04d page_num +:+ "." +:+ Py.lower (image_format self) in
  let image_path := os.path_join temp_dir image_filename in
  (if String.eqb (image_format self) "JPEG" then
     Image_save pil_image image_path "JPEG" (Some (jpeg_quality self))
   else
     Image_save pil_image image_path "PNG" None) ;;;
  ret (image_path, (original_width, original_height)).

(** [for page_num in range(page_count)], with the list being built. *)
Fixpoint page_loop (self : PDFToImageConverter) (pdf_document : Document)
    (temp_dir : string) (page_nums : list nat)
    (image_paths : list (string * (Q * Q))) : M (list (string * (Q * Q))) :=
  match page_nums with
  | [] => ret image_paths
  | page_num :: rest =>
      item <- try_except
                (process_page self pdf_document temp_dir page_num)
                (fun e =>
                   raise (RuntimeError
                            ("Failed to process page "
                               +:+ Py.str_nat (page_num + 1) +:+ ": "
                               +:+ exn_str e))) ;;
      page_loop self pdf_document temp_dir rest (image_paths ++ [item])
  end.

Definition convert_pdf_to_images (self : PDFToImageConverter)
    (pdf_path temp_dir : string) : M (list (string * (Q * Q))) :=
  fun w =>
    match fitz_open pdf_path (fs w !! pdf_path) with
    | inl e => raise (RuntimeError ("Failed to open PDF: " +:+ e)) w
    | inr pdf_document =>
        (log (EvOpen pdf_path) ;;;
         if is_encrypted pdf_document then
           raise (RuntimeError "PDF is password protected")
         else
           let page_count := length (doc_pages pdf_document) in
           image_paths <- page_loop self pdf_document temp_dir
                            (seq 0 page_count) [] ;;
           log EvClose ;;;
           ret image_paths) w
    end.

(** ** create_pdf_from_images *)

(** [ImageReader(image_path)]: the file has to be there and to be an
    image. *)
Definition ImageReader (image_path : string) : M image_file :=
  fun w =>
    match scratch w !! image_path with
    | Some Truncated =>
        raise (OSError ("Cannot identify image file " +:+ image_path)) w
    | Some img => ret img w
    | None => raise (OSError ("Cannot open resource " +:+ image_path)) w
    end.

(** The loop over [image_paths]; [canvas] holds the pages finished by
    [showPage] so far. *)
Fixpoint canvas_loop (image_paths : list (string * (Q * Q)))
    (canvas : list OutPage) : M (list OutPage) :=
  match image_paths with
  | [] => ret canvas
  | (image_path, (width, height)) :: rest =>
      img_reader <- ImageReader image_path ;;
      canvas_loop rest
        (canvas ++ [ {| page_width := width; page_height := height;
                        image_data := img_reader;
                        image_x := 0; image_y := 0;
                        image_w := width; image_h := height |} ])
  end.

(** [c.save()] *)
Definition canvas_save (output_path : string) (canvas : list OutPage)
    : M unit :=
  fun w =>
    match os.write_bytes (fs w) output_path (canvas_bytes canvas) with
    | Ok fs' => set_fs fs' w
    | Raise e => raise e w
    end.

Definition create_pdf_from_images (self : PDFToImageConverter)
    (image_paths : list (string * (Q * Q))) (output_path : string) : M unit :=
  try_except
    (canvas <- canvas_loop image_paths [] ;;
     canvas_save output_path canvas)
    (fun e => raise (RuntimeError ("Failed to create output PDF: " +:+ exn_str e))).

(** ** convert_single_pdf *)

(** [with tempfile.TemporaryDirectory() as temp_dir: body]: an empty
    directory on entry, removed with its content on every exit. *)
Definition with_TemporaryDirectory {A} (body : string -> M A) : M A :=
  fun w =>
    let (r, w') := (set_scratch ∅ ;;; body mkdtemp) w in
    (r, {| fs := fs w'; scratch := ∅; trace := trace w' |}).

Definition getsize (path : string) : M nat :=
  fun w => lift (os.path_getsize (fs w) path) w.

(** The [except] clause of [convert_single_pdf]. *)
Definition cleanup_output {A} (output_path : string) (e : exn) : M A :=
  fun w =>
    ((if os.path_exists (fs w) output_path then
        match os.remove (fs w) output_path with
        | Ok fs' => set_fs fs'
        | Raise e' => raise e'
        end
      else ret tt) ;;;
     raise e) w.

Definition convert_single_pdf (self : PDFToImageConverter)
    (input_path : string) (output_path : option string) : M string :=
  fun w =>
    if negb (validate_pdf (fs w) input_path) then
      raise (ValueError ("Invalid PDF file: " +:+ input_path)) w
    else
      let output_path :=
        match output_path with
        | None =>
            get_output_filename (fs w) input_path
              (Py.lower (image_format self)) (dpi self)
        | Some p => p
        end in
      with_TemporaryDirectory (fun temp_dir =>
        try_except
          (image_paths <- convert_pdf_to_images self input_path temp_dir ;;
           create_pdf_from_images self image_paths output_path ;;;
           input_size <- getsize input_path ;;
           output_size <- getsize output_path ;;
           ret output_path)
          (cleanup_output output_path)) w.

(** ** convert_batch *)

(** The locals of [convert_batch] that the loop updates; the closing
    [print] calls show [successful], [failed] and [len(input_paths)]. *)
Record BatchLocals : Type := {
  output_paths : list string;
  successful : nat;
  failed : nat
}.

(** Truth value of an optional string ([None] and the empty string are
    false). *)
Definition truthy (o : option string) : bool :=
  match o with
  | Some s => negb (String.eqb s "")
  | None => false
  end.

(** The output path chosen for one input of the batch. *)
Definition batch_output_path (self : PDFToImageConverter)
    (output_dir : option string) (input_path : string) : option string :=
  if truthy output_dir then
    let base_name := os.path_splitext_root (os.path_basename input_path) in
    let output_filename :=
      base_name +:+ "_image_" +:+ Py.str_int (dpi self) +:+ "dpi.pdf" in
    Some (os.path_join (default "" output_dir) output_filename)
  else None.

(** [for i, input_path in enumerate(input_paths, 1)]: the loop never
    raises; each iteration updates the locals. *)
Fixpoint batch_loop (self : PDFToImageConverter) (output_dir : option string)
    (input_paths : list string) (st : BatchLocals) (w : World)
    : BatchLocals * World :=
  match input_paths with
  | [] => (st, w)
  | input_path :: rest =>
      let output_path := batch_output_path self output_dir input_path in
      match convert_single_pdf self input_path output_path w with
      | (Ok result_path, w') =>
          batch_loop self output_dir rest
            {| output_paths := output_paths st ++ [result_path];
               successful := successful st + 1;
               failed := failed st |} w'
      | (Raise e, w') =>
          batch_loop self output_dir rest
            {| output_paths := output_paths st;
               successful := successful st;
               failed := failed st + 1 |} w'
      end
  end.

(** [if output_dir and not os.path.exists(output_dir):
    os.makedirs(output_dir)], ahead of the loop and outside its [try]. *)
Definition make_output_dir (output_dir : option string) : M unit :=
  fun w =>
    if truthy output_dir
       && negb (os.path_exists (fs w) (default "" output_dir)) then
      match os.makedirs (fs w) (default "" output_dir) with
      | Ok fs' => set_fs fs' w
      | Raise e => raise e w
      end
    else ret tt w.

(** The run of [convert_batch] up to its [return]: the locals and the
    world at that point, or the error of [os.makedirs]. *)
Definition convert_batch_run (self : PDFToImageConverter)
    (input_paths : list string) (output_dir : option string)
    : M BatchLocals :=
  fun w =>
    match make_output_dir output_dir w with
    | (Raise e, w1) => (Raise e, w1)
    | (Ok _, w1) =>
        let (st, w') :=
          batch_loop self output_dir input_paths
            {| output_paths := []; successful := 0; failed := 0 |} w1 in
        (Ok st, w')
    end.

(** [convert_batch] returns [output_paths]. *)
Definition convert_batch (self : PDFToImageConverter)
    (input_paths : list string) (output_dir : option string) : M (list string) :=
  st <- convert_batch_run self input_paths output_dir ;;
  ret (output_paths st).

End Converter.

(** ** A sample environment and sample files *)

Module Sample.

(** Content-type detection of the sample platform: [data:] URLs are
    [text/plain], names ending in [.pdf] are PDF, the rest is unknown. *)
Definition sample_guess_type (path : string) : option string :=
  if Py.startswith path "data:" then Some "text/plain"
  else if Py.endswith (Py.lower path) ".pdf" then Some "application/pdf"
  else None.

Definition letter (ok : bool) : Page :=
  {| rect_width := 612; rect_height := 792;
     get_pixmap := fun scale =>
       if ok then
         inr {| pm_width := Qceiling (612 * scale);
                pm_height := Qceiling (792 * scale) |}
       else inl "cannot render page" |}.

Definition a4 : Page :=
  {| rect_width := 595; rect_height := 842;
     get_pixmap := fun scale =>
       inr {| pm_width := Qceiling (595 * scale);
              pm_height := Qceiling (842 * scale) |} |}.

(** The toy document syntax of the sample files: after the five header
    bytes, [E] marks the document encrypted with a user password, [O]
    encrypted with an owner password and an empty user password, [L] is a
    US Letter page, [A] an A4 page, [X] a Letter page that cannot be
    rendered; any other byte is padding. *)
Fixpoint sample_pages (body : string) : list Page :=
  match body with
  | EmptyString => []
  | String c rest =>
      if Ascii.eqb c "L" then letter true :: sample_pages rest
      else if Ascii.eqb c "A" then a4 :: sample_pages rest
      else if Ascii.eqb c "X" then letter false :: sample_pages rest
      else sample_pages rest
  end.

Definition sample_fitz_open (path : string) (on_disk : option node)
    : string + Document :=
  match on_disk with
  | Some (File data) =>
      if Py.startswith data "%PDF-" then
        inr {| encryption :=
                 if Py.mem "E" (Py.drop 5 data) || Py.mem "O" (Py.drop 5 data)
                 then Some "Standard V4 R4 128-bit AES" else None;
               is_encrypted := Py.mem "E" (Py.drop 5 data);
               doc_pages := sample_pages (Py.drop 5 data) |}
      else inl "Failed to open file"
  | Some Dir => inl ("'" +:+ path +:+ "' is no file")
  | None => inl ("no such file: '" +:+ path +:+ "'")
  end.

(** The sample encoder writes the format and the pixel size. *)
Definition sample_pil_save (pixmap : Pixmap) (format : string)
    (quality : option Z) : string + string :=
  inr (format +:+ " " +:+ Py.str_int (pm_width pixmap) +:+ "x"
         +:+ Py.str_int (pm_height pixmap)).

#[export] Instance sample_env : Environment := {|
  guess_type := sample_guess_type;
  readable := fun _ => true;
  writable := fun _ => true;
  fitz_open := sample_fitz_open;
  pixmap_save_error := fun _ => None;
  image_open_error := fun _ => None;
  remove_open_error := None;
  pil_save := sample_pil_save;
  canvas_bytes := fun canvas =>
    "%PDF-1.3 " +:+ Py.repeat "L" (length canvas) +:+ Py.repeat "." 100;
  mkdtemp := "/tmp/tmpk3xq9d_a"
|}.

(** A file with the PDF header, the given body and padding up to well
    over 100 bytes. *)
Definition pdf_file (body : string) : node :=
  File ("%PDF-" +:+ body +:+ Py.repeat "." 120).

Definition world_of (files : gmap string node) : World :=
  {| fs := files; scratch := ∅; trace := [] |}.

Definition jpeg150 : PDFToImageConverter :=
  {| dpi := 150; image_format := "JPEG"; jpeg_quality := 85; verbose := false |}.

Definition png300 : PDFToImageConverter :=
  {| dpi := 300; image_format := "PNG"; jpeg_quality := 85; verbose := false |}.

(** The files of the examples: a two-page document, a document whose
    second page cannot be rendered, an encrypted document, an old output
    file, an empty file and a text file with a PDF name. *)
Definition library : gmap string node :=
  <[ "out.pdf" := File "old" ]>
    (<[ "bad.pdf" := pdf_file "LXL" ]>
       (<[ "locked.pdf" := pdf_file "EL" ]>
          (<[ "empty.pdf" := File "" ]>
             (<[ "data:,notes.pdf" := File "plain text" ]>
                {[ "in.pdf" := pdf_file "LA" ]})))).

Definition w0 : World := world_of library.


(** A one-page document encrypted with an owner password only. *)
Definition w_owner : World := world_of {[ "owner.pdf" := pdf_file "OL" ]}.

(** The sample platform under Windows rules: a file that is still open
    cannot be removed. *)
Definition windows_env : Environment := {|
  guess_type := sample_guess_type;
  readable := fun _ => true;
  writable := fun _ => true;
  fitz_open := sample_fitz_open;
  pixmap_save_error := fun _ => None;
  image_open_error := fun _ => None;
  remove_open_error :=
    Some "[WinError 32] The process cannot access the file";
  pil_save := sample_pil_save;
  canvas_bytes := fun canvas =>
    "%PDF-1.3 " +:+ Py.repeat "L" (length canvas) +:+ Py.repeat "." 100;
  mkdtemp := "/tmp/tmpk3xq9d_a"
|}.

(** A name of 201 characters whose 200th character is a dot. *)
Definition long_name : string := Py.repeat "a" 199 +:+ ".b".

(** A directory in which [r_image_72dpi.pdf] and its suffixed variants
    [_1] to [_n] all exist. *)
Definition crowded (n : nat) : gmap string node :=
  fold_right
    (fun k files =>
       <[ "r_image_72dpi_" +:+ Py.str_nat k +:+ ".pdf" := File "x" ]> files)
    {[ "r_image_72dpi.pdf" := File "x" ]} (seq 1 n).

End Sample.

(** ** Vocabulary of the statements *)

(** The settings the constructor documents as admissible. *)
Definition settings_in_range (dpi0 : Z) (fmt : string) (q : Z) : Prop :=
  (dpi0 = 72 ∨ dpi0 = 150 ∨ dpi0 = 300)%Z
  ∧ (Py.upper fmt = "JPEG" ∨ Py.upper fmt = "PNG")
  ∧ (1 ≤ q ≤ 100)%Z.

Definition is_configuration_error (e : exn) : Prop :=
  e = dpi_error ∨ e = format_error ∨ e = quality_error.

(** The characters a sanitized name must not contain, and the characters
    it must not begin or end with. *)
Definition free_of_invalid_chars (s : string) : Prop :=
  ∀ c, Py.mem c invalid_chars = true → Py.mem c s = false.

Definition is_space_or_dot (o : option ascii) : bool :=
  match o with
  | Some c => Py.mem c " ."
  | None => false
  end.

(** The names tried by [get_output_filename]: number 0 is the plain name,
    number [k] carries the suffix [_k]. *)
Definition candidate (input_path : string) (dpi0 : Z) (k : nat) : string :=
  let input_path_obj := pathlib.parse input_path in
  let suffix := "_image_" +:+ Py.str_int dpi0 +:+ "dpi" in
  let tail :=
    match k with
    | O => ".pdf"
    | S _ => "_" +:+ Py.str_nat k +:+ ".pdf"
    end in
  pathlib.str
    (pathlib.truediv (pathlib.parent input_path_obj)
       (pathlib.stem input_path_obj +:+ suffix +:+ tail)).

(** The path tried with suffix [_k] by the loop of [get_output_filename]. *)
Definition numbered (parent : pathlib.Path) (base_name suffix : string)
    (k : nat) : pathlib.Path :=
  pathlib.truediv parent
    (base_name +:+ suffix +:+ "_" +:+ Py.str_nat k +:+ ".pdf").

(** The text [sanitize_filename] has after replacement and stripping. *)
Definition stripped_name (filename : string) : string :=
  Py.strip " ."
    (fold_left (fun acc char => Py.replace char "_"%char acc)
       (list_ascii_of_string invalid_chars) filename).

Section Vocabulary.

Context {env : Environment}.

(** The encoder call made for a page, by format. *)
Definition encode_page (self : PDFToImageConverter) (pixmap : Pixmap)
    : string + string :=
  if String.eqb (image_format self) "JPEG" then
    pil_save pixmap "JPEG" (Some (jpeg_quality self))
  else pil_save pixmap "PNG" None.

Definition encoded_format (self : PDFToImageConverter) : string :=
  if String.eqb (image_format self) "JPEG" then "JPEG" else "PNG".

(** What the libraries make of one page under the settings: the pixmap
    rendered at the scale [dpi / 72] and its encoding, or the text of the
    first exception among rendering, dumping the pixmap, opening the
    dump, removing it, and encoding. *)
Definition page_outcome (self : PDFToImageConverter) (page : Page)
    : string + Pixmap * string :=
  match get_pixmap page (inject_Z (dpi self) / inject_Z 72)%Q with
  | inl e => inl e
  | inr pixmap =>
      match pixmap_save_error pixmap with
      | Some (e, _) => inl e
      | None =>
          match image_open_error pixmap with
          | Some e => inl e
          | None =>
              match remove_open_error with
              | Some e => inl e
              | None =>
                  match encode_page self pixmap with
                  | inl e => inl e
                  | inr data => inr (pixmap, data)
                  end
              end
          end
      end
  end.

(** A page that rasterizes and encodes under the settings. *)
Definition page_renders (self : PDFToImageConverter) (page : Page) : Prop :=
  ∃ pixmap data, page_outcome self page = inr (pixmap, data).


Definition temp_pixmap_path (temp_dir : string) (page_num : nat) : string :=
  os.path_join temp_dir ("temp_page_" +:+ Py.str_nat page_num +:+ ".ppm").

Definition image_path_of (self : PDFToImageConverter) (temp_dir : string)
    (page_num : nat) : string :=
  os.path_join temp_dir
    ("page_" +:+ Py.str_04d page_num +:+ "." +:+ Py.lower (image_format self)).


(** The message of the error raised for a failure on page index [p]. *)
Definition page_error (p : nat) (e : string) : exn :=
  RuntimeError ("Failed to process page " +:+ Py.str_nat (p + 1) +:+ ": " +:+ e).

(** The path a single conversion writes to. *)
Definition resolved_output (self : PDFToImageConverter)
    (files : gmap string node) (input_path : string)
    (output_path : option string) : string :=
  match output_path with
  | None =>
      get_output_filename files input_path (Py.lower (image_format self))
        (dpi self)
  | Some p => p
  end.


Definition is_ok {A} (r : result A) : bool :=
  match r with
  | Ok _ => true
  | Raise _ => false
  end.





(** The world after one more document call. *)
Definition logged (w : World) (ev : event) : World :=
  {| fs := fs w; scratch := scratch w; trace := trace w ++ [ev] |}.

(** The world once the temporary directory is gone. *)
Definition cleared (w : World) : World :=
  {| fs := fs w; scratch := ∅; trace := trace w |}.

(** The entry of [image_paths] for page [n] of a document. *)
Definition page_item (self : PDFToImageConverter) (doc : Document)
    (tmp : string) (n : nat) : string * (Q * Q) :=
  (image_path_of self tmp n,
   match doc_pages doc !! n with
   | Some page => (rect_width page, rect_height page)
   | None => (0%Q, 0%Q)
   end).

Definition is_RuntimeError (e : exn) : Prop := ∃ m, e = RuntimeError m.

(** An output page built from an entry of [image_paths]: the recorded
    size, and the image of the entry drawn over the whole page. *)
Definition page_matches (w : World) (img : string * (Q * Q)) (op : OutPage)
    : Prop :=
  page_width op = fst (snd img) ∧ page_height op = snd (snd img)
  ∧ image_x op = 0%Q ∧ image_y op = 0%Q
  ∧ image_w op = fst (snd img) ∧ image_h op = snd (snd img)
  ∧ scratch w !! fst img = Some (image_data op).

(** A file of the temporary directory that [ImageReader] can read. *)
Definition image_readable (w : World) (image_path : string) : bool :=
  match scratch w !! image_path with
  | Some Truncated | None => false
  | Some _ => true
  end.

(** The body of the [try] in [convert_single_pdf]. *)
Definition conversion_body (self : PDFToImageConverter)
    (input_path output_path temp_dir : string) : M string :=
  image_paths <- convert_pdf_to_images self input_path temp_dir ;;
  create_pdf_from_images self image_paths output_path ;;;
  input_size <- getsize input_path ;;
  output_size <- getsize output_path ;;
  ret output_path.

(** Page sizes, in points, of a canvas and of a document. *)
Definition page_geometry (canvas : list OutPage) : list (Q * Q) :=
  map (fun op => (page_width op, page_height op)) canvas.

Definition document_geometry (doc : Document) : list (Q * Q) :=
  map (fun page => (rect_width page, rect_height page)) (doc_pages doc).

(** Number of [close] calls in a trace. *)
Definition is_close (ev : event) : bool :=
  match ev with
  | EvClose => true
  | _ => false
  end.

Definition close_count (t : list event) : nat :=
  length (List.filter is_close t).

End Vocabulary.

(** * The rest of the sources: utilities, command line, web application *)

(** ** More Python string primitives *)

Module PyStr.

(** [s.split(sep, maxsplit)] for a one-character [sep]. *)
Fixpoint split (sep : ascii) (maxsplit : nat) (s : string) : list string :=
  match s with
  | EmptyString => [EmptyString]
  | String c rest =>
      if Ascii.eqb c sep then
        match maxsplit with
        | O => [s]
        | S m => EmptyString :: split sep m rest
        end
      else
        match split sep maxsplit rest with
        | [] => [String c EmptyString]
        | part :: parts => String c part :: parts
        end
  end.

(** [s.rfind(sep)] for a non-empty string [sep]. *)
Fixpoint rfind_sub (sep s : string) : option nat :=
  match s with
  | EmptyString => None
  | String _ rest =>
      match rfind_sub sep rest with
      | Some i => Some (S i)
      | None => if Py.startswith s sep then Some O else None
      end
  end.

(** [s.rsplit(sep, 1)] for a non-empty string [sep]. *)
Definition rsplit1 (sep s : string) : list string :=
  match rfind_sub sep s with
  | Some i => [Py.take i s; Py.drop (i + String.length sep) s]
  | None => [s]
  end.

(** [sorted(l)] on strings: insertion by the character-code order. *)
Fixpoint insert_sorted (x : string) (l : list string) : list string :=
  match l with
  | [] => [x]
  | y :: rest =>
      if String.leb x y then x :: l else y :: insert_sorted x rest
  end.

Definition sorted (l : list string) : list string :=
  fold_right insert_sorted [] l.

End PyStr.

(** ** utils.py: format_file_size

    [size] is a Python float.  [float(size_bytes)] is exact for sizes below
    [2^53], and so is every division by [1024.0]; the statements about
    [format_file_size] are made under that bound. *)

(** [round(x)] to the nearest integer, ties to the even one, as the
    float formatting does. *)
Definition round_half_even (x : Q) : Z :=
  let f := Qfloor x in
  let twice := (2 * (Qnum x - f * Zpos (Qden x)))%Z in
  match Z.compare twice (Zpos (Qden x)) with
  | Lt => f
  | Gt => (f + 1)%Z
  | Eq => if Z.even f then f else (f + 1)%Z
  end.

(** The format [.1f] of a float [x] that is not negative. *)
Definition format_1f (x : Q) : string :=
  let tenths := round_half_even (x * 10) in
  Py.str_int (tenths / 10) +:+ "." +:+ Py.str_int (tenths mod 10).

(** [int(x)]: truncation towards zero. *)
Definition int_of_float (x : Q) : Z := Z.quot (Qnum x) (Zpos (Qden x)).

Definition units : list string := ["B"; "KB"; "MB"; "GB"; "TB"].

(** The [while size >= 1024.0 and unit_index < len(units) - 1] loop.
    [fuel] bounds the iterations; the index grows by one each time, so
    [len(units)] iterations are enough from any index. *)
Fixpoint unit_loop (fuel : nat) (size : Q) (unit_index : nat) : Q * nat :=
  match fuel with
  | O => (size, unit_index)
  | S fuel' =>
      if Qle_bool 1024 size && (unit_index <? length units - 1)%nat then
        unit_loop fuel' (size / 1024)%Q (unit_index + 1)
      else (size, unit_index)
  end.

Definition format_file_size (size_bytes : Z) : string :=
  if (size_bytes =? 0)%Z then "0 B"
  else
    let unit_index := 0 in
    let size := inject_Z size_bytes in
    let (size, unit_index) := unit_loop (length units) size unit_index in
    if (unit_index =? 0)%nat then
      Py.str_int (int_of_float size) +:+ " " +:+ nth unit_index units ""
    else
      format_1f size +:+ " " +:+ nth unit_index units "".

(** ** utils.py: estimate_memory_usage

    The products with [8.5], [11.0] and [2.5] are float products; they are
    exact as long as the results stay below [2^53]. *)
Definition estimate_memory_usage (pdf_page_count dpi0 : Z)
    (image_format0 : string) : Z :=
  let width_inches := (17 # 2)%Q in
  let height_inches := (11 # 1)%Q in
  let width_pixels := int_of_float (width_inches * inject_Z dpi0) in
  let height_pixels := int_of_float (height_inches * inject_Z dpi0) in
  let bytes_per_pixel :=
    if String.eqb (Py.upper image_format0) "JPEG" then 3%Z else 4%Z in
  let bytes_per_page := (width_pixels * height_pixels * bytes_per_pixel)%Z in
  let overhead_multiplier := (5 # 2)%Q in
  let total_memory :=
    int_of_float (inject_Z (pdf_page_count * bytes_per_page) * overhead_multiplier) in
  total_memory.

(** The bytes per pixel of the estimate. *)
Definition bytes_per_pixel_of (image_format0 : string) : Z :=
  if String.eqb (Py.upper image_format0) "JPEG" then 3%Z else 4%Z.

(** ** utils.py: expand_glob_patterns *)

Definition has_glob_char (pattern : string) : bool :=
  existsb (fun char => Py.mem char pattern)
    ["*"%char; "?"%char; "["%char; "]"%char].

(** The first loop: [glob_glob] stands for [glob.glob] on the current
    directory tree. *)
Fixpoint expand_loop (glob_glob : string -> list string)
    (patterns : list string) (expanded_paths : list string) : list string :=
  match patterns with
  | [] => expanded_paths
  | pattern :: rest =>
      if has_glob_char pattern then
        let matches := glob_glob pattern in
        match matches with
        | _ :: _ =>
            expand_loop glob_glob rest (expanded_paths ++ PyStr.sorted matches)
        | [] => expand_loop glob_glob rest expanded_paths
        end
      else expand_loop glob_glob rest (expanded_paths ++ [pattern])
  end.

(** The second loop: duplicates removed, order kept. *)
Fixpoint unique_loop (paths : list string) (seen : gset string)
    (unique_paths : list string) : list string :=
  match paths with
  | [] => unique_paths
  | path :: rest =>
      if decide (path ∈ seen) then unique_loop rest seen unique_paths
      else unique_loop rest ({[path]} ∪ seen) (unique_paths ++ [path])
  end.

(** What the second loop is to return: a list without its repetitions,
    each element at the place of its first occurrence. *)
Fixpoint first_occurrences (l : list string) : list string :=
  match l with
  | [] => []
  | x :: rest =>
      x :: List.filter (fun y => negb (String.eqb y x)) (first_occurrences rest)
  end.

Definition expand_glob_patterns (glob_glob : string -> list string)
    (patterns : list string) : list string :=
  let expanded_paths := expand_loop glob_glob patterns [] in
  unique_loop expanded_paths ∅ [].

(** ** pdf_to_image_converter.py: main *)

(** The namespace returned by [parser.parse_args()]. *)
Record Args : Type := {
  args_input : list string;
  args_output : option string;
  args_output_dir : option string;
  args_batch : bool;
  args_dpi : Z;
  args_format : string;
  args_quality : Z;
  args_verbose : bool
}.

(** How [main] ends: [parser.error] (usage message, exit status 2), the
    clause [except KeyboardInterrupt] ([Operation cancelled by user]
    printed, [sys.exit(1)]), the clause [except Exception as e]
    ([ERROR: e] printed, [sys.exit(1)]), or a normal return. *)
Inductive exit_status : Type :=
| ParserError (msg : string)
| Cancelled
| ExitFailure (msg : string)
| ExitSuccess.

(** The loop that checks the input files; the message of the first
    [parser.error], if any. *)
Fixpoint check_inputs {env : Environment} (files : gmap string node)
    (inputs : list string) : option string :=
  match inputs with
  | [] => None
  | input_path :: rest =>
      if negb (os.path_exists files input_path) then
        Some ("Input file not found: " +:+ input_path)
      else if negb (validate_pdf files input_path) then
        Some ("Invalid PDF file: " +:+ input_path)
      else check_inputs files rest
  end.

(** [interrupt] is the user's part in the run: [Some w_int] when Ctrl-C
    arrives while the [try] statement is running, [w_int] being the world
    at that moment, [None] when the run is left alone.  [KeyboardInterrupt]
    is no [Exception]: none of the handlers of the converter catches it,
    and it reaches the first [except] clause of [main].  What a conversion
    has done by the time it is interrupted is not described: [w_int] is
    arbitrary. *)
Definition main {env : Environment} (args : Args) (interrupt : option World)
    (w : World) : exit_status * World :=
  if negb ((1 <=? args_quality args)%Z && (args_quality args <=? 100)%Z) then
    (ParserError "JPEG quality must be between 1 and 100", w)
  else if (1 <? length (args_input args))%nat && negb (args_batch args) then
    (ParserError "Multiple input files require --batch mode", w)
  else if args_batch args && truthy (args_output args) then
    (ParserError
       "Cannot specify --output in batch mode, use --output-dir instead", w)
  else
    match check_inputs (fs w) (args_input args) with
    | Some msg => (ParserError msg, w)
    | None =>
        match interrupt with
        | Some w_int => (Cancelled, w_int)
        | None =>
            match __init__ (args_dpi args) (args_format args)
                    (args_quality args) (args_verbose args) with
            | Raise e => (ExitFailure (exn_str e), w)
            | Ok converter =>
                if args_batch args || (1 <? length (args_input args))%nat then
                  match convert_batch converter (args_input args)
                          (args_output_dir args) w with
                  | (Ok _, w') => (ExitSuccess, w')
                  | (Raise e, w') => (ExitFailure (exn_str e), w')
                  end
                else
                  match args_input args with
                  | [] => (ExitFailure "list index out of range", w)
                  | input_path :: _ =>
                      match convert_single_pdf converter input_path
                              (args_output args) w with
                      | (Ok _, w') => (ExitSuccess, w')
                      | (Raise e, w') => (ExitFailure (exn_str e), w')
                      end
                  end
            end
        end
    end.

(** ** app.py *)

Definition UPLOAD_FOLDER : string := "uploads".
Definition OUTPUT_FOLDER : string := "outputs".

Definition allowed_file (filename : string) : bool :=
  Py.mem "."%char filename
  && String.eqb (Py.lower (nth 1 (PyStr.rsplit1 "." filename) "")) "pdf".

(** What a view function returns: a JSON error with its status, the JSON
    success object of [cleanup_file], the JSON object of a finished
    conversion, or the file sent as an attachment; [Unhandled] is an
    exception that leaves the view function. *)
Inductive response : Type :=
| JsonError (status : nat) (error : string)
| JsonSuccess
| JsonConverted (file_id filename original_size converted_size : string)
    (dpi0 : Z) (format : string) (quality : option Z)
| SendFile (file_path download_name : string)
| Unhandled (e : exn).

(** The download name computed by [download_file]. *)
Definition download_name_of (filename : string) : string :=
  let parts := PyStr.split "_" 2 filename in
  if (3 <=? length parts)%nat then
    let original_base := nth 0 (PyStr.rsplit1 "_image_" (nth 2 parts "")) "" in
    original_base +:+ "_converted.pdf"
  else filename.

(** What the views take from outside the repository. *)
Class Web : Type := {
  (** [int(s)] on a form field: the text of the [ValueError], or the value *)
  py_int : string -> string + Z;
  (** werkzeug's [secure_filename] *)
  secure_filename : string -> string;
  (** [str(uuid.uuid4())] *)
  uuid4 : string;
  (** [os.path.join(app.root_path, path)], where Flask's [send_file]
      looks for a relative [path], under the name the file system has for
      that place: [path] itself when the process runs in the directory of
      [app.py], the name of another place otherwise *)
  root_path_join : string -> string
}.

(** Flask's [send_file] on a relative path: the file is looked for
    under [app.root_path], not under the working directory, and opened
    there. *)
Definition send_file {web : Web} (files : gmap string node)
    (file_path download_name : string) : result response :=
  let path := root_path_join file_path in
  match files !! path with
  | Some (File _) => Ok (SendFile path download_name)
  | Some Dir => Raise (OSError ("Is a directory: " +:+ path))
  | None => Raise (OSError ("No such file or directory: " +:+ path))
  end.

Definition download_file {web : Web} (files : gmap string node)
    (file_id filename : string) : response :=
  if negb (Py.startswith filename file_id) then JsonError 403 "Invalid file access"
  else
    let file_path := os.path_join OUTPUT_FOLDER filename in
    if negb (os.path_exists files file_path) then JsonError 404 "File not found"
    else
      let download_name := download_name_of filename in
      match send_file files file_path download_name with
      | Ok r => r
      | Raise e => JsonError 500 ("Download failed: " +:+ exn_str e)
      end.

Definition cleanup_file (files : gmap string node) (file_id filename : string)
    : response * gmap string node :=
  if negb (Py.startswith filename file_id) then
    (JsonError 403 "Invalid file access", files)
  else
    let file_path := os.path_join OUTPUT_FOLDER filename in
    if os.path_exists files file_path then
      match os.remove files file_path with
      | Ok files' => (JsonSuccess, files')
      | Raise e => (JsonError 500 ("Cleanup failed: " +:+ exn_str e), files)
      end
    else (JsonSuccess, files).

(** The uploaded file of a request and the form fields the view reads. *)
Record Upload : Type := { upload_filename : string; upload_data : string }.

Record Request : Type := {
  request_file : option Upload;
  form_dpi : option string;
  form_format : option string;
  form_quality : option string
}.

Section UploadView.

Context {env : Environment} {web : Web}.

(** [int(request.form.get(key, default))] *)
Definition form_int (field : option string) (default : Z) : result Z :=
  match field with
  | None => Ok default
  | Some s =>
      match py_int s with
      | inl e => Raise (ValueError e)
      | inr n => Ok n
      end
  end.

Definition input_path_of (filename : string) : string :=
  os.path_join UPLOAD_FOLDER (uuid4 +:+ "_" +:+ secure_filename filename).

Definition output_filename_of (filename : string) (dpi0 : Z) : string :=
  let base_name := pathlib.stem (pathlib.parse (secure_filename filename)) in
  uuid4 +:+ "_" +:+ base_name +:+ "_image_" +:+ Py.str_int dpi0 +:+ "dpi.pdf".

(** One [if ... and os.path.exists(p): os.remove(p)] of the handler; an
    error of [os.remove] leaves the handler. *)
Definition remove_if_exists (path : option string) (files : gmap string node)
    : result (gmap string node) :=
  match path with
  | None => Ok files
  | Some p => if os.path_exists files p then os.remove files p else Ok files
  end.

(** The [except Exception as e] clause of [upload_file]: [input_path] and
    [output_path] are given when the locals are bound.  An error of
    [os.remove] inside the clause leaves the view. *)
Definition upload_failed (input_path output_path : option string) (e : exn)
    (w : World) : response * World :=
  match remove_if_exists input_path (fs w) with
  | Raise e' => (Unhandled e', w)
  | Ok files1 =>
      let w1 := {| fs := files1; scratch := scratch w; trace := trace w |} in
      match remove_if_exists output_path files1 with
      | Raise e' => (Unhandled e', w1)
      | Ok files2 =>
          (JsonError 500 ("Conversion failed: " +:+ exn_str e),
           {| fs := files2; scratch := scratch w; trace := trace w |})
      end
  end.

Definition upload_file (request : Request) (w : World) : response * World :=
  match request_file request with
  | None => (JsonError 400 "No file uploaded", w)
  | Some file =>
      if String.eqb (upload_filename file) "" then
        (JsonError 400 "No file selected", w)
      else if negb (allowed_file (upload_filename file)) then
        (JsonError 400 "Invalid file type. Please upload a PDF file.", w)
      else
        match form_int (form_dpi request) 150 with
        | Raise e => upload_failed None None e w
        | Ok dpi0 =>
        let image_format0 := Py.upper (default "JPEG" (form_format request)) in
        match form_int (form_quality request) 85 with
        | Raise e => upload_failed None None e w
        | Ok quality =>
        if negb (Z_in dpi0 [72; 150; 300]%Z) then
          (JsonError 400 "Invalid DPI value", w)
        else if negb (str_in image_format0 ["JPEG"; "PNG"]) then
          (JsonError 400 "Invalid image format", w)
        else if negb ((1 <=? quality)%Z && (quality <=? 100)%Z) then
          (JsonError 400 "Invalid quality value", w)
        else
          let file_id := uuid4 in
          let input_path := input_path_of (upload_filename file) in
          match os.write_bytes (fs w) input_path (upload_data file) with
          | Raise e => upload_failed (Some input_path) None e w
          | Ok files1 =>
          let w1 := {| fs := files1; scratch := scratch w; trace := trace w |} in
          if negb (validate_pdf files1 input_path) then
            match os.remove files1 input_path with
            | Raise e => upload_failed (Some input_path) None e w1
            | Ok files2 =>
                (JsonError 400 "Invalid or corrupted PDF file",
                 {| fs := files2; scratch := scratch w; trace := trace w |})
            end
          else
            let output_filename :=
              output_filename_of (upload_filename file) dpi0 in
            let output_path := os.path_join OUTPUT_FOLDER output_filename in
            match __init__ dpi0 image_format0 quality false with
            | Raise e => upload_failed (Some input_path) (Some output_path) e w1
            | Ok converter =>
            match convert_single_pdf converter input_path (Some output_path) w1 with
            | (Raise e, w2) =>
                upload_failed (Some input_path) (Some output_path) e w2
            | (Ok _, w2) =>
            match os.path_getsize (fs w2) input_path with
            | Raise e => upload_failed (Some input_path) (Some output_path) e w2
            | Ok input_size =>
            match os.path_getsize (fs w2) output_path with
            | Raise e => upload_failed (Some input_path) (Some output_path) e w2
            | Ok output_size =>
            match os.remove (fs w2) input_path with
            | Raise e => upload_failed (Some input_path) (Some output_path) e w2
            | Ok files3 =>
                (JsonConverted file_id output_filename
                   (format_file_size (Z.of_nat input_size))
                   (format_file_size (Z.of_nat output_size))
                   dpi0 image_format0
                   (if String.eqb image_format0 "JPEG" then Some quality else None),
                 {| fs := files3; scratch := scratch w2; trace := trace w2 |})
            end end end end end
          end
        end end
  end.

End UploadView.

(** A web platform for the examples: decimal literals for [int], file names
    that [secure_filename] leaves as they are, one identifier. *)
Module SampleWeb.

Fixpoint digits_value (s : string) (acc : Z) : option Z :=
  match s with
  | EmptyString => Some acc
  | String c rest =>
      let n := nat_of_ascii c in
      if ((48 <=? n) && (n <=? 57))%nat then
        digits_value rest (10 * acc + Z.of_nat (n - 48))%Z
      else None
  end.

Definition sample_int (s : string) : string + Z :=
  match s, digits_value s 0 with
  | String _ _, Some n => inr n
  | _, _ => inl ("invalid literal for int() with base 10: '" +:+ s +:+ "'")
  end.

#[export] Instance sample_web : Web := {|
  py_int := sample_int;
  secure_filename := fun filename => filename;
  uuid4 := "0f8fad5b-d9cb-469f-a165-70867728950e";
  root_path_join := fun path => path
|}.

(** The same platform with the process started in another directory
    than that of [app.py]. *)
Definition elsewhere_web : Web := {|
  py_int := sample_int;
  secure_filename := fun filename => filename;
  uuid4 := "0f8fad5b-d9cb-469f-a165-70867728950e";
  root_path_join := fun path => "/srv/app/" +:+ path
|}.

(** The sample files next to the two folders the application makes when
    it is loaded. *)
Definition site : World :=
  Sample.world_of
    (<[ "uploads" := Dir ]> (<[ "outputs" := Dir ]> Sample.library)).

Definition report : Upload :=
  {| upload_filename := "my_report.pdf";
     upload_data := "%PDF-" +:+ "LA" +:+ Py.repeat "." 120 |}.

(** What [glob.glob] finds in the sample directory. *)
Definition sample_glob (pattern : string) : list string :=
  if String.eqb pattern "*.pdf" then ["z.pdf"; "a.pdf"; "q.pdf"] else [].

Definition request_of (file : Upload) (dpi0 : string) : Request :=
  {| request_file := Some file; form_dpi := Some dpi0;
     form_format := Some "png"; form_quality := None |}.

End SampleWeb.

(** Command lines for the examples. *)
Module SampleCli.

Definition batch_args : Args :=
  {| args_input := ["in.pdf"; "bad.pdf"]; args_output := None;
     args_output_dir := None; args_batch := true; args_dpi := 150;
     args_format := "JPEG"; args_quality := 85; args_verbose := false |}.


Definition single_args (input_path : string) : Args :=
  {| args_input := [input_path]; args_output := None;
     args_output_dir := None; args_batch := false; args_dpi := 150;
     args_format := "JPEG"; args_quality := 85; args_verbose := false |}.

End SampleCli.

(** * Lemmas on the embedding *)

(** * String facts *)

Lemma append_cancel_l (p a b : string) : p +:+ a = p +:+ b → a = b.
Proof.
  induction p as [|c p IH]; simpl; [auto|].
  intros Heq. injection Heq as Heq. auto.
Qed.

Lemma path_join_inj (d a b : string) :
  os.path_join d a = os.path_join d b → a = b.
Proof.
  unfold os.path_join.
  destruct (String.eqb d ""); [auto|].
  destruct (Py.endswith d "/").
  - apply append_cancel_l.
  - intros Heq. apply append_cancel_l in Heq. by apply append_cancel_l in Heq.
Qed.

Lemma append_length (a b : string) :
  String.length (a +:+ b) = String.length a + String.length b.
Proof.
  induction a as [|c a IH]; [done|].
  change (String c a +:+ b) with (String c (a +:+ b)). cbn. by rewrite IH.
Qed.

Lemma append_cancel_r (a b t : string) : a +:+ t = b +:+ t → a = b.
Proof.
  revert b. induction a as [|c a IH]; intros [|c' b] Heq.
  - done.
  - apply (f_equal String.length) in Heq.
    rewrite !append_length in Heq. cbn in Heq. lia.
  - apply (f_equal String.length) in Heq.
    rewrite !append_length in Heq. cbn in Heq. lia.
  - change (String c a +:+ t) with (String c (a +:+ t)) in Heq.
    change (String c' b +:+ t) with (String c' (b +:+ t)) in Heq.
    injection Heq as -> Heq. f_equal. by apply IH.
Qed.

(** Decimal numerals begin with a digit other than zero, zero apart. *)
Lemma pretty_N_go_head (x : N) (s : string) :
  (0 < x)%N →
  ∃ c rest, pretty_N_go x s = String c rest ∧ c ≠ "0"%char.
Proof.
  revert s. induction (N.lt_wf_0 x) as [x _ IH]; intros s Hpos.
  rewrite pretty_N_go_step by done.
  assert (x < 10 ∨ 10 ≤ x)%N as [Hsmall|Hbig] by lia.
  - rewrite N.div_small, pretty_N_go_0, N.mod_small by done.
    eexists _, _. split; [reflexivity|].
    assert (x = 1 ∨ x = 2 ∨ x = 3 ∨ x = 4 ∨ x = 5 ∨ x = 6
            ∨ x = 7 ∨ x = 8 ∨ x = 9)%N as Hx by lia.
    destruct Hx as [->|[->|[->|[->|[->|[->|[->|[->| ->]]]]]]]]; discriminate.
  - apply IH; [by apply N.div_lt | apply N.div_str_pos; lia].
Qed.

Lemma str_nat_head (n : nat) :
  ∃ c rest, Py.str_nat n = String c rest
            ∧ (c = "0"%char → n = 0 ∧ rest = "").
Proof.
  unfold Py.str_nat, pretty, pretty_nat, pretty, pretty_N.
  destruct (decide (N.of_nat n = 0%N)) as [Hz|Hnz].
  - exists "0"%char, "". split; [reflexivity|]. intros _. split; [lia | done].
  - destruct (pretty_N_go_head (N.of_nat n) "") as (c & rest & Heq & Hc); [lia|].
    exists c, rest. split; [exact Heq | done].
Qed.

Lemma repeat_zero_S (k : nat) (s : string) :
  Py.repeat "0" (S k) +:+ s = String "0" (Py.repeat "0" k +:+ s).
Proof. reflexivity. Qed.

Lemma str_04d_pad (k d : nat) (a b : string) :
  Py.repeat "0" k +:+ a = Py.repeat "0" (k + d) +:+ b →
  a = Py.repeat "0" d +:+ b.
Proof.
  induction k as [|k IH]; [done|].
  cbn [Nat.add]. rewrite !repeat_zero_S. intros [= Heq]. auto.
Qed.

Lemma str_04d_longer (n m d : nat) :
  Py.str_nat n = Py.repeat "0" (S d) +:+ Py.str_nat m → False.
Proof.
  rewrite repeat_zero_S. intros Heq.
  destruct (str_nat_head n) as (c & rest & Hn & Hzero).
  rewrite Hn in Heq. injection Heq as -> Hrest.
  destruct (Hzero eq_refl) as [_ ->].
  destruct (str_nat_head m) as (c' & rest' & Hm & _). rewrite Hm in Hrest.
  destruct d; discriminate.
Qed.

Lemma str_04d_inj (n m : nat) : Py.str_04d n = Py.str_04d m → n = m.
Proof.
  unfold Py.str_04d. cbn zeta.
  set (a := 4 - String.length (Py.str_nat n)).
  set (b := 4 - String.length (Py.str_nat m)).
  intros Heq.
  destruct (Nat.lt_trichotomy a b) as [Hlt|[Heqab|Hgt]].
  - replace b with (a + S (b - a - 1)) in Heq by lia.
    apply str_04d_pad in Heq. by apply str_04d_longer in Heq.
  - rewrite Heqab in Heq. apply append_cancel_l in Heq.
    by apply (inj pretty) in Heq.
  - replace a with (b + S (a - b - 1)) in Heq by lia.
    symmetry in Heq. apply str_04d_pad in Heq. by apply str_04d_longer in Heq.
Qed.

Section CoreLemmas.

Context {env : Environment}.

Lemma image_path_of_inj self tmp n m :
  image_path_of self tmp n = image_path_of self tmp m → n = m.
Proof.
  unfold image_path_of. intros Heq. apply path_join_inj in Heq.
  apply append_cancel_l, append_cancel_r in Heq. by apply str_04d_inj.
Qed.

Lemma image_path_not_temp self tmp n m :
  image_path_of self tmp n ≠ temp_pixmap_path tmp m.
Proof.
  unfold image_path_of, temp_pixmap_path. intros Heq.
  apply path_join_inj in Heq. simpl in Heq. discriminate.
Qed.

(** ** One page *)

Lemma Image_save_eq self pixmap path w :
  (if String.eqb (image_format self) "JPEG" then
     Image_save pixmap path "JPEG" (Some (jpeg_quality self))
   else Image_save pixmap path "PNG" None) w
  = match encode_page self pixmap with
    | inl e => (Raise (LibraryError e), w)
    | inr data =>
        (Ok tt, {| fs := fs w;
                   scratch := <[path := Encoded (encoded_format self) data]> (scratch w);
                   trace := trace w |})
    end.
Proof.
  unfold encode_page, encoded_format, Image_save.
  destruct (String.eqb (image_format self) "JPEG");
    destruct (pil_save _ _ _); reflexivity.
Qed.

Lemma dpi_scale_eq self :
  dpi_scale self = (inject_Z (dpi self) / inject_Z 72)%Q.
Proof. reflexivity. Qed.

Lemma process_page_eq self doc tmp n page w :
  doc_pages doc !! n = Some page →
  process_page self doc tmp n w =
  let dump := temp_pixmap_path tmp n in
  let tr := trace w ++ [EvGetPixmap n (inject_Z (dpi self) / inject_Z 72)%Q] in
  match get_pixmap page (inject_Z (dpi self) / inject_Z 72)%Q with
  | inl e => (Raise (LibraryError e), {| fs := fs w; scratch := scratch w; trace := tr |})
  | inr pixmap =>
      match pixmap_save_error pixmap with
      | Some (e, partial) =>
          (Raise (LibraryError e),
           {| fs := fs w;
              scratch := if partial then <[dump := Truncated]> (scratch w)
                         else scratch w;
              trace := tr |})
      | None =>
          match image_open_error pixmap with
          | Some e =>
              (Raise (LibraryError e),
               {| fs := fs w; scratch := <[dump := Ppm pixmap]> (scratch w);
                  trace := tr |})
          | None =>
              match remove_open_error with
              | Some e =>
                  (Raise (OSError e),
                   {| fs := fs w; scratch := <[dump := Ppm pixmap]> (scratch w);
                      trace := tr |})
              | None =>
                  match encode_page self pixmap with
                  | inl e =>
                      (Raise (LibraryError e),
                       {| fs := fs w; scratch := delete dump (scratch w);
                          trace := tr |})
                  | inr data =>
                      (Ok (image_path_of self tmp n,
                           (rect_width page, rect_height page)),
                       {| fs := fs w;
                          scratch :=
                            <[image_path_of self tmp n
                              := Encoded (encoded_format self) data]>
                              (delete dump (scratch w));
                          trace := tr |})
                  end
              end
          end
      end
  end.
Proof.
  intros Hpage. cbn zeta.
  unfold process_page, load_page, bind at 1. rewrite Hpage.
  unfold ret at 1. unfold bind at 1, call_get_pixmap, bind at 1, log.
  rewrite dpi_scale_eq.
  destruct (get_pixmap page _) as [e|pixmap]; [reflexivity|].
  unfold ret at 1.
  fold (temp_pixmap_path tmp n). fold (image_path_of self tmp n).
  unfold bind at 1, pixmap_save.
  destruct (pixmap_save_error pixmap) as [[e partial]|].
  { unfold bind, set_scratch, raise, ret. cbn [fs scratch trace].
    by destruct partial. }
  unfold set_scratch. cbn [fs scratch trace].
  unfold bind at 1, Image_open. cbn [fs scratch trace].
  rewrite lookup_insert_eq.
  destruct (image_open_error pixmap) as [e|]; [reflexivity|].
  unfold ret at 1.
  unfold bind at 1, scratch_remove. cbn [fs scratch trace].
  rewrite lookup_insert_eq.
  destruct remove_open_error as [e|]; [reflexivity|].
  unfold set_scratch. cbn [fs scratch trace].
  rewrite delete_insert_eq.
  unfold bind at 1. rewrite Image_save_eq.
  destruct (encode_page self pixmap); reflexivity.
Qed.

(** One page in terms of what the libraries make of it. *)
Lemma process_page_outcome self doc tmp n page w :
  doc_pages doc !! n = Some page →
  let tr := trace w ++ [EvGetPixmap n (inject_Z (dpi self) / inject_Z 72)%Q] in
  match page_outcome self page with
  | inr (pixmap, data) =>
      process_page self doc tmp n w
      = (Ok (image_path_of self tmp n, (rect_width page, rect_height page)),
         {| fs := fs w;
            scratch :=
              <[image_path_of self tmp n := Encoded (encoded_format self) data]>
                (delete (temp_pixmap_path tmp n) (scratch w));
            trace := tr |})
  | inl e =>
      ∃ err w',
        process_page self doc tmp n w = (Raise err, w')
        ∧ exn_str err = e ∧ fs w' = fs w ∧ trace w' = tr
        ∧ ∀ k, k ≠ temp_pixmap_path tmp n → scratch w' !! k = scratch w !! k
  end.
Proof.
  intros Hpage. cbn zeta. rewrite (process_page_eq _ _ _ _ _ _ Hpage). cbn zeta.
  unfold page_outcome.
  destruct (get_pixmap page _) as [e|pixmap].
  { eexists _, _. split; [reflexivity|]. by repeat split. }
  destruct (pixmap_save_error pixmap) as [[e partial]|].
  { eexists _, _. split; [reflexivity|]. cbn [fs scratch trace exn_str].
    repeat split. intros k Hk. destruct partial; [|reflexivity].
    by rewrite lookup_insert_ne. }
  destruct (image_open_error pixmap) as [e|].
  { eexists _, _. split; [reflexivity|]. cbn [fs scratch trace exn_str].
    repeat split. intros k Hk. by rewrite lookup_insert_ne. }
  destruct remove_open_error as [e|].
  { eexists _, _. split; [reflexivity|]. cbn [fs scratch trace exn_str].
    repeat split. intros k Hk. by rewrite lookup_insert_ne. }
  destruct (encode_page self pixmap) as [e|data]; [|reflexivity].
  eexists _, _. split; [reflexivity|]. cbn [fs scratch trace exn_str].
  repeat split. intros k Hk. by rewrite lookup_delete_ne.
Qed.


(** ** The page loop *)

Lemma page_loop_cons self doc tmp n rest acc w :
  page_loop self doc tmp (n :: rest) acc w =
  match process_page self doc tmp n w with
  | (Ok item, w1) => page_loop self doc tmp rest (acc ++ [item]) w1
  | (Raise e, w1) => (Raise (page_error n (exn_str e)), w1)
  end.
Proof.
  cbn [page_loop]. unfold bind, try_except.
  destruct (process_page self doc tmp n w) as [[item|e] w1]; reflexivity.
Qed.


Lemma page_loop_ok self doc tmp nums acc w :
  NoDup nums →
  (∀ n, n ∈ nums →
     ∃ page, doc_pages doc !! n = Some page ∧ page_renders self page) →
  ∃ w',
    page_loop self doc tmp nums acc w
    = (Ok (acc ++ map (page_item self doc tmp) nums), w')
    ∧ fs w' = fs w
    ∧ trace w'
      = trace w
        ++ map (fun i => EvGetPixmap i (inject_Z (dpi self) / inject_Z 72)%Q)
             nums
    ∧ (∀ n page pixmap data,
         n ∈ nums → doc_pages doc !! n = Some page →
         page_outcome self page = inr (pixmap, data) →
         scratch w' !! image_path_of self tmp n
         = Some (Encoded (encoded_format self) data))
    ∧ (∀ k, (∀ m, m ∈ nums →
               k ≠ temp_pixmap_path tmp m ∧ k ≠ image_path_of self tmp m) →
            scratch w' !! k = scratch w !! k).
Proof.
  revert acc w. induction nums as [|n nums IH]; intros acc w Hnd Hall.
  - exists w. cbn. rewrite !app_nil_r.
    split; [reflexivity|]. split; [reflexivity|]. split; [reflexivity|].
    split; [intros n ? ? ? Hn; by apply elem_of_nil in Hn | auto].
  - apply NoDup_cons in Hnd as [Hfresh Hnd].
    destruct (Hall n) as (page & Hpage & pixmap & data & Hout);
      [apply elem_of_cons; auto|].
    rewrite page_loop_cons.
    pose proof (process_page_outcome self doc tmp n page w Hpage) as Hrun1.
    cbn zeta in Hrun1. rewrite Hout in Hrun1. rewrite Hrun1.
    match goal with |- context [page_loop _ _ _ _ ?a ?w1] =>
      destruct (IH a w1 Hnd) as (w' & Hrun & Hfs & Htr & Himg & Hkeep) end.
    { intros m Hm. apply Hall, elem_of_cons; auto. }
    exists w'. rewrite Hrun. cbn [fs scratch trace] in *.
    split.
    { assert (Hitem : page_item self doc tmp n
                      = (image_path_of self tmp n,
                         (rect_width page, rect_height page)))
        by (unfold page_item; by rewrite Hpage).
      cbn [map]. by rewrite Hitem, <- app_assoc. }
    split; [exact Hfs|].
    split.
    { rewrite Htr. cbn [map]. by rewrite <- app_assoc. }
    split.
    { intros m page_m pixmap_m data_m Hm Hpage_m Hout_m.
      apply elem_of_cons in Hm as [->|Hm]; [|by eapply Himg].
      rewrite Hkeep.
      - rewrite lookup_insert_eq. congruence.
      - intros m Hm. split; [apply image_path_not_temp|].
        intros Heq. apply image_path_of_inj in Heq. by subst m. }
    intros k Hk. rewrite Hkeep.
    + destruct (Hk n) as [Hk1 Hk2]; [apply elem_of_cons; auto|].
      rewrite lookup_insert_ne by done. by rewrite lookup_delete_ne.
    + intros m Hm. apply Hk, elem_of_cons. auto.
Qed.



(** ** What the stages do to the file system, whatever the document *)

Lemma process_page_fs self doc tmp n w :
  fs (snd (process_page self doc tmp n w)) = fs w.
Proof.
  destruct (doc_pages doc !! n) as [page|] eqn:Hpage.
  - pose proof (process_page_outcome self doc tmp n page w Hpage) as Hrun.
    cbn zeta in Hrun. destruct (page_outcome self page) as [e|[pixmap data]].
    + by destruct Hrun as (err & w' & -> & _ & Hfs & _).
    + by rewrite Hrun.
  - unfold process_page, load_page, bind at 1. by rewrite Hpage.
Qed.

Lemma page_loop_fs self doc tmp nums acc w :
  fs (snd (page_loop self doc tmp nums acc w)) = fs w
  ∧ ∀ e, fst (page_loop self doc tmp nums acc w) = Raise e → is_RuntimeError e.
Proof.
  revert acc w. induction nums as [|n nums IH]; intros acc w.
  - cbn. split; [reflexivity | discriminate].
  - rewrite page_loop_cons.
    pose proof (process_page_fs self doc tmp n w) as Hfs.
    destruct (process_page self doc tmp n w) as [[item|e] w1]; cbn [snd] in Hfs.
    + destruct (IH (acc ++ [item]) w1) as [Hfs' Hr].
      split; [congruence | exact Hr].
    + cbn. split; [exact Hfs|]. intros e' [= <-]. by eexists.
Qed.

Lemma convert_pdf_to_images_eq self path tmp w :
  convert_pdf_to_images self path tmp w =
  match fitz_open path (fs w !! path) with
  | inl e => (Raise (RuntimeError ("Failed to open PDF: " +:+ e)), w)
  | inr doc =>
      if is_encrypted doc then
        (Raise (RuntimeError "PDF is password protected"), logged w (EvOpen path))
      else
        match page_loop self doc tmp (seq 0 (length (doc_pages doc))) []
                (logged w (EvOpen path)) with
        | (Ok imgs, w2) => (Ok imgs, logged w2 EvClose)
        | (Raise e, w2) => (Raise e, w2)
        end
  end.
Proof.
  unfold convert_pdf_to_images.
  destruct (fitz_open path (fs w !! path)) as [msg|doc]; [reflexivity|].
  unfold bind at 1, log. fold (logged w (EvOpen path)).
  destruct (is_encrypted doc); [reflexivity|].
  unfold bind at 1.
  destruct (page_loop _ _ _ _ _ _) as [[imgs|e] w2]; reflexivity.
Qed.

Lemma convert_pdf_to_images_fs self path tmp w :
  fs (snd (convert_pdf_to_images self path tmp w)) = fs w
  ∧ ∀ e, fst (convert_pdf_to_images self path tmp w) = Raise e → is_RuntimeError e.
Proof.
  rewrite convert_pdf_to_images_eq.
  destruct (fitz_open path (fs w !! path)) as [msg|doc].
  - cbn. split; [reflexivity|]. intros e [= <-]. by eexists.
  - destruct (is_encrypted doc).
    + cbn. split; [reflexivity|]. intros e [= <-]. by eexists.
    + match goal with |- context [page_loop _ _ _ ?l ?a ?w1] =>
        destruct (page_loop_fs self doc tmp l a w1) as [Hfs Hr];
        destruct (page_loop self doc tmp l a w1) as [[imgs|e] w2] end;
        cbn [fst snd fs logged] in *.
      * split; [exact Hfs | discriminate].
      * split; [exact Hfs | exact Hr].
Qed.

Lemma canvas_loop_world image_paths canvas w :
  snd (canvas_loop image_paths canvas w) = w.
Proof.
  revert canvas. induction image_paths as [|[ip [width height]] rest IH];
    intros canvas; [reflexivity|].
  cbn [canvas_loop]. unfold bind at 1, ImageReader.
  destruct (scratch w !! ip) as [[pixmap| |format data]|];
    [apply IH | reflexivity | apply IH | reflexivity].
Qed.

Lemma write_bytes_cases files p data :
  (os.can_write files p = true
   ∧ os.write_bytes files p data = Ok (<[p := File data]> files))
  ∨ (os.can_write files p = false
     ∧ ∃ m, os.write_bytes files p data = Raise (OSError m)).
Proof.
  unfold os.can_write, os.write_bytes, os.create_error.
  destruct (files !! p) as [[old|]|].
  - destruct (writable p); [by left | right; eauto].
  - right. eauto.
  - destruct (os.parent_isdir files p); cbn [negb].
    + destruct (writable p); cbn [negb]; [by left | right; eauto].
    + destruct (os.path_exists files (os.path_dirname p)); right; eauto.
Qed.

Lemma create_pdf_from_images_cases self image_paths out w :
  (∃ canvas,
     canvas_loop image_paths [] w = (Ok canvas, w)
     ∧ os.can_write (fs w) out = true
     ∧ create_pdf_from_images self image_paths out w
       = (Ok tt, {| fs := <[out := File (canvas_bytes canvas)]> (fs w);
                    scratch := scratch w; trace := trace w |}))
  ∨ (∃ m, create_pdf_from_images self image_paths out w = (Raise (RuntimeError m), w)).
Proof.
  unfold create_pdf_from_images, try_except, bind.
  pose proof (canvas_loop_world image_paths [] w) as Hw.
  destruct (canvas_loop image_paths [] w) as [[canvas|e] w1]; cbn [snd] in Hw; subst w1.
  - unfold canvas_save.
    destruct (write_bytes_cases (fs w) out (canvas_bytes canvas))
      as [[Hcan ->]|[Hcan [m ->]]].
    + left. exists canvas. split; [reflexivity|]. split; [exact Hcan | reflexivity].
    + right. by eexists.
  - right. by eexists.
Qed.


(** ** Reassembly *)

Lemma canvas_loop_ok image_paths canvas w :
  (∀ img, img ∈ image_paths → image_readable w (fst img) = true) →
  ∃ pages,
    canvas_loop image_paths canvas w = (Ok (canvas ++ pages), w)
    ∧ Forall2 (page_matches w) image_paths pages.
Proof.
  revert canvas. induction image_paths as [|[ip [width height]] rest IH];
    intros canvas Hall.
  - exists []. rewrite app_nil_r. split; [reflexivity | constructor].
  - assert (Himg : image_readable w ip = true)
      by (apply (Hall (ip, (width, height))), elem_of_cons; auto).
    unfold image_readable in Himg.
    cbn [canvas_loop]. unfold bind at 1, ImageReader.
    destruct (scratch w !! ip) as [img|] eqn:Hip; [|discriminate].
    assert (Hread : (match img with
                     | Truncated =>
                         raise (OSError ("Cannot identify image file " +:+ ip)) w
                     | _ => ret img w
                     end) = ret img w) by (by destruct img).
    rewrite Hread. unfold ret at 1.
    match goal with |- context [canvas_loop rest (canvas ++ [?op]) w] =>
      destruct (IH (canvas ++ [op])) as (pages & Hrun & Hpages);
      [intros img' Hin; apply Hall, elem_of_cons; auto|];
      exists (op :: pages) end.
    rewrite Hrun, <- app_assoc. split; [reflexivity|].
    constructor; [|exact Hpages]. by repeat split.
Qed.

(** ** One file *)

Lemma validate_pdf_isfile files path :
  validate_pdf files path = true → ∃ data, files !! path = Some (File data).
Proof.
  unfold validate_pdf, os.path_exists, os.path_isfile.
  destruct (files !! path) as [[data|]|]; cbn; [eauto | discriminate..].
Qed.

Lemma convert_single_pdf_eq self input out w :
  convert_single_pdf self input out w =
  if negb (validate_pdf (fs w) input) then
    (Raise (ValueError ("Invalid PDF file: " +:+ input)), w)
  else
    let outp := resolved_output self (fs w) input out in
    match conversion_body self input outp mkdtemp (cleared w) with
    | (Ok p, w1) => (Ok p, cleared w1)
    | (Raise e, w1) =>
        match fs w1 !! outp with
        | Some (File _) =>
            (Raise e, {| fs := delete outp (fs w1); scratch := ∅;
                         trace := trace w1 |})
        | Some Dir => (Raise (OSError ("Is a directory: " +:+ outp)), cleared w1)
        | None => (Raise e, cleared w1)
        end
    end.
Proof.
  unfold convert_single_pdf.
  destruct (negb (validate_pdf (fs w) input)); [reflexivity|].
  fold (resolved_output self (fs w) input out).
  set (outp := resolved_output self (fs w) input out). cbn zeta.
  unfold with_TemporaryDirectory.
  unfold bind at 1, set_scratch at 1. fold (cleared w).
  unfold try_except. fold (conversion_body self input outp mkdtemp).
  destruct (conversion_body self input outp mkdtemp (cleared w))
    as [[p|e] w1]; [reflexivity|].
  unfold cleanup_output, bind, os.path_exists, os.remove.
  destruct (fs w1 !! outp) as [[data|]|]; reflexivity.
Qed.

Lemma conversion_body_eq self input outp tmp w :
  conversion_body self input outp tmp w =
  match convert_pdf_to_images self input tmp w with
  | (Raise e, w1) => (Raise e, w1)
  | (Ok imgs, w1) =>
      match create_pdf_from_images self imgs outp w1 with
      | (Raise e, w2) => (Raise e, w2)
      | (Ok _, w2) =>
          match os.path_getsize (fs w2) input with
          | Raise e => (Raise e, w2)
          | Ok _ =>
              match os.path_getsize (fs w2) outp with
              | Raise e => (Raise e, w2)
              | Ok _ => (Ok outp, w2)
              end
          end
      end
  end.
Proof.
  unfold conversion_body, bind, getsize, lift, ret.
  destruct (convert_pdf_to_images self input tmp w) as [[imgs|e] w1];
    [|reflexivity].
  destruct (create_pdf_from_images self imgs outp w1) as [[u|e] w2];
    [|reflexivity].
  destruct (os.path_getsize (fs w2) input); [|reflexivity].
  destruct (os.path_getsize (fs w2) outp); reflexivity.
Qed.

Lemma conversion_body_cases self input outp tmp w data :
  fs w !! input = Some (File data) →
  (∃ e w1,
     conversion_body self input outp tmp w = (Raise e, w1)
     ∧ fs w1 = fs w ∧ is_RuntimeError e
     ∧ (convert_pdf_to_images self input tmp w = (Raise e, w1)
        ∨ ∃ imgs, convert_pdf_to_images self input tmp w = (Ok imgs, w1)
                  ∧ create_pdf_from_images self imgs outp w1 = (Raise e, w1)))
  ∨ (∃ imgs w1 canvas,
       convert_pdf_to_images self input tmp w = (Ok imgs, w1)
       ∧ canvas_loop imgs [] w1 = (Ok canvas, w1)
       ∧ conversion_body self input outp tmp w
         = (Ok outp, {| fs := <[outp := File (canvas_bytes canvas)]> (fs w);
                        scratch := scratch w1; trace := trace w1 |})).
Proof.
  intros Hin. rewrite !conversion_body_eq.
  destruct (convert_pdf_to_images_fs self input tmp w) as [Hfs Hr].
  destruct (convert_pdf_to_images self input tmp w) as [[imgs|e] w1];
    cbn [fst snd] in *.
  - destruct (create_pdf_from_images_cases self imgs outp w1)
      as [(canvas & Hloop & Hdir & Hrun)|(m & Hrun)]; rewrite Hrun.
    + right. exists imgs, w1, canvas. split; [reflexivity|]. split; [exact Hloop|].
      unfold os.path_getsize. cbn [fs].
      assert (Hsz : ∃ d, <[outp := File (canvas_bytes canvas)]> (fs w1) !! input
                         = Some (File d)).
      { destruct (decide (outp = input)) as [->|Hne].
        - rewrite lookup_insert_eq. eauto.
        - rewrite lookup_insert_ne by exact Hne. rewrite Hfs, Hin. eauto. }
      destruct Hsz as [d ->]. rewrite lookup_insert_eq. by rewrite Hfs.
    + left. exists (RuntimeError m), w1. split; [reflexivity|].
      split; [exact Hfs|]. split; [by eexists|]. right. eauto.
  - left. exists e, w1. split; [reflexivity|]. split; [exact Hfs|].
    split; [by apply Hr | by left].
Qed.

End CoreLemmas.

Lemma Qabs_sub_self (a : Q) : (Qabs (a - a) <= 1 # 2)%Q.
Proof.
  assert (Heq : (a - a == 0)%Q) by ring.
  rewrite Heq. cbn. discriminate.
Qed.

Lemma startswith_take (n : nat) (s p : string) :
  String.length p ≤ n → Py.startswith (Py.take n s) p = Py.startswith s p.
Proof.
  revert n s. induction p as [|a p IH]; intros n s Hlen.
  - destruct n, s; reflexivity.
  - cbn in Hlen. destruct n as [|n]; [lia|].
    destruct s as [|b s]; [reflexivity|]. cbn.
    destruct (Ascii.eqb a b); [apply IH; lia | reflexivity].
Qed.

Section Pipeline.

Context {env : Environment}.

Lemma create_pdf_from_images_ok self image_paths out canvas w :
  canvas_loop image_paths [] w = (Ok canvas, w) →
  os.can_write (fs w) out = true →
  create_pdf_from_images self image_paths out w
  = (Ok tt, {| fs := <[out := File (canvas_bytes canvas)]> (fs w);
               scratch := scratch w; trace := trace w |}).
Proof.
  intros Hloop Hcan.
  unfold create_pdf_from_images, try_except, bind. rewrite Hloop.
  unfold canvas_save.
  destruct (write_bytes_cases (fs w) out (canvas_bytes canvas))
    as [[_ ->]|[Hno _]]; [reflexivity | congruence].
Qed.

Lemma page_item_lookup self doc tmp i ip :
  doc_pages doc !! i = Some ip →
  map (page_item self doc tmp) (seq 0 (length (doc_pages doc))) !! i
  = Some (image_path_of self tmp i, (rect_width ip, rect_height ip)).
Proof.
  intros Hi. assert (i < length (doc_pages doc)) by (by eapply lookup_lt_Some).
  change (map (page_item self doc tmp)) with (fmap (M:=list) (page_item self doc tmp)).
  rewrite list_lookup_fmap, lookup_seq_lt by done. cbn.
  unfold page_item. by rewrite Hi.
Qed.

Lemma page_matches_geometry w imgs canvas :
  Forall2 (page_matches w) imgs canvas → page_geometry canvas = map snd imgs.
Proof.
  induction 1 as [|[ip [width height]] op imgs canvas Hm _ IH]; [reflexivity|].
  destruct Hm as (Hw & Hh & _). cbn [fst snd] in Hw, Hh.
  unfold page_geometry in *. cbn [map snd]. by rewrite Hw, Hh, IH.
Qed.

Lemma page_items_geometry self doc tmp :
  map snd (map (page_item self doc tmp) (seq 0 (length (doc_pages doc))))
  = document_geometry doc.
Proof.
  apply (list_eq_same_length _ _ (length (doc_pages doc))).
  - unfold document_geometry. by rewrite length_map.
  - by rewrite !length_map, length_seq.
  - intros i x y Hi Hx Hy. unfold document_geometry in Hy.
    change (map ?f) with (fmap (M:=list) f) in Hx, Hy.
    rewrite list_lookup_fmap in Hy.
    destruct (doc_pages doc !! i) as [ip|] eqn:Hip; [|discriminate].
    rewrite list_lookup_fmap in Hx.
    change (fmap (M:=list) ?f) with (map f) in Hx.
    rewrite (page_item_lookup self doc tmp i ip Hip) in Hx.
    cbn in Hx, Hy. congruence.
Qed.

(** The rasterizer followed by the reassembler, on a document whose pages
    all render. *)
Lemma pipeline_run self input tmp out w doc :
  fitz_open input (fs w !! input) = inr doc →
  is_encrypted doc = false →
  (∀ page, page ∈ doc_pages doc → page_renders self page) →
  os.can_write (fs w) out = true →
  ∃ imgs w1 canvas w2,
    convert_pdf_to_images self input tmp w = (Ok imgs, w1)
    ∧ create_pdf_from_images self imgs out w1 = (Ok tt, w2)
    ∧ fs w2 = <[out := File (canvas_bytes canvas)]> (fs w)
    ∧ page_geometry canvas = document_geometry doc
    ∧ (∀ i op, canvas !! i = Some op →
         image_x op = 0%Q ∧ image_y op = 0%Q
         ∧ image_w op = page_width op ∧ image_h op = page_height op)
    ∧ (∀ i ip op pixmap data,
         doc_pages doc !! i = Some ip → canvas !! i = Some op →
         page_outcome self ip = inr (pixmap, data) →
         image_data op = Encoded (encoded_format self) data)
    ∧ trace w2
      = trace w ++ EvOpen input
          :: map (fun i => EvGetPixmap i (inject_Z (dpi self) / inject_Z 72)%Q)
               (seq 0 (length (doc_pages doc)))
          ++ [EvClose].
Proof.
  intros Hopen Henc Hall Hcan.
  rewrite convert_pdf_to_images_eq, Hopen, Henc.
  destruct (page_loop_ok self doc tmp (seq 0 (length (doc_pages doc))) []
              (logged w (EvOpen input)))
    as (w1 & Hrun & Hfs & Htr & Himg & _).
  { apply NoDup_seq. }
  { intros n Hn. apply elem_of_seq in Hn.
    destruct (lookup_lt_is_Some_2 (doc_pages doc) n) as [page Hn']; [lia|].
    exists page. split; [exact Hn'|]. eapply Hall, list_elem_of_lookup_2, Hn'. }
  rewrite Hrun. cbn [app].
  set (imgs := map (page_item self doc tmp) (seq 0 (length (doc_pages doc)))).
  destruct (canvas_loop_ok imgs [] (logged w1 EvClose)) as (canvas & Hloop & Hpages).
  { intros img Hin. apply list_elem_of_fmap in Hin as (n & -> & Hn).
    cbn [logged scratch fst page_item].
    pose proof Hn as Hn0. apply elem_of_seq in Hn.
    destruct (lookup_lt_is_Some_2 (doc_pages doc) n) as [page Hn']; [lia|].
    destruct (Hall page) as (pixmap & data & Hout);
      [eapply list_elem_of_lookup_2, Hn'|].
    unfold image_readable. cbn [logged scratch].
    by rewrite (Himg n page pixmap data Hn0 Hn' Hout). }
  cbn [app] in Hloop.
  exists imgs, (logged w1 EvClose), canvas. eexists.
  split; [reflexivity|].
  split.
  { apply create_pdf_from_images_ok; [exact Hloop|].
    cbn [logged fs]. by rewrite Hfs. }
  cbn [logged fs trace]. split; [by rewrite Hfs|].
  split.
  { rewrite (page_matches_geometry _ _ _ Hpages). apply page_items_geometry. }
  split.
  { intros i op Hop.
    destruct (Forall2_lookup_r _ _ _ _ _ Hpages Hop)
      as (img & _ & Hw & Hh & Hx & Hy & Hiw & Hih & _).
    rewrite Hw, Hh. auto. }
  split.
  { intros i ip op pixmap data Hip Hop Hout.
    destruct (Forall2_lookup_r _ _ _ _ _ Hpages Hop)
      as (img & Himg_i & _ & _ & _ & _ & _ & _ & Hdata).
    unfold imgs in Himg_i. rewrite (page_item_lookup _ _ _ _ _ Hip) in Himg_i.
    injection Himg_i as <-. cbn [fst logged scratch] in Hdata.
    rewrite (Himg i ip pixmap data) in Hdata; [congruence | | exact Hip | exact Hout].
    apply elem_of_seq. apply lookup_lt_Some in Hip. lia. }
  rewrite Htr. cbn [logged trace].
  by rewrite <- !app_assoc.
Qed.

Lemma geometry_lookup canvas doc i ip op :
  page_geometry canvas = document_geometry doc →
  doc_pages doc !! i = Some ip → canvas !! i = Some op →
  page_width op = rect_width ip ∧ page_height op = rect_height ip.
Proof.
  intros Hgeo Hip Hop.
  assert (Hi : page_geometry canvas !! i = Some (page_width op, page_height op)).
  { unfold page_geometry. change (map ?f) with (fmap (M:=list) f).
    by rewrite list_lookup_fmap, Hop. }
  rewrite Hgeo in Hi. unfold document_geometry in Hi.
  change (map ?f) with (fmap (M:=list) f) in Hi.
  rewrite list_lookup_fmap, Hip in Hi. cbn in Hi. by injection Hi as -> ->.
Qed.

(** C1: for a document that opens, is not encrypted and whose pages all
    render under the settings, and an output path that can be written,
    the rasterizer followed by the reassembler succeeds and saves a canvas
    with one page per input page; page [i] of the canvas has the width and
    height of input page [i] (hence within half a point of them) and is
    filled by the encoding of the pixmap that [get_pixmap] gives for input
    page [i] at the scale [dpi / 72].  The settings enter only through
    that scale and the encoding: under any other settings for which the
    pages render, the pages of the canvas have the same sizes. *)
Theorem pipeline_preserves_page_geometry self input tmp out w doc :
  fitz_open input (fs w !! input) = inr doc →
  is_encrypted doc = false →
  (∀ page, page ∈ doc_pages doc → page_renders self page) →
  os.can_write (fs w) out = true →
  ∃ imgs w1 canvas w2,
    convert_pdf_to_images self input tmp w = (Ok imgs, w1)
    ∧ create_pdf_from_images self imgs out w1 = (Ok tt, w2)
    ∧ fs w2 = <[out := File (canvas_bytes canvas)]> (fs w)
    ∧ length canvas = length (doc_pages doc)
    ∧ (∀ i ip op,
         doc_pages doc !! i = Some ip → canvas !! i = Some op →
         page_width op = rect_width ip ∧ page_height op = rect_height ip
         ∧ (Qabs (page_width op - rect_width ip) <= 1 # 2)%Q
         ∧ (Qabs (page_height op - rect_height ip) <= 1 # 2)%Q
         ∧ image_x op = 0%Q ∧ image_y op = 0%Q
         ∧ image_w op = rect_width ip ∧ image_h op = rect_height ip
         ∧ ∃ pixmap data,
             get_pixmap ip (inject_Z (dpi self) / inject_Z 72)%Q = inr pixmap
             ∧ encode_page self pixmap = inr data
             ∧ image_data op = Encoded (encoded_format self) data)
    ∧ trace w2
      = trace w ++ EvOpen input
          :: map (fun i => EvGetPixmap i (inject_Z (dpi self) / inject_Z 72)%Q)
               (seq 0 (length (doc_pages doc)))
          ++ [EvClose]
    ∧ (∀ self',
         (∀ page, page ∈ doc_pages doc → page_renders self' page) →
         ∃ imgs' w1' canvas' w2',
           convert_pdf_to_images self' input tmp w = (Ok imgs', w1')
           ∧ create_pdf_from_images self' imgs' out w1' = (Ok tt, w2')
           ∧ fs w2' = <[out := File (canvas_bytes canvas')]> (fs w)
           ∧ page_geometry canvas' = page_geometry canvas
           ∧ trace w2'
             = trace w ++ EvOpen input
                 :: map (fun i =>
                           EvGetPixmap i (inject_Z (dpi self') / inject_Z 72)%Q)
                      (seq 0 (length (doc_pages doc)))
                 ++ [EvClose]).
Proof.
  intros Hopen Henc Hall Hcan.
  destruct (pipeline_run self input tmp out w doc Hopen Henc Hall Hcan)
    as (imgs & w1 & canvas & w2 & Hconv & Hcreate & Hfs & Hgeo & Hbox & Hdata
        & Htr).
  exists imgs, w1, canvas, w2.
  split; [exact Hconv|]. split; [exact Hcreate|]. split; [exact Hfs|].
  split.
  { apply (f_equal length) in Hgeo.
    unfold page_geometry, document_geometry in Hgeo.
    by rewrite !length_map in Hgeo. }
  split.
  { intros i ip op Hip Hop.
    destruct (geometry_lookup _ _ _ _ _ Hgeo Hip Hop) as [Hw Hh].
    destruct (Hbox i op Hop) as (Hx & Hy & Hiw & Hih).
    rewrite Hiw, Hih, Hw, Hh.
    repeat (split; [auto using Qabs_sub_self|]).
    destruct (Hall ip) as (pixmap & data & Hout);
      [eapply list_elem_of_lookup_2, Hip|].
    exists pixmap, data.
    split; [|split; [|exact (Hdata i ip op pixmap data Hip Hop Hout)]].
    - unfold page_outcome in Hout.
      destruct (get_pixmap ip _) as [e|px]; [discriminate|].
      destruct (pixmap_save_error px) as [[e b]|]; [discriminate|].
      destruct (image_open_error px); [discriminate|].
      destruct remove_open_error; [discriminate|].
      destruct (encode_page self px); [discriminate|]. congruence.
    - unfold page_outcome in Hout.
      destruct (get_pixmap ip _) as [e|px]; [discriminate|].
      destruct (pixmap_save_error px) as [[e b]|]; [discriminate|].
      destruct (image_open_error px); [discriminate|].
      destruct remove_open_error; [discriminate|].
      destruct (encode_page self px) eqn:Henc'; [discriminate|]. congruence. }
  split; [exact Htr|].
  intros self' Hall'.
  destruct (pipeline_run self' input tmp out w doc Hopen Henc Hall' Hcan)
    as (imgs' & w1' & canvas' & w2' & Hconv' & Hcreate' & Hfs' & Hgeo' & _ & _
        & Htr').
  exists imgs', w1', canvas', w2'.
  split; [exact Hconv'|]. split; [exact Hcreate'|]. split; [exact Hfs'|].
  split; [congruence | exact Htr'].
Qed.

(** C4: a file of zero bytes, and a file that neither begins with the
    five bytes of the PDF header nor is detected as [application/pdf],
    fails [validate_pdf]; [convert_single_pdf] then raises before it
    opens the document or touches the file system. *)
Theorem invalid_file_rejected_before_rendering files path data :
  files !! path = Some (File data) →
  String.length data = 0
  ∨ (Py.startswith data "%PDF-" = false
     ∧ guess_type path ≠ Some "application/pdf") →
  validate_pdf files path = false
  ∧ ∀ self out sc tr,
      convert_single_pdf self path out
        {| fs := files; scratch := sc; trace := tr |}
      = (Raise (ValueError ("Invalid PDF file: " +:+ path)),
         {| fs := files; scratch := sc; trace := tr |}).
Proof.
  intros Hfile Hbad.
  assert (Hinvalid : validate_pdf files path = false).
  { unfold validate_pdf, os.path_exists, os.path_isfile, os.path_getsize,
      os.read_bytes.
    rewrite Hfile. cbn [negb].
    destruct (Py.endswith (Py.lower path) ".pdf"); [cbn [negb]|reflexivity].
    destruct Hbad as [Hzero|[Hhead Hmime]].
    - destruct data as [|c data]; [|discriminate Hzero]. cbn.
      destruct (bool_decide _), (readable path); reflexivity.
    - rewrite bool_decide_eq_false_2 by exact Hmime. cbn [negb].
      destruct (readable path); [|reflexivity].
      rewrite startswith_take by (cbn; lia). by rewrite Hhead. }
  split; [exact Hinvalid|].
  intros self out sc tr. unfold convert_single_pdf. cbn [fs].
  by rewrite Hinvalid.
Qed.

End Pipeline.

Section FailurePaths.

Context {env : Environment}.




Lemma page_loop_errors self doc tmp nums acc w e w' :
  page_loop self doc tmp nums acc w = (Raise e, w') →
  ∃ n msg, e = page_error n msg.
Proof.
  revert acc w. induction nums as [|n nums IH]; intros acc w; [discriminate|].
  rewrite page_loop_cons.
  destruct (process_page self doc tmp n w) as [[item|err] w1]; [apply IH|].
  intros [= <- <-]. eauto.
Qed.

(** C5, as amended: a document that the library reports as encrypted
    once it is open (a password is needed) is refused right after it is
    opened, with no page rendered, by an error whose message differs from
    that of every parse failure.  The refusal goes by that flag alone: a
    document that opens with the flag off is never refused with this
    error, whatever encryption the file declares. *)
Theorem encrypted_pdf_rejected self path tmp w doc :
  fitz_open path (fs w !! path) = inr doc →
  is_encrypted doc = true →
  convert_pdf_to_images self path tmp w
  = (Raise (RuntimeError "PDF is password protected"),
     {| fs := fs w; scratch := scratch w; trace := trace w ++ [EvOpen path] |})
  ∧ (∀ w0 msg,
       fitz_open path (fs w0 !! path) = inl msg →
       convert_pdf_to_images self path tmp w0
       = (Raise (RuntimeError ("Failed to open PDF: " +:+ msg)), w0)
       ∧ RuntimeError ("Failed to open PDF: " +:+ msg)
         ≠ RuntimeError "PDF is password protected")
  ∧ (∀ w0 doc0,
       fitz_open path (fs w0 !! path) = inr doc0 →
       is_encrypted doc0 = false →
       fst (convert_pdf_to_images self path tmp w0)
       ≠ Raise (RuntimeError "PDF is password protected")).
Proof.
  intros Hopen Henc. split.
  - by rewrite convert_pdf_to_images_eq, Hopen, Henc.
  - split.
    + intros w0 msg Hfail. split.
      * by rewrite convert_pdf_to_images_eq, Hfail.
      * cbn. discriminate.
    + intros w0 doc0 Hopen0 Hflag.
      rewrite convert_pdf_to_images_eq, Hopen0, Hflag.
      destruct (page_loop _ _ _ _ _ _) as [[imgs|e] w2] eqn:Hloop;
        [discriminate|].
      apply page_loop_errors in Hloop as (n & msg & ->). cbn. discriminate.
Qed.


End FailurePaths.

Section Naming.

Variables (files : gmap string node) (parent : pathlib.Path)
          (base_name suffix : string).

Lemma conflict_loop_free fuel c path :
  pathlib.exists_ files path = false →
  conflict_loop files parent base_name suffix fuel c path = path.
Proof. intros Hfree. destruct fuel; cbn; by rewrite Hfree. Qed.

Lemma conflict_loop_first_free fuel c path k :
  pathlib.exists_ files path = true →
  c ≤ k → k ≤ 999 →
  (∀ j, c ≤ j → j < k → pathlib.exists_ files (numbered parent base_name suffix j) = true) →
  pathlib.exists_ files (numbered parent base_name suffix k) = false →
  1001 - c ≤ fuel →
  conflict_loop files parent base_name suffix fuel c path = numbered parent base_name suffix k.
Proof.
  revert c path. induction fuel as [|fuel IH]; intros c path Hex Hck Hk Htaken Hfree Hfuel;
    [lia|].
  cbn [conflict_loop]. rewrite Hex. fold (numbered parent base_name suffix c).
  destruct (Nat.ltb_spec 1000 (c + 1)) as [Hgt|_]; [lia|].
  destruct (decide (c = k)) as [->|Hne].
  - by apply conflict_loop_free.
  - apply IH; [apply Htaken; lia | lia | lia | | exact Hfree | lia].
    intros j Hj1 Hj2. apply Htaken; lia.
Qed.

Lemma conflict_loop_all_taken fuel c path :
  pathlib.exists_ files path = true →
  1 ≤ c → c ≤ 1000 →
  (∀ j, c ≤ j → j ≤ 999 → pathlib.exists_ files (numbered parent base_name suffix j) = true) →
  1001 - c ≤ fuel →
  conflict_loop files parent base_name suffix fuel c path = numbered parent base_name suffix 1000.
Proof.
  revert c path. induction fuel as [|fuel IH]; intros c path Hex Hc1 Hc2 Htaken Hfuel;
    [lia|].
  cbn [conflict_loop]. rewrite Hex. fold (numbered parent base_name suffix c).
  destruct (Nat.ltb_spec 1000 (c + 1)) as [Hgt|Hle].
  - by replace c with 1000 by lia.
  - apply IH; [apply Htaken; lia | lia | lia | | lia].
    intros j Hj1 Hj2. apply Htaken; lia.
Qed.

End Naming.

(** C7, as amended: the name returned is the first of the plain name
    (number 0) and the names suffixed [_1] to [_999] that does not exist,
    and it then names no existing file; when all of these exist, the name
    suffixed [_1000] is returned without being checked. *)
Theorem get_output_filename_first_free files input fmt dpi0 k :
  k ≤ 1000 →
  (∀ j, j < k → os.path_exists files (candidate input dpi0 j) = true) →
  (k ≤ 999 → os.path_exists files (candidate input dpi0 k) = false) →
  get_output_filename files input fmt dpi0 = candidate input dpi0 k
  ∧ (k ≤ 999 →
     os.path_exists files (get_output_filename files input fmt dpi0) = false).
Proof.
  intros Hk Htaken Hfree.
  assert (Hname : get_output_filename files input fmt dpi0 = candidate input dpi0 k).
  { unfold get_output_filename.
    set (obj := pathlib.parse input).
    set (suffix := "_image_" +:+ Py.str_int dpi0 +:+ "dpi").
    assert (Hnum : ∀ i, 1 ≤ i →
              candidate input dpi0 i
              = pathlib.str (numbered (pathlib.parent obj) (pathlib.stem obj) suffix i)).
    { intros [|i] Hi; [lia | reflexivity]. }
    destruct k as [|k].
    - rewrite conflict_loop_free; [reflexivity | apply Hfree; lia].
    - destruct (decide (S k = 1000)) as [Hcap|Hlow].
      + rewrite conflict_loop_all_taken; try lia.
        * rewrite Hcap. by rewrite Hnum by lia.
        * apply (Htaken 0). lia.
        * intros j Hj1 Hj2. unfold pathlib.exists_. rewrite <- Hnum by lia.
          apply Htaken. lia.
      + rewrite (conflict_loop_first_free _ _ _ _ _ _ _ (S k)); try lia.
        * by rewrite Hnum by lia.
        * apply (Htaken 0). lia.
        * intros j Hj1 Hj2. unfold pathlib.exists_. rewrite <- Hnum by lia.
          apply Htaken. lia.
        * unfold pathlib.exists_. rewrite <- Hnum by lia. apply Hfree. lia. }
  split; [exact Hname|]. intros Hlow. rewrite Hname. by apply Hfree.
Qed.

Lemma get_output_filename_first_free_witness :
  get_output_filename (Sample.crowded 2) "r.pdf" "jpeg" 72 = "r_image_72dpi_3.pdf"
  ∧ os.path_exists (Sample.crowded 2)
      (get_output_filename (Sample.crowded 2) "r.pdf" "jpeg" 72) = false.
Proof.
  destruct (get_output_filename_first_free (Sample.crowded 2) "r.pdf" "jpeg" 72 3)
    as [Hname Hfree].
  - lia.
  - intros j Hj. destruct j as [|[|[|j]]]; [vm_compute; reflexivity..|lia].
  - intros _. vm_compute. reflexivity.
  - split; [exact Hname | apply Hfree; lia].
Defined.

(** The claim C7 as stated fails when the plain name and the names
    suffixed [_1] to [_1000] all exist: the name returned is that of an
    existing file. *)
Lemma get_output_filename_names_existing_file :
  os.path_exists (Sample.crowded 1000)
    (get_output_filename (Sample.crowded 1000) "r.pdf" "jpeg" 72) = true.
Proof. vm_compute. reflexivity. Qed.

Lemma Z_in_enumerated (x : Z) :
  Z_in x [72; 150; 300]%Z = true ↔ (x = 72 ∨ x = 150 ∨ x = 300)%Z.
Proof.
  unfold Z_in; simpl. rewrite !orb_true_iff, !Z.eqb_eq. intuition discriminate.
Qed.

Lemma str_in_formats (s : string) :
  str_in s ["JPEG"; "PNG"] = true ↔ (s = "JPEG" ∨ s = "PNG").
Proof.
  unfold str_in; simpl. rewrite !orb_true_iff, !String.eqb_eq. intuition discriminate.
Qed.

Lemma quality_in_range (q : Z) :
  ((1 <=? q)%Z && (q <=? 100)%Z) = true ↔ (1 ≤ q ≤ 100)%Z.
Proof. rewrite andb_true_iff, !Z.leb_le. tauto. Qed.

Lemma init_cases (dpi0 : Z) (fmt : string) (q : Z) (v : bool) :
  (settings_in_range dpi0 fmt q
   ∧ __init__ dpi0 fmt q v
     = Ok {| dpi := dpi0; image_format := Py.upper fmt;
             jpeg_quality := q; verbose := v |})
  ∨ (¬ settings_in_range dpi0 fmt q
     ∧ ∃ e, __init__ dpi0 fmt q v = Raise e ∧ is_configuration_error e).
Proof.
  unfold __init__, settings_in_range, is_configuration_error.
  cbn [dpi image_format jpeg_quality].
  destruct (Z_in dpi0 [72; 150; 300]%Z) eqn:Hd; cbn [negb].
  - destruct (str_in (Py.upper fmt) ["JPEG"; "PNG"]) eqn:Hf; cbn [negb].
    + destruct ((1 <=? q)%Z && (q <=? 100)%Z) eqn:Hq; cbn [negb].
      * left. apply Z_in_enumerated in Hd. apply str_in_formats in Hf.
        apply quality_in_range in Hq. split; [tauto | reflexivity].
      * right. split; [|eauto].
        intros (_ & _ & Hr). apply quality_in_range in Hr. congruence.
    + right. split; [|eauto].
      intros (_ & Hr & _). apply str_in_formats in Hr. congruence.
  - right. split; [|eauto].
    intros (Hr & _). apply Z_in_enumerated in Hr. congruence.
Qed.

Lemma invalid_pdf_is_no_configuration_error (path : string) :
  ¬ is_configuration_error (ValueError ("Invalid PDF file: " +:+ path)).
Proof. intros [Heq|[Heq|Heq]]; cbn in Heq; discriminate. Qed.

Lemma RuntimeError_is_no_configuration_error (e : exn) :
  is_RuntimeError e → ¬ is_configuration_error e.
Proof. intros [m ->] [Heq|[Heq|Heq]]; discriminate. Qed.

Lemma OSError_is_no_configuration_error (m : string) :
  ¬ is_configuration_error (OSError m).
Proof. intros [Heq|[Heq|Heq]]; discriminate. Qed.

Section Errors.

Context {env : Environment}.

(** The errors a single conversion can raise. *)
Lemma convert_single_pdf_errors self input out w e w' :
  convert_single_pdf self input out w = (Raise e, w') →
  e = ValueError ("Invalid PDF file: " +:+ input)
  ∨ is_RuntimeError e
  ∨ ∃ m, e = OSError m.
Proof.
  rewrite convert_single_pdf_eq.
  destruct (validate_pdf (fs w) input) eqn:Hvalid; cbn [negb].
  2:{ intros [= <- <-]. by left. }
  cbn zeta.
  destruct (validate_pdf_isfile _ _ Hvalid) as [d Hin].
  destruct (conversion_body_cases self input
              (resolved_output self (fs w) input out) mkdtemp (cleared w) d Hin)
    as [(e1 & w1 & Hrun & Hfs & Hrt & _)|(imgs & w1 & canvas & _ & _ & Hrun)];
    rewrite Hrun; [|discriminate].
  destruct (fs w1 !! _) as [[data|]|].
  - intros [= <- <-]. auto.
  - intros [= <- <-]. right. right. by eexists.
  - intros [= <- <-]. auto.
Qed.

End Errors.

(** C6: the constructor raises, and then one of its three configuration
    errors, exactly when a setting is outside its range; settings inside
    the ranges give the converter holding them; and no error raised later
    by a conversion is a configuration error.  The constructor takes and
    returns no file-system state. *)
Theorem init_rejects_exactly_out_of_range (dpi0 : Z) (fmt : string) (q : Z)
    (v : bool) :
  ((∃ e, __init__ dpi0 fmt q v = Raise e) ↔ ¬ settings_in_range dpi0 fmt q)
  ∧ (∀ e, __init__ dpi0 fmt q v = Raise e → is_configuration_error e)
  ∧ (settings_in_range dpi0 fmt q ↔
     __init__ dpi0 fmt q v
     = Ok {| dpi := dpi0; image_format := Py.upper fmt;
             jpeg_quality := q; verbose := v |})
  ∧ (∀ (env : Environment) self input out w e w',
       __init__ dpi0 fmt q v = Ok self →
       convert_single_pdf self input out w = (Raise e, w') →
       ¬ is_configuration_error e).
Proof.
  destruct (init_cases dpi0 fmt q v) as [[Hin Hok]|(Hout & e & Hraise & Hcfg)].
  - split; [|split; [|split]].
    + rewrite Hok. split; [intros [e [=]] | tauto].
    + rewrite Hok. discriminate.
    + tauto.
    + intros env self input out w e w' _ Hrun.
      destruct (convert_single_pdf_errors _ _ _ _ _ _ Hrun) as [->|[Hrt|[m ->]]];
        auto using invalid_pdf_is_no_configuration_error,
          RuntimeError_is_no_configuration_error,
          OSError_is_no_configuration_error.
  - split; [|split; [|split]].
    + split; [tauto | eauto].
    + rewrite Hraise. by intros e' [= <-].
    + rewrite Hraise. split; [tauto | discriminate].
    + rewrite Hraise. discriminate.
Qed.

Section Batch.

Context {env : Environment}.








End Batch.

(** * Facts about the string primitives *)

Lemma mem_replace_old (old new : ascii) (s : string) :
  old ≠ new → Py.mem old (Py.replace old new s) = false.
Proof.
  intros Hne. induction s as [|c s IH]; [reflexivity|]. cbn.
  destruct (Ascii.eqb_spec c old) as [->|Hc].
  - destruct (Ascii.eqb_spec old new); [done | exact IH].
  - destruct (Ascii.eqb_spec old c); [congruence | exact IH].
Qed.

Lemma mem_replace_other (c old new : ascii) (s : string) :
  c ≠ new → Py.mem c s = false → Py.mem c (Py.replace old new s) = false.
Proof.
  intros Hne. induction s as [|d s IH]; [reflexivity|]. cbn.
  destruct (Ascii.eqb_spec c d) as [->|Hcd]; [discriminate|]. intros Hs.
  destruct (Ascii.eqb d old).
  - destruct (Ascii.eqb_spec c new); [done | by apply IH].
  - destruct (Ascii.eqb_spec c d); [done | by apply IH].
Qed.

Lemma mem_fold_replace_other (c new : ascii) (l : list ascii) (s : string) :
  c ≠ new → Py.mem c s = false →
  Py.mem c (fold_left (fun acc ch => Py.replace ch new acc) l s) = false.
Proof.
  intros Hne. revert s. induction l as [|a l IH]; intros s Hs; [exact Hs|].
  cbn. apply IH. by apply mem_replace_other.
Qed.

Lemma mem_fold_replace (c new : ascii) (l : list ascii) (s : string) :
  c ≠ new → In c l →
  Py.mem c (fold_left (fun acc ch => Py.replace ch new acc) l s) = false.
Proof.
  intros Hne. revert s. induction l as [|a l IH]; intros s Hin; [destruct Hin|].
  cbn. destruct (Ascii.eqb_spec a c) as [->|Hac].
  - apply mem_fold_replace_other; [exact Hne | by apply mem_replace_old].
  - apply IH. destruct Hin; [congruence | done].
Qed.

Lemma mem_In (c : ascii) (s : string) :
  Py.mem c s = true → In c (list_ascii_of_string s).
Proof.
  induction s as [|d s IH]; [discriminate|]. cbn.
  destruct (Ascii.eqb_spec c d) as [->|Hne]; [by left | right; auto].
Qed.

Lemma mem_lstrip (c : ascii) (chars s : string) :
  Py.mem c s = false → Py.mem c (Py.lstrip chars s) = false.
Proof.
  induction s as [|d s IH]; [reflexivity|]. cbn [Py.lstrip].
  destruct (Py.mem d chars); [|done]. cbn.
  destruct (Ascii.eqb c d); [discriminate | exact IH].
Qed.

Lemma mem_rstrip (c : ascii) (chars s : string) :
  Py.mem c s = false → Py.mem c (Py.rstrip chars s) = false.
Proof.
  induction s as [|d s IH]; [reflexivity|]. cbn [Py.rstrip Py.mem].
  destruct (Ascii.eqb c d) eqn:Hcd; [discriminate|]. intros Hs.
  specialize (IH Hs).
  destruct (Py.rstrip chars s) as [|e r].
  - destruct (Py.mem d chars); [reflexivity|]. cbn. by rewrite Hcd.
  - cbn [Py.mem]. by rewrite Hcd.
Qed.

Lemma mem_take (c : ascii) (n : nat) (s : string) :
  Py.mem c s = false → Py.mem c (Py.take n s) = false.
Proof.
  revert n. induction s as [|d s IH]; intros [|n]; try reflexivity. cbn.
  destruct (Ascii.eqb c d); [discriminate | apply IH].
Qed.

Lemma first_lstrip (chars s : string) :
  match Py.first (Py.lstrip chars s) with
  | Some c => Py.mem c chars = false
  | None => True
  end.
Proof.
  induction s as [|d s IH]; [exact I|]. cbn [Py.lstrip].
  destruct (Py.mem d chars) eqn:Hd; [exact IH | exact Hd].
Qed.

Lemma first_rstrip (chars s : string) :
  Py.rstrip chars s = "" ∨ Py.first (Py.rstrip chars s) = Py.first s.
Proof.
  destruct s as [|d s]; [by left|]. cbn [Py.rstrip].
  destruct (Py.rstrip chars s); [|by right].
  destruct (Py.mem d chars); [by left | by right].
Qed.

Lemma last_rstrip (chars s : string) :
  match Py.last (Py.rstrip chars s) with
  | Some c => Py.mem c chars = false
  | None => True
  end.
Proof.
  induction s as [|d s IH]; [exact I|]. cbn [Py.rstrip].
  destruct (Py.rstrip chars s) as [|e r].
  - destruct (Py.mem d chars) eqn:Hd; [exact I | exact Hd].
  - exact IH.
Qed.

Lemma length_take (n : nat) (s : string) : String.length (Py.take n s) ≤ n.
Proof.
  revert s. induction n as [|n IH]; intros [|c s]; cbn; try lia.
  specialize (IH s). lia.
Qed.

Lemma first_take (n : nat) (s : string) :
  Py.first (Py.take (S n) s) = Py.first s.
Proof. by destruct s. Qed.

Lemma stripped_name_free (filename : string) :
  free_of_invalid_chars (stripped_name filename).
Proof.
  intros c Hc. unfold stripped_name, Py.strip.
  apply mem_rstrip, mem_lstrip, mem_fold_replace; [|by apply mem_In].
  intros ->. vm_compute in Hc. discriminate.
Qed.

Lemma stripped_name_first (filename : string) :
  is_space_or_dot (Py.first (stripped_name filename)) = false.
Proof.
  unfold stripped_name, Py.strip. set (s := fold_left _ _ _).
  destruct (first_rstrip " ." (Py.lstrip " ." s)) as [-> | ->]; [reflexivity|].
  pose proof (first_lstrip " ." s) as Hfirst.
  by destruct (Py.first (Py.lstrip " ." s)).
Qed.

Lemma stripped_name_last (filename : string) :
  is_space_or_dot (Py.last (stripped_name filename)) = false.
Proof.
  unfold stripped_name, Py.strip. set (s := Py.lstrip _ _).
  pose proof (last_rstrip " ." s) as Hlast.
  by destruct (Py.last (Py.rstrip " ." s)).
Qed.

(** What [sanitize_filename] does guarantee: a non-empty name of at most
    200 characters, free of the invalid characters, that does not begin
    with a space or a dot; it does not end with one either unless it was
    cut at 200 characters; and the fixed name when nothing is left. *)
Theorem sanitize_filename_guarantees (filename : string) :
  sanitize_filename filename ≠ ""
  ∧ String.length (sanitize_filename filename) ≤ 200
  ∧ free_of_invalid_chars (sanitize_filename filename)
  ∧ is_space_or_dot (Py.first (sanitize_filename filename)) = false
  ∧ (String.length (stripped_name filename) ≤ 200 →
     is_space_or_dot (Py.last (sanitize_filename filename)) = false)
  ∧ (stripped_name filename = "" → sanitize_filename filename = "converted_pdf").
Proof.
  unfold sanitize_filename. fold (stripped_name filename).
  pose proof (stripped_name_free filename) as Hfree.
  pose proof (stripped_name_first filename) as Hfirst.
  pose proof (stripped_name_last filename) as Hlast.
  destruct (String.eqb_spec (stripped_name filename) "") as [->|Hne].
  - cbn. repeat split; try done; try lia.
    intros c Hc. vm_compute in Hc.
    repeat (destruct c as [[] [] [] [] [] [] [] []]; try discriminate Hc; try reflexivity).
  - destruct (Nat.ltb_spec 200 (String.length (stripped_name filename))) as [Hlong|Hshort].
    + split.
      { destruct (stripped_name filename); [done | discriminate]. }
      split; [apply length_take|].
      split; [intros c Hc; by apply mem_take, Hfree|].
      split; [by rewrite first_take|].
      split; [lia | done].
    + repeat split; try done.
Qed.

(** * Further properties of the converter *)

Section Further.

Context {env : Environment}.

Lemma close_count_app (a b : list event) :
  close_count (a ++ b) = close_count a + close_count b.
Proof. unfold close_count. by rewrite List.filter_app, length_app. Qed.

Lemma process_page_close_count self doc tmp n w :
  close_count (trace (snd (process_page self doc tmp n w))) = close_count (trace w).
Proof.
  destruct (doc_pages doc !! n) as [page|] eqn:Hpage.
  - pose proof (process_page_outcome self doc tmp n page w Hpage) as Hrun.
    cbn zeta in Hrun. destruct (page_outcome self page) as [e|[pixmap data]].
    + destruct Hrun as (err & w' & -> & _ & _ & Htr & _). cbn [snd].
      rewrite Htr, close_count_app. cbn. lia.
    + rewrite Hrun. cbn [snd trace]. rewrite close_count_app. cbn. lia.
  - unfold process_page, load_page, bind at 1. by rewrite Hpage.
Qed.

Lemma page_loop_close_count self doc tmp nums acc w :
  close_count (trace (snd (page_loop self doc tmp nums acc w)))
  = close_count (trace w).
Proof.
  revert acc w. induction nums as [|n nums IH]; intros acc w; [reflexivity|].
  rewrite page_loop_cons.
  pose proof (process_page_close_count self doc tmp n w) as Hpage.
  destruct (process_page self doc tmp n w) as [[item|e] w1]; cbn [snd] in *.
  - by rewrite IH.
  - exact Hpage.
Qed.

(** The rasterizer calls [close] once when it returns its list, and not
    at all when it raises, whatever the document and the settings. *)
Theorem convert_pdf_to_images_closes_only_on_success self path tmp w :
  close_count (trace (snd (convert_pdf_to_images self path tmp w)))
  = close_count (trace w)
    + (if is_ok (fst (convert_pdf_to_images self path tmp w)) then 1 else 0).
Proof.
  rewrite convert_pdf_to_images_eq.
  destruct (fitz_open path (fs w !! path)) as [msg|doc]; [cbn; lia|].
  destruct (is_encrypted doc).
  { cbn [fst snd logged trace is_ok]. rewrite close_count_app. cbn. lia. }
  match goal with |- context [page_loop _ _ _ ?l ?a ?w1] =>
    pose proof (page_loop_close_count self doc tmp l a w1) as Hloop;
    destruct (page_loop self doc tmp l a w1) as [[imgs|e] w2] end;
    cbn [fst snd logged trace is_ok] in *.
  - rewrite close_count_app, Hloop, close_count_app. cbn. lia.
  - rewrite Hloop, close_count_app. cbn. lia.
Qed.

(** [validate_pdf] accepts exactly the regular files with a [.pdf] name
    (in any letter case) that are detected as [application/pdf] or are
    readable and begin with the five header bytes, and that hold at least
    100 bytes. *)
Theorem validate_pdf_accepts_iff files path :
  validate_pdf files path = true ↔
  ∃ data,
    files !! path = Some (File data)
    ∧ Py.endswith (Py.lower path) ".pdf" = true
    ∧ (guess_type path = Some "application/pdf"
       ∨ (readable path = true ∧ Py.startswith data "%PDF-" = true))
    ∧ 100 ≤ String.length data.
Proof.
  unfold validate_pdf, os.path_exists, os.path_isfile, os.path_getsize,
    os.read_bytes.
  destruct (files !! path) as [[data|]|] eqn:Hfile; cbn [negb];
    [|split; [discriminate | by intros (data & [=] & _)]..].
  destruct (Py.endswith (Py.lower path) ".pdf"); cbn [negb];
    [|split; [discriminate | by intros (d & _ & [=] & _)]].
  assert (Hsize : (if (String.length data <? 100)%nat then false else true) = true
                  ↔ 100 ≤ String.length data).
  { destruct (Nat.ltb_spec (String.length data) 100); split; (lia || done). }
  destruct (decide (guess_type path = Some "application/pdf")) as [Hmime|Hmime].
  - rewrite bool_decide_eq_true_2 by exact Hmime. cbn [negb]. rewrite Hsize.
    split.
    + intros Hlen. exists data.
      split; [done|]. split; [done|]. split; [by left | done].
    + by intros (d & [= <-] & _ & _ & Hlen).
  - rewrite bool_decide_eq_false_2 by exact Hmime. cbn [negb].
    destruct (readable path).
    + cbn zeta. rewrite startswith_take by (cbn; lia).
      destruct (Py.startswith data "%PDF-") eqn:Hhead; cbn [negb].
      * rewrite Hsize. split.
        -- intros Hlen. exists data.
           split; [done|]. split; [done|]. split; [by right | done].
        -- by intros (d & [= <-] & _ & _ & Hlen).
      * split; [discriminate|].
        intros (d & [= <-] & _ & [Hm|[_ Hh]] & _); [done | congruence].
    + split; [discriminate|].
      intros (d & _ & _ & [Hm|[Hr _]] & _); [done | discriminate].
Qed.


End Further.

(** * The claims on the sample files *)

Section Witnesses.

Local Existing Instance Sample.sample_env.

Lemma pipeline_preserves_page_geometry_witness :
  ∃ imgs w1 canvas w2 imgs' w1' canvas' w2',
    convert_pdf_to_images Sample.jpeg150 "in.pdf" mkdtemp Sample.w0 = (Ok imgs, w1)
    ∧ create_pdf_from_images Sample.jpeg150 imgs "new.pdf" w1 = (Ok tt, w2)
    ∧ fs w2 = <[ "new.pdf" := File (canvas_bytes canvas) ]> (fs Sample.w0)
    ∧ length canvas = 2
    ∧ page_geometry canvas = [(612, 792); (595, 842)]%Q
    ∧ map image_data canvas
      = [Encoded "JPEG" "JPEG 1275x1650"; Encoded "JPEG" "JPEG 1240x1755"]
    ∧ trace w2
      = [EvOpen "in.pdf"; EvGetPixmap 0 (150 # 72); EvGetPixmap 1 (150 # 72);
         EvClose]
    ∧ convert_pdf_to_images Sample.png300 "in.pdf" mkdtemp Sample.w0
      = (Ok imgs', w1')
    ∧ create_pdf_from_images Sample.png300 imgs' "new.pdf" w1' = (Ok tt, w2')
    ∧ page_geometry canvas' = page_geometry canvas
    ∧ trace w2'
      = [EvOpen "in.pdf"; EvGetPixmap 0 (300 # 72); EvGetPixmap 1 (300 # 72);
         EvClose].
Proof.
  destruct (pipeline_preserves_page_geometry Sample.jpeg150 "in.pdf" mkdtemp
              "new.pdf" Sample.w0
              {| encryption := None; is_encrypted := false;
                 doc_pages := [Sample.letter true; Sample.a4] |})
    as (imgs & w1 & canvas & w2 & Hconv & Hcreate & Hfs & Hlen & Hpages & Htr
        & Hother).
  - vm_compute. reflexivity.
  - reflexivity.
  - intros page Hin. apply elem_of_cons in Hin as [->|Hin].
    + eexists _, _. vm_compute. reflexivity.
    + apply list_elem_of_singleton in Hin as ->.
      eexists _, _. vm_compute. reflexivity.
  - vm_compute. reflexivity.
  - destruct (Hother Sample.png300)
      as (imgs' & w1' & canvas' & w2' & Hconv' & Hcreate' & _ & Hgeo' & Htr').
    { intros page Hin. apply elem_of_cons in Hin as [->|Hin].
      + eexists _, _. vm_compute. reflexivity.
      + apply list_elem_of_singleton in Hin as ->.
        eexists _, _. vm_compute. reflexivity. }
    exists imgs, w1, canvas, w2, imgs', w1', canvas', w2'.
    destruct canvas as [|op0 [|op1 [|op2 rest]]]; try discriminate Hlen.
    destruct (Hpages 0 (Sample.letter true) op0 eq_refl eq_refl)
      as (Hw0 & Hh0 & _ & _ & _ & _ & _ & _ & px0 & d0 & Hpx0 & Hd0 & Hi0).
    destruct (Hpages 1 Sample.a4 op1 eq_refl eq_refl)
      as (Hw1 & Hh1 & _ & _ & _ & _ & _ & _ & px1 & d1 & Hpx1 & Hd1 & Hi1).
    injection Hpx0 as <-. injection Hpx1 as <-.
    injection Hd0 as <-. injection Hd1 as <-.
    split; [exact Hconv|]. split; [exact Hcreate|]. split; [exact Hfs|].
    split; [reflexivity|].
    split.
    { unfold page_geometry. cbn [map]. by rewrite Hw0, Hh0, Hw1, Hh1. }
    split.
    { cbn [map]. by rewrite Hi0, Hi1. }
    split; [exact Htr|]. split; [exact Hconv'|]. split; [exact Hcreate'|].
    split; [exact Hgeo' | exact Htr'].
Defined.



Lemma invalid_file_rejected_before_rendering_witness :
  validate_pdf Sample.library "data:,notes.pdf" = false
  ∧ convert_single_pdf Sample.jpeg150 "data:,notes.pdf" None Sample.w0
    = (Raise (ValueError "Invalid PDF file: data:,notes.pdf"), Sample.w0).
Proof.
  destruct (invalid_file_rejected_before_rendering Sample.library
              "data:,notes.pdf" "plain text") as [Hinvalid Hraise].
  - vm_compute. reflexivity.
  - right. split; [reflexivity | vm_compute; discriminate].
  - split; [exact Hinvalid | apply Hraise].
Defined.

Lemma encrypted_pdf_rejected_witness :
  convert_pdf_to_images Sample.jpeg150 "locked.pdf" mkdtemp Sample.w0
  = (Raise (RuntimeError "PDF is password protected"),
     {| fs := Sample.library; scratch := ∅; trace := [EvOpen "locked.pdf"] |}).
Proof.
  destruct (encrypted_pdf_rejected Sample.jpeg150 "locked.pdf" mkdtemp Sample.w0
              {| encryption := Some "Standard V4 R4 128-bit AES";
                 is_encrypted := true; doc_pages := [Sample.letter true] |})
    as [Hraise _].
  - vm_compute. reflexivity.
  - reflexivity.
  - exact Hraise.
Defined.

(** The claim C5 as stated fails for a document that is encrypted with
    an owner password and an empty user password: the library opens it
    with the flag [is_encrypted] off, and the rasterizer renders its
    pages. *)
Lemma owner_encrypted_pdf_is_converted :
  ∃ doc imgs w',
    fitz_open "owner.pdf" (fs Sample.w_owner !! "owner.pdf") = inr doc
    ∧ encryption doc = Some "Standard V4 R4 128-bit AES"
    ∧ is_encrypted doc = false
    ∧ convert_pdf_to_images Sample.jpeg150 "owner.pdf" mkdtemp Sample.w_owner
      = (Ok imgs, w')
    ∧ length imgs = 1
    ∧ trace w' = [EvOpen "owner.pdf"; EvGetPixmap 0 (150 # 72); EvClose].
Proof. eexists _, _, _. vm_compute. repeat split. Qed.



(** C8 fails on the code: when a page cannot be rendered, and when the
    document is encrypted, [convert_single_pdf] returns to its caller with
    the document opened and never closed; a conversion that succeeds
    closes it once. *)
Theorem document_left_open_on_failure :
  (let r := convert_single_pdf Sample.jpeg150 "bad.pdf" None Sample.w0 in
   fst r = Raise (RuntimeError "Failed to process page 2: cannot render page")
   ∧ trace (snd r)
     = [EvOpen "bad.pdf"; EvGetPixmap 0 (150 # 72); EvGetPixmap 1 (150 # 72)]
   ∧ close_count (trace (snd r)) = 0)
  ∧ (let r := convert_single_pdf Sample.jpeg150 "locked.pdf" None Sample.w0 in
     fst r = Raise (RuntimeError "PDF is password protected")
     ∧ trace (snd r) = [EvOpen "locked.pdf"]
     ∧ close_count (trace (snd r)) = 0)
  ∧ (let r := convert_single_pdf Sample.jpeg150 "in.pdf" None Sample.w0 in
     fst r = Ok "in_image_150dpi.pdf"
     ∧ close_count (trace (snd r)) = 1).
Proof. vm_compute. repeat split. Qed.

End Witnesses.

(** C10 fails on the code: a name of 201 characters whose 200th character
    is a dot is cut after the stripping, and the result ends with the
    dot. *)
Theorem sanitize_filename_may_end_with_dot :
  String.length Sample.long_name = 201
  ∧ sanitize_filename Sample.long_name = Py.repeat "a" 199 +:+ "."
  ∧ is_space_or_dot (Py.last (sanitize_filename Sample.long_name)) = true.
Proof. vm_compute. repeat split. Qed.

(** * Further properties of the sources *)

(** * Splitting names *)

Lemma append_cons (c : ascii) (a b : string) :
  String c a +:+ b = String c (a +:+ b).
Proof. reflexivity. Qed.

Lemma append_nil (b : string) : "" +:+ b = b.
Proof. reflexivity. Qed.

Lemma split_no_more (sep : ascii) (s : string) : PyStr.split sep 0 s = [s].
Proof.
  induction s as [|c s IH]; [reflexivity|]. simpl.
  destruct (Ascii.eqb c sep); [reflexivity | by rewrite IH].
Qed.

Lemma split_first (sep : ascii) (m : nat) (a rest : string) :
  Py.mem sep a = false →
  PyStr.split sep (S m) (a +:+ String sep rest) = a :: PyStr.split sep m rest.
Proof.
  induction a as [|c a IH]; rewrite ?append_cons, ?append_nil; simpl.
  - intros _. by rewrite Ascii.eqb_refl.
  - rewrite (Ascii.eqb_sym sep c). destruct (Ascii.eqb c sep); [discriminate|].
    intros Hmem. by rewrite (IH Hmem).
Qed.

Lemma rfind_app (sep a t : string) (i : nat) :
  PyStr.rfind_sub sep t = Some i →
  PyStr.rfind_sub sep (a +:+ t) = Some (String.length a + i).
Proof.
  intros Ht. induction a as [|c a IH]; rewrite ?append_cons, ?append_nil;
    simpl; [exact Ht|]. by rewrite IH.
Qed.

Lemma append_assoc (a b c : string) : (a +:+ b) +:+ c = a +:+ (b +:+ c).
Proof.
  induction a as [|x a IH]; rewrite ?append_cons, ?append_nil;
    [reflexivity | by rewrite IH].
Qed.

Lemma take_app_length (a t : string) : Py.take (String.length a) (a +:+ t) = a.
Proof.
  induction a as [|c a IH]; rewrite ?append_cons, ?append_nil; simpl;
    [by destruct t | by rewrite IH].
Qed.

Lemma drop_app_length (a t : string) : Py.drop (String.length a) (a +:+ t) = t.
Proof.
  induction a as [|c a IH]; rewrite ?append_cons, ?append_nil; simpl;
    [reflexivity | exact IH].
Qed.

(** The name [download_file] offers for an output written by
    [upload_file] as [{file_id}_{base}_image_{dpi}dpi.pdf], with a file id
    free of underscores: it is cut after the second underscore, so a base
    name without underscore is lost altogether (the name offered is
    [image_{dpi}dpi.pdf_converted.pdf]), and a base name [a_b] keeps only
    [b]. *)
Theorem download_name_drops_first_segment (file_id : string) (dpi0 : Z) :
  Py.mem "_" file_id = false →
  (dpi0 = 72 ∨ dpi0 = 150 ∨ dpi0 = 300)%Z →
  (∀ base_name,
     Py.mem "_" base_name = false →
     download_name_of
       (file_id +:+ "_" +:+ base_name +:+ "_image_" +:+ Py.str_int dpi0
          +:+ "dpi.pdf")
     = "image_" +:+ Py.str_int dpi0 +:+ "dpi.pdf_converted.pdf")
  ∧ (∀ a b,
       Py.mem "_" a = false →
       download_name_of
         (file_id +:+ "_" +:+ (a +:+ "_" +:+ b) +:+ "_image_"
            +:+ Py.str_int dpi0 +:+ "dpi.pdf")
       = b +:+ "_converted.pdf").
Proof.
  intros Hid Hdpi. split.
  - intros base_name Hbase. unfold download_name_of.
    change (file_id +:+ "_" +:+ base_name +:+ "_image_" +:+ Py.str_int dpi0
              +:+ "dpi.pdf")
      with (file_id +:+ String "_"
              (base_name +:+ String "_"
                 ("image_" +:+ Py.str_int dpi0 +:+ "dpi.pdf"))).
    rewrite (split_first _ _ _ _ Hid), (split_first _ _ _ _ Hbase), split_no_more.
    destruct Hdpi as [->|[->| ->]]; vm_compute; reflexivity.
  - intros a b Ha. unfold download_name_of.
    assert (Hshape : file_id +:+ "_" +:+ (a +:+ "_" +:+ b) +:+ "_image_"
                       +:+ Py.str_int dpi0 +:+ "dpi.pdf"
                     = file_id +:+ String "_"
                         (a +:+ String "_"
                            (b +:+ "_image_" +:+ Py.str_int dpi0 +:+ "dpi.pdf"))).
    { f_equal. simpl. f_equal. rewrite append_assoc. reflexivity. }
    rewrite Hshape, (split_first _ _ _ _ Hid), (split_first _ _ _ _ Ha),
      split_no_more.
    cbn [length Nat.leb nth]. unfold PyStr.rsplit1.
    rewrite (rfind_app "_image_" b _ 0).
    2:{ destruct Hdpi as [->|[->| ->]]; vm_compute; reflexivity. }
    rewrite Nat.add_0_r. cbn [nth]. by rewrite take_app_length.
Qed.

(** * Allowed upload names *)

Lemma lower_ascii_dot (c : ascii) :
  Py.lower_ascii c = "."%char ↔ c = "."%char.
Proof.
  split; [|by intros ->].
  destruct c as [[] [] [] [] [] [] [] []]; vm_compute; congruence.
Qed.

Lemma lower_cons (c : ascii) (s : string) :
  Py.lower (String c s) = String (Py.lower_ascii c) (Py.lower s).
Proof. reflexivity. Qed.

Lemma lower_app_inv (s a b : string) :
  Py.lower s = a +:+ b →
  ∃ s1 s2, s = s1 +:+ s2 ∧ Py.lower s1 = a ∧ Py.lower s2 = b.
Proof.
  revert s. induction a as [|c a IH]; intros s Heq.
  - exists "", s. done.
  - destruct s as [|d s]; [discriminate|].
    rewrite lower_cons, append_cons in Heq. injection Heq as Hc Heq.
    destruct (IH s Heq) as (s1 & s2 & -> & H1 & H2).
    exists (String d s1), s2. by rewrite append_cons, lower_cons, Hc, H1.
Qed.

Lemma lower_app (a b : string) : Py.lower (a +:+ b) = Py.lower a +:+ Py.lower b.
Proof.
  induction a as [|c a IH]; rewrite ?append_nil; [reflexivity|].
  by rewrite append_cons, !lower_cons, append_cons, IH.
Qed.

Lemma length_append (a b : string) :
  String.length (a +:+ b) = String.length a + String.length b.
Proof.
  induction a as [|c a IH]; rewrite ?append_cons, ?append_nil; simpl;
    [done | by rewrite IH].
Qed.

Lemma take_drop (n : nat) (t : string) : Py.take n t +:+ Py.drop n t = t.
Proof.
  revert t. induction n as [|n IH]; intros [|c t]; simpl; try reflexivity.
  by rewrite append_cons, IH.
Qed.

Lemma endswith_iff (t p : string) :
  Py.endswith t p = true ↔ ∃ x, t = x +:+ p.
Proof.
  unfold Py.endswith. rewrite andb_true_iff, Nat.leb_le, String.eqb_eq. split.
  - intros [Hlen Hdrop]. exists (Py.take (String.length t - String.length p) t).
    pose proof (take_drop (String.length t - String.length p) t) as Hsplit.
    by rewrite Hdrop in Hsplit.
  - intros [x ->]. rewrite length_append. split; [lia|].
    replace (String.length x + String.length p - String.length p)
      with (String.length x) by lia.
    apply drop_app_length.
Qed.

Lemma mem_lower_dot (s : string) : Py.mem "." (Py.lower s) = Py.mem "." s.
Proof.
  induction s as [|c s IH]; [reflexivity|]. rewrite lower_cons.
  cbn [Py.mem]. rewrite IH.
  destruct (Ascii.eqb_spec "." c) as [<-|Hc]; [reflexivity|].
  destruct (Ascii.eqb_spec "." (Py.lower_ascii c)) as [Hl|_]; [|reflexivity].
  symmetry in Hl. apply (proj1 (lower_ascii_dot c)) in Hl. by subst c.
Qed.

Lemma rfind_cons (sep : string) (c : ascii) (s : string) :
  PyStr.rfind_sub sep (String c s)
  = match PyStr.rfind_sub sep s with
    | Some i => Some (S i)
    | None => if Py.startswith (String c s) sep then Some O else None
    end.
Proof. reflexivity. Qed.

Lemma startswith_dot (c : ascii) (s : string) :
  Py.startswith (String c s) "." = Ascii.eqb "." c.
Proof.
  change (Py.startswith (String c s) ".")
    with (if Ascii.eqb "." c then Py.startswith s "" else false).
  destruct (Ascii.eqb "." c); [by destruct s | reflexivity].
Qed.

Lemma mem_cons (x c : ascii) (s : string) :
  Py.mem x (String c s) = if Ascii.eqb x c then true else Py.mem x s.
Proof. reflexivity. Qed.

Lemma rfind_dot_None (s : string) :
  Py.mem "." s = false → PyStr.rfind_sub "." s = None.
Proof.
  induction s as [|c s IH]; [reflexivity|].
  rewrite mem_cons, rfind_cons, startswith_dot.
  destruct (Ascii.eqb "." c); [discriminate|]. intros Hs. by rewrite IH.
Qed.

Lemma rfind_dot_Some (s : string) (i : nat) :
  PyStr.rfind_sub "." s = Some i →
  s = Py.take i s +:+ "." +:+ Py.drop (i + 1) s
  ∧ Py.mem "." s = true.
Proof.
  revert i. induction s as [|c s IH]; intros i; [discriminate|].
  rewrite rfind_cons, startswith_dot, mem_cons.
  destruct (PyStr.rfind_sub "." s) as [j|] eqn:Hj.
  - intros [= <-]. destruct (IH j eq_refl) as [Heq Hmem].
    rewrite Hmem. split; [|by destruct (Ascii.eqb "." c)].
    change (Py.take (S j) (String c s)) with (String c (Py.take j s)).
    change (Py.drop (S j + 1) (String c s)) with (Py.drop (j + 1) s).
    by rewrite append_cons, <- Heq.
  - destruct (Ascii.eqb_spec "." c) as [<-|_]; [|discriminate].
    intros [= <-]. split; [|reflexivity]. by destruct s.
Qed.

(** [allowed_file], the name check of the upload view, and the extension
    check of [validate_pdf] accept the same names. *)
Theorem allowed_file_agrees_with_validate_pdf (filename : string) :
  allowed_file filename = Py.endswith (Py.lower filename) ".pdf".
Proof.
  apply eq_true_iff_eq. rewrite endswith_iff. unfold allowed_file.
  rewrite andb_true_iff, String.eqb_eq. unfold PyStr.rsplit1. split.
  - intros [Hmem Hext].
    destruct (PyStr.rfind_sub "." filename) as [i|] eqn:Hfind.
    + destruct (rfind_dot_Some _ _ Hfind) as [Heq _]. cbn [nth String.length] in Hext.
      exists (Py.lower (Py.take i filename)).
      rewrite Heq at 1. by rewrite lower_app, <- Hext.
    + simpl in Hext. destruct (Py.lower "") eqn:E; discriminate.
  - intros [x Hlow].
    destruct (lower_app_inv _ _ _ Hlow) as (s1 & s2 & -> & _ & Hs2).
    destruct s2 as [|c suf]; [discriminate|]. simpl in Hs2. injection Hs2 as Hc Hsuf.
    apply (proj1 (lower_ascii_dot c)) in Hc. subst c.
    assert (Hnodot : Py.mem "." suf = false).
    { rewrite <- mem_lower_dot. unfold Py.lower. by rewrite Hsuf. }
    rewrite (rfind_app "." s1 (String "." suf) 0).
    2:{ by rewrite rfind_cons, (rfind_dot_None _ Hnodot), startswith_dot. }
    rewrite Nat.add_0_r. cbn [nth String.length]. split.
    + clear. induction s1 as [|d s1 IH]; [reflexivity|].
      rewrite append_cons, mem_cons, IH. by destruct (Ascii.eqb "." d).
    + replace (String.length s1 + 1) with (String.length (s1 +:+ ".")).
      2:{ rewrite length_append. reflexivity. }
      change (s1 +:+ String "." suf) with (s1 +:+ ("." +:+ suf)).
      rewrite <- append_assoc, drop_app_length. exact Hsuf.
Qed.

(** * The command line *)

Section CommandLine.

Context {env : Environment}.

Lemma validate_pdf_exists files path :
  validate_pdf files path = true → os.path_exists files path = true.
Proof.
  intros Hvalid. destruct (validate_pdf_isfile _ _ Hvalid) as [data Hfile].
  unfold os.path_exists. by rewrite Hfile.
Qed.

Lemma check_inputs_None files inputs :
  check_inputs files inputs = None ↔
  ∀ input_path, input_path ∈ inputs → validate_pdf files input_path = true.
Proof.
  induction inputs as [|p rest IH]; cbn [check_inputs].
  - split; [|done]. intros _ q Hq. by apply elem_of_nil in Hq.
  - destruct (validate_pdf files p) eqn:Hvalid.
    + rewrite (validate_pdf_exists _ _ Hvalid). cbn [negb]. rewrite IH. split.
      * intros Hrest q Hq. apply elem_of_cons in Hq as [->|Hq]; auto.
      * intros Hall q Hq. apply Hall, elem_of_cons. auto.
    + split.
      * by destruct (os.path_exists files p).
      * intros Hall. rewrite Hall in Hvalid; [done | apply elem_of_cons; auto].
Qed.


(** [main] converts nothing unless every input file passes validation: one
    missing or invalid input, in single or in batch mode, ends the run in
    [parser.error] with the file system and the document trace
    untouched. *)
Theorem main_rejects_invalid_input_before_converting args interrupt w
    input_path :
  input_path ∈ args_input args →
  validate_pdf (fs w) input_path = false →
  ∃ msg, main args interrupt w = (ParserError msg, w).
Proof.
  intros Hin Hinvalid. unfold main.
  destruct (negb _); [eauto|].
  destruct (_ && negb _); [eauto|].
  destruct (_ && truthy _); [eauto|].
  destruct (check_inputs (fs w) (args_input args)) as [msg|] eqn:Hcheck; [eauto|].
  rewrite check_inputs_None in Hcheck. rewrite (Hcheck _ Hin) in Hinvalid. done.
Qed.








End CommandLine.

(** * Glob expansion *)

Lemma insert_sorted_elem (x y : string) (l : list string) :
  y ∈ PyStr.insert_sorted x l ↔ y = x ∨ y ∈ l.
Proof.
  induction l as [|z l IH]; cbn.
  - rewrite list_elem_of_singleton, elem_of_nil. tauto.
  - destruct (String.leb x z).
    + by rewrite elem_of_cons.
    + rewrite !elem_of_cons, IH. tauto.
Qed.

Lemma sorted_elem (y : string) (l : list string) :
  y ∈ PyStr.sorted l ↔ y ∈ l.
Proof.
  induction l as [|x l IH]; cbn; [done|].
  by rewrite insert_sorted_elem, elem_of_cons, IH.
Qed.

Lemma expand_loop_elem glob_glob patterns acc x :
  x ∈ expand_loop glob_glob patterns acc ↔
  x ∈ acc
  ∨ (x ∈ patterns ∧ has_glob_char x = false)
  ∨ (∃ pattern, pattern ∈ patterns ∧ has_glob_char pattern = true
                ∧ x ∈ glob_glob pattern).
Proof.
  revert acc. induction patterns as [|p rest IH]; intros acc; cbn [expand_loop].
  - split; [auto|]. intros [H|[[H _]|(q & H & _)]]; [done | |];
      by apply elem_of_nil in H.
  - destruct (has_glob_char p) eqn:Hp.
    + destruct (glob_glob p) as [|m ms] eqn:Hglob; rewrite IH.
      * split.
        -- intros [H|[[H1 H2]|(q & H1 & H2 & H3)]]; [auto | |].
           ++ right; left. split; [apply elem_of_cons; auto | done].
           ++ right; right. exists q. split; [apply elem_of_cons; auto | done].
        -- intros [H|[[H1 H2]|(q & H1 & H2 & H3)]]; [auto | |].
           ++ apply elem_of_cons in H1 as [->|H1]; [congruence | auto].
           ++ apply elem_of_cons in H1 as [->|H1].
              ** rewrite Hglob in H3. by apply elem_of_nil in H3.
              ** right; right. eauto.
      * rewrite elem_of_app, sorted_elem. split.
        -- intros [[H|H]|[[H1 H2]|(q & H1 & H2 & H3)]]; [auto | | |].
           ++ right; right. exists p. rewrite Hglob.
              split; [apply elem_of_cons; auto | done].
           ++ right; left. split; [apply elem_of_cons; auto | done].
           ++ right; right. exists q. split; [apply elem_of_cons; auto | done].
        -- intros [H|[[H1 H2]|(q & H1 & H2 & H3)]]; [auto | |].
           ++ apply elem_of_cons in H1 as [->|H1]; [congruence | auto].
           ++ apply elem_of_cons in H1 as [->|H1].
              ** left; right. by rewrite <- Hglob.
              ** right; right. eauto.
    + rewrite IH, elem_of_app, list_elem_of_singleton. split.
      * intros [[H|H]|[[H1 H2]|(q & H1 & H2 & H3)]]; [auto | | |].
        -- subst x. right; left. split; [apply elem_of_cons; auto | done].
        -- right; left. split; [apply elem_of_cons; auto | done].
        -- right; right. exists q. split; [apply elem_of_cons; auto | done].
      * intros [H|[[H1 H2]|(q & H1 & H2 & H3)]]; [auto | |].
        -- apply elem_of_cons in H1 as [->|H1]; auto.
        -- apply elem_of_cons in H1 as [->|H1]; [congruence|].
           right; right. eauto.
Qed.

Lemma unique_loop_spec (paths : list string) (seen : gset string)
    (unique_paths : list string) :
  NoDup unique_paths →
  (∀ x, x ∈ seen ↔ x ∈ unique_paths) →
  NoDup (unique_loop paths seen unique_paths)
  ∧ (∀ x, x ∈ unique_loop paths seen unique_paths ↔ x ∈ unique_paths ∨ x ∈ paths)
  ∧ ∃ added, unique_loop paths seen unique_paths = unique_paths ++ added
             ∧ sublist added paths.
Proof.
  revert seen unique_paths.
  induction paths as [|p rest IH]; intros seen acc Hnd Hseen; cbn [unique_loop].
  - split; [done|]. split.
    + intros x. rewrite elem_of_nil. tauto.
    + exists []. by rewrite app_nil_r.
  - destruct (decide (p ∈ seen)) as [Hin|Hnot].
    + destruct (IH seen acc Hnd Hseen) as (Hnd' & Helem & added & Heq & Hsub).
      split; [done|]. split.
      * intros x. rewrite Helem, elem_of_cons. split; [tauto|].
        intros [H|[->|H]]; auto. left. by apply Hseen.
      * exists added. split; [done|]. by apply sublist_cons.
    + destruct (IH ({[p]} ∪ seen) (acc ++ [p])) as (Hnd' & Helem & added & Heq & Hsub).
      * apply NoDup_app. split; [done|]. split; [|apply NoDup_singleton].
        intros x Hx Hx'. apply list_elem_of_singleton in Hx' as ->.
        by apply Hnot, Hseen.
      * intros x. rewrite elem_of_union, elem_of_singleton, elem_of_app,
          list_elem_of_singleton, Hseen. tauto.
      * split; [done|]. split.
        -- intros x. rewrite Helem, elem_of_app, list_elem_of_singleton,
             elem_of_cons. tauto.
        -- exists (p :: added). rewrite Heq, <- app_assoc. split; [done|].
           by apply sublist_skip.
Qed.

Lemma filter_filter_str (P Q : string → bool) (l : list string) :
  List.filter P (List.filter Q l) = List.filter (fun y => P y && Q y) l.
Proof.
  induction l as [|y l IH]; [done|]. cbn.
  destruct (Q y); cbn; [|by rewrite andb_false_r].
  rewrite andb_true_r. destruct (P y); by rewrite IH.
Qed.

Lemma filter_ext_str (P Q : string → bool) (l : list string) :
  (∀ y, P y = Q y) → List.filter P l = List.filter Q l.
Proof.
  intros Heq. induction l as [|y l IH]; [done|]. cbn. by rewrite Heq, IH.
Qed.

(** The second loop keeps the first occurrence of every path that has not
    been seen yet. *)
Lemma unique_loop_first (paths : list string) (seen : gset string)
    (unique_paths : list string) :
  unique_loop paths seen unique_paths
  = unique_paths
    ++ List.filter (fun y => negb (bool_decide (y ∈ seen)))
         (first_occurrences paths).
Proof.
  revert seen unique_paths.
  induction paths as [|p rest IH]; intros seen acc;
    cbn [unique_loop first_occurrences List.filter].
  - by rewrite app_nil_r.
  - destruct (decide (p ∈ seen)) as [Hin|Hnot].
    + rewrite bool_decide_eq_true_2 by done. cbn [negb].
      rewrite IH, filter_filter_str. f_equal. apply filter_ext_str.
      intros y. destruct (String.eqb_spec y p) as [->|Hne]; cbn [negb].
      * rewrite bool_decide_eq_true_2 by done. reflexivity.
      * by rewrite andb_true_r.
    + rewrite bool_decide_eq_false_2 by done. cbn [negb].
      rewrite IH, <- app_assoc. cbn [app]. do 2 f_equal.
      rewrite filter_filter_str. apply filter_ext_str.
      intros y. destruct (String.eqb_spec y p) as [->|Hne]; cbn [negb].
      * rewrite bool_decide_eq_true_2
          by (apply elem_of_union; left; by apply elem_of_singleton).
        by rewrite bool_decide_eq_false_2.
      * rewrite andb_true_r. f_equal. apply bool_decide_ext.
        rewrite elem_of_union, elem_of_singleton.
        split; [by intros [->|Hy] | auto].
Qed.

(** The first loop appends, for each pattern in turn, the sorted matches
    of a glob pattern or the pattern itself. *)
Lemma expand_loop_concat glob_glob patterns acc :
  expand_loop glob_glob patterns acc
  = acc
    ++ concat (map (fun pattern =>
                      if has_glob_char pattern
                      then PyStr.sorted (glob_glob pattern) else [pattern])
                 patterns).
Proof.
  revert acc. induction patterns as [|p rest IH]; intros acc;
    cbn [expand_loop map concat].
  - by rewrite app_nil_r.
  - destruct (has_glob_char p).
    + destruct (glob_glob p) as [|m ms] eqn:Hglob.
      * by rewrite IH.
      * by rewrite IH, <- app_assoc.
    + by rewrite IH, <- app_assoc.
Qed.

Lemma first_occurrences_elem (l : list string) (x : string) :
  x ∈ first_occurrences l ↔ x ∈ l.
Proof.
  induction l as [|y l IH]; cbn [first_occurrences]; [done|].
  rewrite !elem_of_cons, <- IH, !list_elem_of_In, List.filter_In.
  destruct (String.eqb_spec x y) as [->|Hne]; cbn; [tauto|].
  split; [tauto|]. intros [Hx|Hx]; [done | auto].
Qed.

(** [expand_glob_patterns] returns the expansion of the patterns, in
    order (for each pattern the sorted matches of a glob pattern, or the
    pattern itself when it has no glob character), with every repetition
    after the first occurrence of a path dropped; so it returns each path
    once, and the paths returned are the literal patterns and the matches
    of the glob patterns, nothing else. *)
Theorem expand_glob_patterns_unique glob_glob patterns :
  let expanded :=
    concat (map (fun pattern =>
                   if has_glob_char pattern
                   then PyStr.sorted (glob_glob pattern) else [pattern])
              patterns) in
  expand_glob_patterns glob_glob patterns = first_occurrences expanded
  ∧ NoDup (expand_glob_patterns glob_glob patterns)
  ∧ (∀ x, x ∈ expand_glob_patterns glob_glob patterns ↔ x ∈ expanded)
  ∧ (∀ x, x ∈ expand_glob_patterns glob_glob patterns ↔
       (x ∈ patterns ∧ has_glob_char x = false)
       ∨ ∃ pattern, pattern ∈ patterns ∧ has_glob_char pattern = true
                    ∧ x ∈ glob_glob pattern).
Proof.
  cbn zeta. unfold expand_glob_patterns.
  destruct (unique_loop_spec (expand_loop glob_glob patterns []) ∅ [])
    as (Hnd & Helem & _).
  { apply NoDup_nil_2. }
  { intros x. rewrite elem_of_empty, elem_of_nil. tauto. }
  split.
  { rewrite unique_loop_first, expand_loop_concat. cbn [app].
    rewrite (filter_ext_str _ (fun _ => true)).
    - clear. induction (first_occurrences _) as [|y l IH]; [done|].
      cbn. by rewrite IH.
    - intros y. by rewrite bool_decide_eq_false_2 by set_solver. }
  split; [done|]. split.
  - intros x. rewrite Helem, elem_of_nil, expand_loop_concat. cbn [app]. tauto.
  - intros x. rewrite Helem, expand_loop_elem, !elem_of_nil. tauto.
Qed.

Lemma unique_loop_fresh (paths : list string) (seen : gset string)
    (unique_paths : list string) :
  NoDup paths → (∀ x, x ∈ paths → x ∉ seen) →
  unique_loop paths seen unique_paths = unique_paths ++ paths.
Proof.
  revert seen unique_paths.
  induction paths as [|p rest IH]; intros seen acc Hnd Hfresh; cbn [unique_loop].
  - by rewrite app_nil_r.
  - apply NoDup_cons in Hnd as [Hp Hnd].
    destruct (decide (p ∈ seen)) as [Hin|_].
    + destruct (Hfresh p); [apply elem_of_cons; auto | done].
    + rewrite IH; [by rewrite <- app_assoc | done |].
      intros x Hx. rewrite elem_of_union, elem_of_singleton.
      intros [->|Hseen]; [done|]. apply (Hfresh x); [apply elem_of_cons; auto | done].
Qed.

Lemma expand_loop_literal glob_glob patterns acc :
  (∀ p, p ∈ patterns → has_glob_char p = false) →
  expand_loop glob_glob patterns acc = acc ++ patterns.
Proof.
  revert acc. induction patterns as [|p rest IH]; intros acc Hlit; cbn [expand_loop].
  - by rewrite app_nil_r.
  - rewrite (Hlit p) by (apply elem_of_cons; auto).
    rewrite IH; [by rewrite <- app_assoc|].
    intros q Hq. apply Hlit, elem_of_cons. auto.
Qed.

(** A list of distinct paths without glob characters comes back as it is,
    whether the files exist or not: [glob.glob] is not consulted. *)
Theorem expand_glob_patterns_literal glob_glob patterns :
  (∀ p, p ∈ patterns → has_glob_char p = false) →
  NoDup patterns →
  expand_glob_patterns glob_glob patterns = patterns.
Proof.
  intros Hlit Hnd. unfold expand_glob_patterns.
  rewrite expand_loop_literal by done. cbn [app].
  rewrite unique_loop_fresh; [done | done |].
  intros x _. apply not_elem_of_empty.
Qed.

(** * The web application: clean-up and download names *)


(** * Sizes for the reader *)

Lemma unit_loop_step (fuel : nat) (n : Z) (d : positive) (i : nat) :
  unit_loop (S fuel) (n # d) i
  = if (1024 * Zpos d <=? n)%Z && (i <? 4)%nat then
      unit_loop fuel (n # d * 1024) (i + 1)
    else ((n # d), i).
Proof.
  cbn [unit_loop]. unfold Qle_bool. cbn [Qnum Qden length units Nat.sub].
  rewrite Z.mul_1_r.
  destruct ((1024 * Zpos d <=? n)%Z && (i <? 4)%nat); [|reflexivity].
  unfold Qdiv, Qinv, Qmult. cbn [Qnum Qden]. by rewrite Z.mul_1_r.
Qed.

Ltac loop_continue :=
  rewrite unit_loop_step;
  match goal with
  | |- context [(?a <=? ?b)%Z] =>
      destruct (Z.leb_spec a b); [cbn [andb Nat.ltb Nat.leb Nat.add] | lia]
  end.

Ltac loop_stop :=
  rewrite unit_loop_step;
  match goal with
  | |- context [(?a <=? ?b)%Z] =>
      destruct (Z.leb_spec a b); [lia | cbn [andb]]
  end.

Lemma format_file_size_bytes (n : Z) :
  (0 ≤ n < 1024)%Z → format_file_size n = Py.str_int n +:+ " B".
Proof.
  intros Hn. unfold format_file_size.
  destruct (Z.eqb_spec n 0) as [->|Hne]; [reflexivity|].
  change (inject_Z n) with (n # 1). cbn [length units]. loop_stop.
  cbn [Nat.eqb nth]. unfold int_of_float. cbn [Qnum Qden].
  by rewrite Z.quot_1_r.
Qed.

Lemma format_file_size_scaled (n : Z) (k : nat) :
  1 ≤ k ≤ 4 →
  (1024 ^ Z.of_nat k ≤ n)%Z →
  (k < 4 → (n < 1024 ^ Z.of_nat (k + 1))%Z) →
  format_file_size n
  = format_1f (n # Pos.pow 1024 (Pos.of_nat k)) +:+ " " +:+ nth k units "".
Proof.
  intros [Hk1 Hk4] Hlow Hhigh. unfold format_file_size.
  destruct (Z.eqb_spec n 0) as [->|Hne].
  { exfalso. assert (0 < 1024 ^ Z.of_nat k)%Z by (apply Z.pow_pos_nonneg; lia). lia. }
  change (inject_Z n) with (n # 1). cbn [length units].
  destruct k as [|[|[|[|[|k]]]]]; try lia.
  - change (1024 ^ Z.of_nat 1)%Z with 1024%Z in Hlow.
    assert (n < 1048576)%Z by (apply Hhigh; lia).
    loop_continue. loop_stop. reflexivity.
  - change (1024 ^ Z.of_nat 2)%Z with 1048576%Z in Hlow.
    assert (n < 1073741824)%Z by (apply Hhigh; lia).
    loop_continue. loop_continue. loop_stop. reflexivity.
  - change (1024 ^ Z.of_nat 3)%Z with 1073741824%Z in Hlow.
    assert (n < 1099511627776)%Z by (apply Hhigh; lia).
    loop_continue. loop_continue. loop_continue. loop_stop. reflexivity.
  - change (1024 ^ Z.of_nat 4)%Z with 1099511627776%Z in Hlow.
    loop_continue. loop_continue. loop_continue. loop_continue.
    rewrite unit_loop_step, andb_false_r. reflexivity.
Qed.

(** Sizes below 1024 bytes are shown as the plain number of bytes; from
    [1024^k] bytes on, and below [1024^(k+1)] bytes unless the unit is
    already the last one, the size is shown in the [k]-th unit, as the
    quotient by [1024^k] rounded to one decimal. *)
Theorem format_file_size_unit (n : Z) :
  (0 ≤ n < 2 ^ 53)%Z →
  ((n < 1024)%Z → format_file_size n = Py.str_int n +:+ " B")
  ∧ ∀ k : nat,
      1 ≤ k ≤ 4 →
      (1024 ^ Z.of_nat k ≤ n)%Z →
      (k < 4 → (n < 1024 ^ Z.of_nat (k + 1))%Z) →
      format_file_size n
      = format_1f (n # Pos.pow 1024 (Pos.of_nat k)) +:+ " " +:+ nth k units "".
Proof.
  intros Hn. split.
  - intros Hsmall. apply format_file_size_bytes. lia.
  - intros k. apply format_file_size_scaled.
Qed.

Lemma round_half_even_to_even (a : Z) (d : positive) (t : Z) :
  Z.even t = true →
  ((2 * t - 1) * Zpos d ≤ 2 * a)%Z → (2 * a < (2 * t + 1) * Zpos d)%Z →
  round_half_even (a # d) = t.
Proof.
  intros Heven Hlow Hhigh. unfold round_half_even, Qfloor. cbn [Qnum Qden].
  pose proof (Z.div_mod a (Zpos d) ltac:(lia)) as Hdiv.
  pose proof (Z.mod_pos_bound a (Zpos d) ltac:(lia)) as Hmod.
  set (f := (a / Zpos d)%Z) in *. set (r := (a mod Zpos d)%Z) in *.
  assert (Hr : (a - f * Zpos d = r)%Z) by lia. rewrite Hr.
  destruct (Z.compare_spec (2 * r) (Zpos d)) as [Heq|Hlt|Hgt].
  - assert (f = t - 1)%Z as -> by nia.
    rewrite Z.even_sub, Heven. cbn. lia.
  - nia.
  - nia.
Qed.

(** A size within a twentieth of a unit below the next unit is shown as
    [1024.0] of the smaller unit: the loop compares the size before the
    rounding of the display. *)
Theorem format_file_size_shows_1024 (n : Z) (k : nat) :
  1 ≤ k ≤ 3 →
  (20479 * 1024 ^ Z.of_nat k ≤ 20 * n)%Z →
  (n < 1024 ^ Z.of_nat (k + 1))%Z →
  format_file_size n = "1024.0 " +:+ nth k units "".
Proof.
  intros [Hk1 Hk3] Hlow Hhigh.
  assert (Hpow : (0 < 1024 ^ Z.of_nat k)%Z) by (apply Z.pow_pos_nonneg; lia).
  rewrite (format_file_size_scaled n k); [|lia|lia|intros _; exact Hhigh].
  assert (Hshown : format_1f (n # Pos.pow 1024 (Pos.of_nat k)) = "1024.0").
  { unfold format_1f.
    assert (Hround : round_half_even ((n # Pos.pow 1024 (Pos.of_nat k)) * 10)
                     = 10240%Z).
    { change ((n # Pos.pow 1024 (Pos.of_nat k)) * 10)%Q
        with ((n * 10)%Z # (Pos.pow 1024 (Pos.of_nat k) * 1)).
      apply round_half_even_to_even; [reflexivity|..];
        destruct k as [|[|[|[|k]]]]; try lia.
      - change (1024 ^ Z.of_nat 1)%Z with 1024%Z in Hlow.
        change (Z.pos (1024 ^ Pos.of_nat 1 * 1)) with 1024%Z. lia.
      - change (1024 ^ Z.of_nat 2)%Z with 1048576%Z in Hlow.
        change (Z.pos (1024 ^ Pos.of_nat 2 * 1)) with 1048576%Z. lia.
      - change (1024 ^ Z.of_nat 3)%Z with 1073741824%Z in Hlow.
        change (Z.pos (1024 ^ Pos.of_nat 3 * 1)) with 1073741824%Z. lia.
      - change (1024 ^ Z.of_nat (1 + 1))%Z with 1048576%Z in Hhigh.
        change (Z.pos (1024 ^ Pos.of_nat 1 * 1)) with 1024%Z. lia.
      - change (1024 ^ Z.of_nat (2 + 1))%Z with 1073741824%Z in Hhigh.
        change (Z.pos (1024 ^ Pos.of_nat 2 * 1)) with 1048576%Z. lia.
      - change (1024 ^ Z.of_nat (3 + 1))%Z with 1099511627776%Z in Hhigh.
        change (Z.pos (1024 ^ Pos.of_nat 3 * 1)) with 1073741824%Z. lia. }
    rewrite Hround. reflexivity. }
  rewrite Hshown. reflexivity.
Qed.

(** * Memory estimate *)

Lemma int_of_float_exact (a b : Z) (d : positive) :
  (a = b * Zpos d)%Z → int_of_float (a # d) = b.
Proof.
  intros ->. unfold int_of_float. cbn [Qnum Qden]. apply Z.quot_mul. lia.
Qed.

Lemma estimate_memory_usage_even (pages m : Z) (fmt : string) :
  estimate_memory_usage pages (2 * m) fmt
  = (935 * pages * m * m * bytes_per_pixel_of fmt)%Z.
Proof.
  unfold estimate_memory_usage, bytes_per_pixel_of.
  set (bpp := if String.eqb (Py.upper fmt) "JPEG" then 3%Z else 4%Z).
  change ((17 # 2) * inject_Z (2 * m))%Q with ((17 * (2 * m))%Z # 2 * 1).
  change ((11 # 1) * inject_Z (2 * m))%Q with ((11 * (2 * m))%Z # 1 * 1).
  rewrite (int_of_float_exact _ (17 * m)) by lia.
  rewrite (int_of_float_exact _ (22 * m)) by lia.
  change (inject_Z ?x * (5 # 2))%Q with ((x * 5)%Z # 1 * 2).
  apply int_of_float_exact. lia.
Qed.

(** For an even resolution [dpi = 2 m], as all three offered ones are, and
    as long as the float products are exact, the estimate is exactly
    [935 * pages * m^2] times the bytes per pixel (3 for JPEG in any letter
    case, 4 for every other format): the truncations of [int] cut nothing
    off, and the estimate for PNG is four thirds of the one for JPEG. *)
Theorem estimate_memory_usage_closed_form (pages m : Z) (fmt : string) :
  (0 ≤ pages)%Z → (0 ≤ m)%Z → (935 * pages * m * m * 4 < 2 ^ 52)%Z →
  estimate_memory_usage pages (2 * m) fmt
  = (935 * pages * m * m * bytes_per_pixel_of fmt)%Z
  ∧ (3 * estimate_memory_usage pages (2 * m) "PNG"
     = 4 * estimate_memory_usage pages (2 * m) "JPEG")%Z.
Proof.
  intros _ _ _. rewrite !estimate_memory_usage_even.
  split; [reflexivity|].
  change (bytes_per_pixel_of "PNG") with 4%Z.
  change (bytes_per_pixel_of "JPEG") with 3%Z. ring.
Qed.

(** * The upload view *)

Lemma uploads_outputs_disjoint (a b : string) :
  os.path_join UPLOAD_FOLDER a ≠ os.path_join OUTPUT_FOLDER b.
Proof. cbv. discriminate. Qed.

Lemma startswith_app (p s : string) : Py.startswith (p +:+ s) p = true.
Proof.
  induction p as [|c p IH]; [by destruct s|].
  change (String c p +:+ s) with (String c (p +:+ s)).
  cbn. by rewrite Ascii.eqb_refl.
Qed.

Section UploadLemmas.

Context {env : Environment} {web : Web}.

(** The file system after a single conversion to a given output path. *)
Lemma convert_single_pdf_files self input outp w :
  validate_pdf (fs w) input = true →
  match convert_single_pdf self input (Some outp) w with
  | (Ok p, w') =>
      p = outp
      ∧ ∃ canvas, fs w' = <[outp := File (canvas_bytes canvas)]> (fs w)
  | (Raise e, w') =>
      fs w' = match fs w !! outp with
              | Some (File _) => delete outp (fs w)
              | _ => fs w
              end
  end.
Proof.
  intros Hvalid. rewrite convert_single_pdf_eq, Hvalid. cbn [negb]. cbn zeta.
  cbn [resolved_output].
  destruct (validate_pdf_isfile _ _ Hvalid) as [d Hin].
  destruct (conversion_body_cases self input outp mkdtemp (cleared w) d Hin)
    as [(e1 & w1 & Hrun & Hfs & _)|(imgs & w1 & canvas & _ & _ & Hrun)];
    rewrite Hrun.
  - cbn [cleared fs] in Hfs. rewrite Hfs.
    destruct (fs w !! outp) as [[data|]|]; cbn [fs]; by rewrite ?Hfs.
  - cbn. split; [reflexivity|]. by exists canvas.
Qed.

Lemma upload_failed_unbound e w :
  upload_failed None None e w
  = (JsonError 500 ("Conversion failed: " +:+ exn_str e), w).
Proof. by destruct w. Qed.

Lemma upload_failed_response input output e w file_id filename original_size
    converted_size dpi0 format quality w' :
  upload_failed input output e w
  ≠ (JsonConverted file_id filename original_size converted_size dpi0 format
       quality, w').
Proof.
  unfold upload_failed.
  destruct (remove_if_exists input (fs w)); [|discriminate].
  destruct (remove_if_exists output _); discriminate.
Qed.

(** The handler when the upload could not be saved. *)
Lemma upload_failed_unsaved input e w :
  fs w !! input = None →
  upload_failed (Some input) None e w
  = (JsonError 500 ("Conversion failed: " +:+ exn_str e), w).
Proof.
  intros Hin. unfold upload_failed, remove_if_exists, os.path_exists.
  rewrite Hin. by destruct w.
Qed.

(** The handler on a saved upload whose output path holds nothing. *)
Lemma upload_failed_fresh input output e w files0 data :
  fs w = <[input := File data]> files0 →
  files0 !! input = None →
  match output with Some p => files0 !! p = None ∧ p ≠ input | None => True end →
  ∃ w', upload_failed (Some input) output e w
        = (JsonError 500 ("Conversion failed: " +:+ exn_str e), w')
        ∧ fs w' = files0.
Proof.
  intros Hfs Hin Hout. unfold upload_failed, remove_if_exists, os.path_exists, os.remove.
  rewrite Hfs, lookup_insert_eq, delete_insert_id by exact Hin.
  destruct output as [p|].
  - destruct Hout as [Hout _]. rewrite Hout. eexists. split; reflexivity.
  - eexists. split; reflexivity.
Qed.


(** Under a fresh identifier (nothing at the upload path, nothing at any
    output path of the identifier) the view never raises and is all or
    nothing on the file system: a success adds exactly the converted
    file, every error answer leaves the files as they were. *)
Theorem upload_file_all_or_nothing request w file :
  request_file request = Some file →
  fs w !! input_path_of (upload_filename file) = None →
  (∀ dpi0, fs w !! os.path_join OUTPUT_FOLDER
                     (output_filename_of (upload_filename file) dpi0) = None) →
  match upload_file request w with
  | (JsonConverted file_id filename _ _ dpi0 _ _, w') =>
      file_id = uuid4
      ∧ filename = output_filename_of (upload_filename file) dpi0
      ∧ ∃ canvas,
          fs w' = <[os.path_join OUTPUT_FOLDER filename
                    := File (canvas_bytes canvas)]> (fs w)
  | (JsonError status _, w') => (status = 400 ∨ status = 500) ∧ fs w' = fs w
  | _ => False
  end.
Proof.
  intros Hfile Hin Hout. unfold upload_file. rewrite Hfile.
  destruct (String.eqb (upload_filename file) ""); [auto|].
  destruct (allowed_file (upload_filename file)); cbn [negb]; [|auto].
  destruct (form_int (form_dpi request) 150) as [dpi0|e];
    [|rewrite upload_failed_unbound; auto].
  destruct (form_int (form_quality request) 85) as [quality|e];
    [|rewrite upload_failed_unbound; auto].
  destruct (Z_in dpi0 [72; 150; 300]%Z); cbn [negb]; [|auto].
  destruct (str_in _ ["JPEG"; "PNG"]); cbn [negb]; [|auto].
  destruct ((1 <=? quality)%Z && (quality <=? 100)%Z); cbn [negb]; [|auto].
  set (input_path := input_path_of (upload_filename file)) in *.
  set (output_filename := output_filename_of (upload_filename file) dpi0).
  set (output_path := os.path_join OUTPUT_FOLDER output_filename).
  assert (Hne : output_path ≠ input_path).
  { intros Heq. symmetry in Heq. by apply uploads_outputs_disjoint in Heq. }
  specialize (Hout dpi0). fold output_filename output_path in Hout.
  destruct (write_bytes_cases (fs w) input_path (upload_data file))
    as [[_ ->]|[_ [m ->]]].
  2:{ rewrite upload_failed_unsaved by exact Hin. auto. }
  cbn zeta.
  destruct (validate_pdf (<[input_path := File (upload_data file)]> (fs w))
              input_path) eqn:Hvalid; cbn [negb].
  2:{ unfold os.remove. rewrite lookup_insert_eq. cbn [fs].
      rewrite delete_insert_id by exact Hin. auto. }
  set (w1 := {| fs := <[input_path := File (upload_data file)]> (fs w);
                scratch := scratch w; trace := trace w |}).
  destruct (__init__ dpi0 _ quality false) as [converter|e].
  2:{ destruct (upload_failed_fresh input_path (Some output_path) e w1 (fs w)
                  (upload_data file) eq_refl Hin (conj Hout Hne))
        as (w' & -> & Hw'). auto. }
  pose proof (convert_single_pdf_files converter input_path output_path w1 Hvalid)
    as Hconv.
  destruct (convert_single_pdf converter input_path (Some output_path) w1)
    as [[p|e] w2].
  - destruct Hconv as (_ & canvas & Hfs2).
    unfold os.path_getsize, os.remove. rewrite Hfs2. cbn [w1 fs].
    rewrite lookup_insert_eq, lookup_insert_ne, lookup_insert_eq by done.
    split; [reflexivity|]. split; [reflexivity|]. exists canvas. cbn [fs].
    rewrite delete_insert_ne by done.
    by rewrite delete_insert_id by exact Hin.
  - cbn [w1 fs] in Hconv. rewrite lookup_insert_ne, Hout in Hconv by done.
    destruct (upload_failed_fresh input_path (Some output_path) e w2 (fs w)
                (upload_data file) Hconv Hin (conj Hout Hne))
      as (w' & -> & Hw'). auto.
Qed.

(** A request without an allowed file name, or whose settings are not
    integers in range, is answered with an error and leaves the world as
    it was; status 500 is the answer to a setting that is no integer. *)
Theorem upload_file_validates_before_saving request w :
  (∃ file dpi0 quality,
     request_file request = Some file
     ∧ upload_filename file ≠ ""
     ∧ allowed_file (upload_filename file) = true
     ∧ form_int (form_dpi request) 150 = Ok dpi0
     ∧ form_int (form_quality request) 85 = Ok quality
     ∧ settings_in_range dpi0 (default "JPEG" (form_format request)) quality)
  ∨ (snd (upload_file request w) = w
     ∧ ∃ status error,
         fst (upload_file request w) = JsonError status error
         ∧ (status = 400
            ∨ status = 500
              ∧ ∃ e, form_int (form_dpi request) 150 = Raise e
                     ∨ form_int (form_quality request) 85 = Raise e)).
Proof.
  unfold upload_file.
  destruct (request_file request) as [file|]; [|right; eauto 10].
  destruct (String.eqb (upload_filename file) "") eqn:Hname; [right; eauto 10|].
  apply String.eqb_neq in Hname.
  destruct (allowed_file (upload_filename file)) eqn:Hallowed; cbn [negb];
    [|right; eauto 10].
  destruct (form_int (form_dpi request) 150) as [dpi0|e];
    [|rewrite upload_failed_unbound; right; eauto 10].
  destruct (form_int (form_quality request) 85) as [quality|e];
    [|rewrite upload_failed_unbound; right; eauto 10].
  destruct (Z_in dpi0 [72; 150; 300]%Z) eqn:Hdpi; cbn [negb]; [|right; eauto 10].
  destruct (str_in _ ["JPEG"; "PNG"]) eqn:Hfmt; cbn [negb]; [|right; eauto 10].
  destruct ((1 <=? quality)%Z && (quality <=? 100)%Z) eqn:Hq; cbn [negb];
    [|right; eauto 10].
  left. exists file, dpi0, quality. repeat (split; [done|]).
  apply Z_in_enumerated in Hdpi. apply str_in_formats in Hfmt.
  apply andb_true_iff in Hq as [H1 H2]. apply Z.leb_le in H1, H2.
  by repeat split.
Qed.

(** What a successful upload answers: the file named in the answer is
    the converted file, in the output folder under the working directory;
    the upload itself is gone; the settings of the answer are in range;
    [cleanup_file] removes the file for the identifier of the answer.
    [download_file] sends it when [send_file] looks in the same place,
    that is when the process runs in the directory of [app.py]; when
    nothing is found under [app.root_path] it answers 500 although the
    file exists. *)
Theorem upload_file_answer_can_be_downloaded request w file file_id filename
    original_size converted_size dpi0 format quality w' :
  request_file request = Some file →
  upload_file request w
  = (JsonConverted file_id filename original_size converted_size dpi0 format
       quality, w') →
  let file_path := os.path_join OUTPUT_FOLDER filename in
  file_id = uuid4
  ∧ filename = output_filename_of (upload_filename file) dpi0
  ∧ (∃ canvas, fs w' !! file_path = Some (File (canvas_bytes canvas)))
  ∧ fs w' !! input_path_of (upload_filename file) = None
  ∧ (root_path_join file_path = file_path →
     download_file (fs w') file_id filename
     = SendFile file_path (download_name_of filename))
  ∧ (fs w' !! root_path_join file_path = None →
     ∃ error, download_file (fs w') file_id filename = JsonError 500 error)
  ∧ cleanup_file (fs w') file_id filename
    = (JsonSuccess, delete file_path (fs w'))
  ∧ (dpi0 = 72 ∨ dpi0 = 150 ∨ dpi0 = 300)%Z
  ∧ (format = "JPEG" ∧ (∃ q, quality = Some q ∧ (1 ≤ q ≤ 100)%Z)
     ∨ format = "PNG" ∧ quality = None).
Proof.
  intros Hfile. unfold upload_file. rewrite Hfile.
  destruct (String.eqb (upload_filename file) ""); [discriminate|].
  destruct (allowed_file (upload_filename file)); cbn [negb]; [|discriminate].
  destruct (form_int (form_dpi request) 150) as [d|e];
    [|by rewrite upload_failed_unbound].
  destruct (form_int (form_quality request) 85) as [q|e];
    [|by rewrite upload_failed_unbound].
  destruct (Z_in d [72; 150; 300]%Z) eqn:Hdpi; cbn [negb]; [|discriminate].
  destruct (str_in _ ["JPEG"; "PNG"]) eqn:Hfmt; cbn [negb]; [|discriminate].
  destruct ((1 <=? q)%Z && (q <=? 100)%Z) eqn:Hq; cbn [negb]; [|discriminate].
  set (input_path := input_path_of (upload_filename file)).
  set (output_filename := output_filename_of (upload_filename file) d).
  set (output_path := os.path_join OUTPUT_FOLDER output_filename).
  assert (Hne : output_path ≠ input_path).
  { intros Heq. symmetry in Heq. by apply uploads_outputs_disjoint in Heq. }
  destruct (os.write_bytes (fs w) input_path (upload_data file)) as [files1|e] eqn:Hsave;
    [|intros Hrun; by apply upload_failed_response in Hrun].
  cbn zeta.
  destruct (validate_pdf files1 input_path) eqn:Hvalid; cbn [negb].
  2:{ destruct (os.remove files1 input_path); [discriminate|].
      intros Hrun; by apply upload_failed_response in Hrun. }
  destruct (__init__ d _ q false) as [converter|e];
    [|intros Hrun; by apply upload_failed_response in Hrun].
  set (w1 := {| fs := files1; scratch := scratch w; trace := trace w |}).
  pose proof (convert_single_pdf_files converter input_path output_path w1 Hvalid)
    as Hconv.
  destruct (validate_pdf_isfile _ _ Hvalid) as [data Hdata].
  destruct (convert_single_pdf converter input_path (Some output_path) w1)
    as [[p|e] w2]; [|intros Hrun; by apply upload_failed_response in Hrun].
  destruct Hconv as (_ & canvas & Hfs2). cbn [w1 fs] in Hfs2.
  unfold os.path_getsize, os.remove. rewrite Hfs2.
  rewrite lookup_insert_eq, lookup_insert_ne, Hdata by done.
  intros [= <- <- _ _ <- <- <- <-]. cbn [fs]. cbn zeta.
  fold output_filename. fold output_path.
  assert (Hfile' : delete input_path
                     (<[output_path := File (canvas_bytes canvas)]> files1)
                   !! output_path = Some (File (canvas_bytes canvas))).
  { rewrite lookup_delete_ne by done. by rewrite lookup_insert_eq. }
  split; [reflexivity|]. split; [reflexivity|]. split; [by exists canvas|].
  split; [by rewrite lookup_delete_eq|].
  assert (Hstart : Py.startswith output_filename uuid4 = true)
    by apply startswith_app.
  split.
  { intros Hroot. unfold download_file, send_file, os.path_exists.
    fold output_path. fold output_path in Hroot.
    by rewrite Hstart, Hroot, Hfile'. }
  split.
  { intros Hroot. unfold download_file, send_file, os.path_exists.
    fold output_path. fold output_path in Hroot.
    rewrite Hstart, Hfile', Hroot. cbn. eauto. }
  split.
  { unfold cleanup_file, os.path_exists, os.remove. fold output_path.
    by rewrite Hstart, Hfile'. }
  split; [by apply Z_in_enumerated|].
  apply str_in_formats in Hfmt. apply andb_true_iff in Hq as [H1 H2].
  apply Z.leb_le in H1, H2.
  destruct Hfmt as [-> | ->]; cbn; [left | right]; eauto.
Qed.

End UploadLemmas.

(** * The stages and the batch, whatever the input *)


Section Stages.

Context {env : Environment}.



(** ** What the rasterizer leaves in the temporary directory *)

Lemma temp_pixmap_path_inj tmp n m :
  temp_pixmap_path tmp n = temp_pixmap_path tmp m → n = m.
Proof.
  unfold temp_pixmap_path. intros Heq. apply path_join_inj in Heq.
  apply append_cancel_l, append_cancel_r in Heq.
  by apply (inj pretty) in Heq.
Qed.

Lemma process_page_scratch self doc tmp n w :
  (∀ m, scratch w !! temp_pixmap_path tmp m = None) →
  match process_page self doc tmp n w with
  | (Ok item, w') =>
      fst item = image_path_of self tmp n
      ∧ (∃ img, scratch w' = <[image_path_of self tmp n := img]> (scratch w))
  | (Raise _, w') =>
      ∀ k, k ≠ temp_pixmap_path tmp n → scratch w' !! k = scratch w !! k
  end.
Proof.
  intros Hclean.
  destruct (doc_pages doc !! n) as [page|] eqn:Hpage.
  - pose proof (process_page_outcome self doc tmp n page w Hpage) as Hrun.
    cbn zeta in Hrun. destruct (page_outcome self page) as [e|[pixmap data]].
    + by destruct Hrun as (err & w' & -> & _ & _ & _ & Hframe).
    + rewrite Hrun. cbn [fst scratch]. split; [reflexivity|].
      eexists. by rewrite delete_id.
  - unfold process_page, load_page, bind at 1. by rewrite Hpage.
Qed.

Lemma page_loop_scratch self doc tmp nums acc w :
  (∀ m, scratch w !! temp_pixmap_path tmp m = None) →
  match page_loop self doc tmp nums acc w with
  | (Ok image_paths, w') =>
      (∃ items, image_paths = acc ++ items
                ∧ map fst items = map (image_path_of self tmp) nums)
      ∧ (∀ k, is_Some (scratch w' !! k) ↔
              is_Some (scratch w !! k)
              ∨ k ∈ map (image_path_of self tmp) nums)
  | (Raise e, w') =>
      ∀ m, is_Some (scratch w' !! temp_pixmap_path tmp m) →
           ∃ msg, e = page_error m msg
  end.
Proof.
  revert acc w. induction nums as [|n nums IH]; intros acc w Hclean.
  - cbn. split; [exists []; by rewrite app_nil_r|].
    intros k. split; [auto|]. intros [Hk|Hk]; [done | by apply elem_of_nil in Hk].
  - rewrite page_loop_cons.
    pose proof (process_page_scratch self doc tmp n w Hclean) as Hpage.
    destruct (process_page self doc tmp n w) as [[item|e] w1].
    + destruct Hpage as (Hitem & img & Hscratch).
      assert (Hclean1 : ∀ m, scratch w1 !! temp_pixmap_path tmp m = None).
      { intros m. rewrite Hscratch, lookup_insert_ne; [apply Hclean|].
        apply image_path_not_temp. }
      specialize (IH (acc ++ [item]) w1 Hclean1).
      destruct (page_loop self doc tmp nums (acc ++ [item]) w1)
        as [[image_paths|e] w2]; [|exact IH].
      destruct IH as ((items & -> & Hitems) & Hdom). split.
      * exists (item :: items). rewrite <- app_assoc. split; [reflexivity|].
        cbn [map]. by rewrite Hitem, Hitems.
      * intros k. rewrite Hdom, Hscratch. cbn [map]. rewrite elem_of_cons.
        destruct (decide (image_path_of self tmp n = k)) as [->|Hne].
        -- rewrite lookup_insert_eq. split; [auto|]. intros _. left. eauto.
        -- rewrite lookup_insert_ne by exact Hne. split.
           ++ intros [Hk|Hk]; auto.
           ++ intros [Hk|[Hk|Hk]]; [auto | congruence | auto].
    + intros m Hm.
      destruct (decide (m = n)) as [->|Hne]; [by eexists|].
      rewrite Hpage, Hclean in Hm; [by destruct Hm|].
      intros Heq. by apply temp_pixmap_path_inj in Heq.
Qed.

(** When the rasterizer returns, none of its pixmap dumps is left and the
    temporary directory holds, on top of what it held before, exactly the
    image files of the returned list.  When it raises, the only dump that
    can be left is that of the page whose failure it reports: the dump is
    removed only after [Image.open] has returned. *)
Theorem convert_pdf_to_images_leaves_only_images self pdf_path temp_dir w :
  (∀ page_num, scratch w !! temp_pixmap_path temp_dir page_num = None) →
  match convert_pdf_to_images self pdf_path temp_dir w with
  | (Ok image_paths, w') =>
      (∀ page_num, scratch w' !! temp_pixmap_path temp_dir page_num = None)
      ∧ (∀ k, is_Some (scratch w' !! k) ↔
              is_Some (scratch w !! k) ∨ k ∈ map fst image_paths)
  | (Raise e, w') =>
      ∀ page_num,
        is_Some (scratch w' !! temp_pixmap_path temp_dir page_num) →
        ∃ msg, e = page_error page_num msg
  end.
Proof.
  intros Hclean. rewrite convert_pdf_to_images_eq.
  destruct (fitz_open pdf_path (fs w !! pdf_path)) as [msg|doc].
  { intros m Hm. rewrite Hclean in Hm. by destruct Hm. }
  destruct (is_encrypted doc).
  { intros m Hm. cbn [logged scratch] in Hm. rewrite Hclean in Hm.
    by destruct Hm. }
  match goal with |- context [page_loop _ _ _ ?l ?a ?w1] =>
    pose proof (page_loop_scratch self doc temp_dir l a w1 Hclean) as Hloop;
    destruct (page_loop self doc temp_dir l a w1) as [[imgs|e] w2] end;
    cbn [fst snd scratch logged] in *; [|exact Hloop].
  destruct Hloop as ((items & -> & Hitems) & Hdom). cbn [app].
  rewrite Hitems. split; [|exact Hdom].
  intros m. destruct (scratch w2 !! temp_pixmap_path temp_dir m) eqn:Hm;
    [|reflexivity].
  assert (Hsome : is_Some (scratch w2 !! temp_pixmap_path temp_dir m)) by eauto.
  apply Hdom in Hsome as [Hsome|Hsome].
  - rewrite Hclean in Hsome. by destruct Hsome.
  - apply list_elem_of_fmap in Hsome as (n & Heq & _).
    symmetry in Heq. by apply image_path_not_temp in Heq.
Qed.

(** ** The batch with an output directory *)








End Stages.

(** * The further properties on the sample files *)

Section MoreWitnesses.

Local Existing Instance Sample.sample_env.
Local Existing Instance SampleWeb.sample_web.

Lemma site_free (folder name : string) :
  folder = UPLOAD_FOLDER ∨ folder = OUTPUT_FOLDER →
  fs SampleWeb.site !! os.path_join folder (uuid4 +:+ name) = None.
Proof.
  intros [-> | ->]; unfold SampleWeb.site, Sample.world_of, Sample.library;
    cbn [fs]; rewrite !lookup_insert_ne by (cbv; discriminate);
    apply lookup_singleton_ne; cbv; discriminate.
Qed.

Lemma main_rejects_invalid_input_before_converting_witness :
  ∃ msg, main (SampleCli.single_args "empty.pdf") None Sample.w0
         = (ParserError msg, Sample.w0).
Proof.
  apply (main_rejects_invalid_input_before_converting
           (SampleCli.single_args "empty.pdf") None Sample.w0 "empty.pdf").
  - apply elem_of_cons. left. reflexivity.
  - vm_compute. reflexivity.
Defined.




Lemma expand_glob_patterns_unique_witness :
  expand_glob_patterns SampleWeb.sample_glob ["q.pdf"; "*.pdf"; "b.pdf"; "q.pdf"]
  = ["q.pdf"; "a.pdf"; "z.pdf"; "b.pdf"].
Proof.
  destruct (expand_glob_patterns_unique SampleWeb.sample_glob
              ["q.pdf"; "*.pdf"; "b.pdf"; "q.pdf"]) as [Heq _].
  rewrite Heq. vm_compute. reflexivity.
Defined.

Lemma expand_glob_patterns_literal_witness :
  expand_glob_patterns (fun _ => ["z.pdf"]) ["b.pdf"; "a.pdf"]
  = ["b.pdf"; "a.pdf"].
Proof.
  apply (expand_glob_patterns_literal (fun _ => ["z.pdf"]) ["b.pdf"; "a.pdf"]).
  - intros p Hin. apply elem_of_cons in Hin as [->|Hin]; [reflexivity|].
    apply list_elem_of_singleton in Hin as ->. reflexivity.
  - apply NoDup_cons. split; [|apply NoDup_singleton].
    intros Hin. apply list_elem_of_singleton in Hin. discriminate.
Defined.


Lemma download_name_drops_first_segment_witness :
  download_name_of "0f8fad5b-d9cb_report_image_150dpi.pdf"
  = "image_150dpi.pdf_converted.pdf"
  ∧ download_name_of "0f8fad5b-d9cb_my_report_image_150dpi.pdf"
    = "report_converted.pdf".
Proof.
  destruct (download_name_drops_first_segment "0f8fad5b-d9cb" 150)
    as [Hplain Hsplit].
  - reflexivity.
  - right. left. reflexivity.
  - split.
    + exact (Hplain "report" eq_refl).
    + exact (Hsplit "my" "report" eq_refl).
Defined.

Lemma format_file_size_unit_witness :
  format_file_size 1000 = "1000 B" ∧ format_file_size 1536 = "1.5 KB".
Proof.
  split.
  - destruct (format_file_size_unit 1000) as [Hbytes _]; [lia|].
    apply Hbytes. lia.
  - destruct (format_file_size_unit 1536) as [_ Hunit]; [lia|].
    apply (Hunit 1); [lia | cbn; lia | intros _; cbn; lia].
Defined.

Lemma format_file_size_shows_1024_witness :
  format_file_size 1048575 = "1024.0 KB".
Proof.
  apply (format_file_size_shows_1024 1048575 1); [lia | cbn; lia | cbn; lia].
Defined.

Lemma estimate_memory_usage_closed_form_witness :
  estimate_memory_usage 10 150 "jpeg" = 157781250%Z
  ∧ (3 * estimate_memory_usage 10 150 "PNG"
     = 4 * estimate_memory_usage 10 150 "JPEG")%Z.
Proof.
  apply (estimate_memory_usage_closed_form 10 75 "jpeg"); [lia | lia | cbn; lia].
Defined.

Lemma upload_file_all_or_nothing_witness :
  ∃ canvas w',
    upload_file (SampleWeb.request_of SampleWeb.report "300") SampleWeb.site
    = (JsonConverted uuid4 "0f8fad5b-d9cb-469f-a165-70867728950e_my_report_image_300dpi.pdf"
         "127 B" "111 B" 300 "PNG" None, w')
    ∧ fs w'
      = <[ "outputs/0f8fad5b-d9cb-469f-a165-70867728950e_my_report_image_300dpi.pdf"
           := File (canvas_bytes canvas) ]> (fs SampleWeb.site).
Proof.
  pose proof (upload_file_all_or_nothing
                (SampleWeb.request_of SampleWeb.report "300") SampleWeb.site
                SampleWeb.report eq_refl) as Hupload.
  destruct (upload_file (SampleWeb.request_of SampleWeb.report "300")
              SampleWeb.site) as [r w'] eqn:Hrun.
  assert (Hr : r = JsonConverted uuid4
                 "0f8fad5b-d9cb-469f-a165-70867728950e_my_report_image_300dpi.pdf"
                 "127 B" "111 B" 300 "PNG" None).
  { apply (f_equal fst) in Hrun. cbn [fst] in Hrun. rewrite <- Hrun.
    vm_compute. reflexivity. }
  subst r.
  destruct Hupload as (_ & _ & canvas & Hfs).
  - apply (site_free UPLOAD_FOLDER). by left.
  - intros dpi0. apply (site_free OUTPUT_FOLDER). by right.
  - exists canvas, w'. split; [reflexivity | exact Hfs].
Defined.

Lemma upload_file_answer_can_be_downloaded_witness :
  download_file
    (fs (snd (upload_file (SampleWeb.request_of SampleWeb.report "300")
                SampleWeb.site)))
    uuid4 "0f8fad5b-d9cb-469f-a165-70867728950e_my_report_image_300dpi.pdf"
  = SendFile
      "outputs/0f8fad5b-d9cb-469f-a165-70867728950e_my_report_image_300dpi.pdf"
      "report_converted.pdf"
  ∧ ∃ error,
      download_file (web := SampleWeb.elsewhere_web)
        (fs (snd (upload_file (web := SampleWeb.elsewhere_web)
                    (SampleWeb.request_of SampleWeb.report "300")
                    SampleWeb.site)))
        uuid4 "0f8fad5b-d9cb-469f-a165-70867728950e_my_report_image_300dpi.pdf"
      = JsonError 500 error.
Proof.
  split.
  - destruct (upload_file_answer_can_be_downloaded
                (SampleWeb.request_of SampleWeb.report "300") SampleWeb.site
                SampleWeb.report uuid4
                "0f8fad5b-d9cb-469f-a165-70867728950e_my_report_image_300dpi.pdf"
                "127 B" "111 B" 300 "PNG" None
                (snd (upload_file (SampleWeb.request_of SampleWeb.report "300")
                        SampleWeb.site)))
      as (_ & _ & _ & _ & Hdownload & _).
    + reflexivity.
    + vm_compute. reflexivity.
    + apply Hdownload. reflexivity.
  - destruct (upload_file_answer_can_be_downloaded
                (web := SampleWeb.elsewhere_web)
                (SampleWeb.request_of SampleWeb.report "300") SampleWeb.site
                SampleWeb.report
                "0f8fad5b-d9cb-469f-a165-70867728950e"
                "0f8fad5b-d9cb-469f-a165-70867728950e_my_report_image_300dpi.pdf"
                "127 B" "111 B" 300 "PNG" None
                (snd (upload_file (web := SampleWeb.elsewhere_web)
                        (SampleWeb.request_of SampleWeb.report "300")
                        SampleWeb.site)))
      as (_ & _ & _ & _ & _ & Hmissing & _).
    + reflexivity.
    + vm_compute. reflexivity.
    + apply Hmissing. vm_compute. reflexivity.
Defined.

Lemma convert_pdf_to_images_leaves_only_images_witness :
  ∃ msg,
    fst (convert_pdf_to_images (env := Sample.windows_env) Sample.jpeg150
           "in.pdf" "/tmp/tmpk3xq9d_a" Sample.w0)
    = Raise (page_error 0 msg)
    ∧ scratch (snd (convert_pdf_to_images (env := Sample.windows_env)
                      Sample.jpeg150 "in.pdf" "/tmp/tmpk3xq9d_a" Sample.w0))
        !! temp_pixmap_path "/tmp/tmpk3xq9d_a" 0
      = Some (Ppm {| pm_width := 1275; pm_height := 1650 |}).
Proof.
  pose proof (convert_pdf_to_images_leaves_only_images
                (env := Sample.windows_env) Sample.jpeg150 "in.pdf"
                "/tmp/tmpk3xq9d_a" Sample.w0) as Hleft.
  destruct (convert_pdf_to_images (env := Sample.windows_env) Sample.jpeg150
              "in.pdf" "/tmp/tmpk3xq9d_a" Sample.w0) as [r w'] eqn:Hrun.
  assert (Hdump : scratch w' !! temp_pixmap_path "/tmp/tmpk3xq9d_a" 0
                  = Some (Ppm {| pm_width := 1275; pm_height := 1650 |})).
  { apply (f_equal snd) in Hrun. cbn [snd] in Hrun. rewrite <- Hrun.
    vm_compute. reflexivity. }
  destruct r as [imgs|e].
  - destruct Hleft as [Hnone _]; [intros page_num; apply lookup_empty|].
    rewrite Hnone in Hdump. discriminate.
  - destruct (Hleft ltac:(intros page_num; apply lookup_empty) 0) as [msg ->].
    + rewrite Hdump. eauto.
    + exists msg. split; [reflexivity | exact Hdump].
Defined.


End MoreWitnesses.
